(** * rfscopedb: the data model of [src/rfscopedb/data_model.py]

    A shallow embedding of the [Scan] and [Query] classes and of the
    properties stated about them.

    Conventions of the embedding.
    - Python exceptions are values of [exn]; a call that may raise returns a
      [result].
    - A method that mutates an object is a function of the state monad [M]:
      it returns its result (or the exception raised) together with the state
      in which the call left the object.  The state is kept when an exception
      is raised, as Python keeps every mutation done before the [raise].
    - A Python [dict] is an association list in insertion order ([dict]).
    - NumPy and SciPy are outside the repository; their functions are the
      operations of the class [NumPy] and every statement holds for every
      instance.  [SymNumPy] is the instance in which a library call is kept
      as an uninterpreted term; it is used to run the model on concrete
      inputs.
    - The MySQL connection is outside the repository; [Conn] is a model of a
      connection with autocommit off, whose calls fail according to a script
      of faults. *)

From Stdlib Require Import List String ZArith Bool Lia QArith DecimalString.
Import ListNotations.
Local Open Scope string_scope.
Local Open Scope Z_scope.

(* ================================================================== *)
(** * Exceptions and results *)

Inductive exn : Type :=
| TypeError (msg : string)
| ValueError (msg : string)
| RuntimeError (msg : string)
| KeyError (key : string)
| AttributeError (msg : string)
| ZeroDivisionError (msg : string)
| DatabaseError (errno : Z) (msg : string).   (* mysql.connector.Error *)

Inductive exn_class : Type :=
| CTypeError | CValueError | CRuntimeError | CKeyError
| CAttributeError | CZeroDivisionError | CDatabaseError.

Definition class_of (e : exn) : exn_class :=
  match e with
  | TypeError _ => CTypeError
  | ValueError _ => CValueError
  | RuntimeError _ => CRuntimeError
  | KeyError _ => CKeyError
  | AttributeError _ => CAttributeError
  | ZeroDivisionError _ => CZeroDivisionError
  | DatabaseError _ _ => CDatabaseError
  end.

Inductive result (A : Type) : Type :=
| Ok (a : A)
| Err (e : exn).
Arguments Ok {A} a.
Arguments Err {A} e.

Definition is_ok {A} (r : result A) : bool :=
  match r with Ok _ => true | Err _ => false end.

Definition repr_Z (n : Z) : string := NilZero.string_of_int (Z.to_int n).

(* ================================================================== *)
(** * The state monad with exceptions *)

Definition M (St A : Type) : Type := St -> result A * St.

Definition ret {St A} (a : A) : M St A := fun st => (Ok a, st).

Definition raise {St A} (e : exn) : M St A := fun st => (Err e, st).

Definition bind {St A B} (m : M St A) (k : A -> M St B) : M St B :=
  fun st =>
    match m st with
    | (Ok a, st') => k a st'
    | (Err e, st') => (Err e, st')
    end.

Declare Scope py_scope.
Delimit Scope py_scope with py.
Notation "x <- m ;; k" := (bind m (fun x => k))
  (at level 61, m at next level, right associativity) : py_scope.
Notation "' p <- m ;; k" := (bind m (fun x => match x with p => k end))
  (at level 61, p pattern, m at next level, right associativity) : py_scope.
Notation "m ;; k" := (bind m (fun _ => k))
  (at level 61, right associativity) : py_scope.
Local Open Scope py_scope.

Definition get_state {St} : M St St := fun st => (Ok st, st).
Definition put_state {St} (st : St) : M St unit := fun _ => (Ok tt, st).
Definition modify {St} (f : St -> St) : M St unit := fun st => (Ok tt, f st).

Definition lift_result {St A} (r : result A) : M St A := fun st => (r, st).

(** [for x in l: body x] *)
Fixpoint for_each {St X} (l : list X) (body : X -> M St unit) : M St unit :=
  match l with
  | [] => ret tt
  | x :: l' => body x ;; for_each l' body
  end.

(** [try: body  except Exception as e: handler e] *)
Definition try_except {St A} (body : M St A) (handler : exn -> M St A) : M St A :=
  fun st =>
    match body st with
    | (Ok a, st') => (Ok a, st')
    | (Err e, st') => handler e st'
    end.

(** Running a computation on one component of a larger state. *)
Definition on_snd {S1 S2 A} (m : M S2 A) : M (S1 * S2) A :=
  fun st =>
    let '(r, c') := m (snd st) in (r, (fst st, c')).

Definition read_fst {S1 S2} : M (S1 * S2) S1 := fun st => (Ok (fst st), st).

(* ================================================================== *)
(** * Python dictionaries *)

Definition dict (V : Type) : Type := list (string * V).

Section Dict.
Context {V : Type}.

Definition dict_keys (d : dict V) : list string := map fst d.
Definition dict_values (d : dict V) : list V := map snd d.
Definition dict_items (d : dict V) : list (string * V) := d.

(** [d.get(k)] *)
Fixpoint dict_get (k : string) (d : dict V) : option V :=
  match d with
  | [] => None
  | (k', v) :: d' => if String.eqb k k' then Some v else dict_get k d'
  end.

(** [k in d.keys()] *)
Definition dict_mem (k : string) (d : dict V) : bool :=
  match dict_get k d with Some _ => true | None => false end.

(** [d[k] = v]: an existing key keeps its place, a new key goes last. *)
Fixpoint dict_set (k : string) (v : V) (d : dict V) : dict V :=
  match d with
  | [] => [(k, v)]
  | (k', v') :: d' =>
      if String.eqb k k' then (k', v) :: d' else (k', v') :: dict_set k v d'
  end.

(** [d.update(other)] *)
Definition dict_update (d other : dict V) : dict V :=
  fold_left (fun acc kv => dict_set (fst kv) (snd kv) acc) (dict_items other) d.

(** [d[k]], which raises [KeyError] on a missing key. *)
Definition getitem {St} (d : dict V) (k : string) : M St V :=
  match dict_get k d with
  | Some v => ret v
  | None => raise (KeyError k)
  end.

(** A list of bindings is a Python dict when no key occurs twice. *)
Fixpoint nodup_keys (d : dict V) : bool :=
  match d with
  | [] => true
  | (k, _) :: d' => negb (dict_mem k d') && nodup_keys d'
  end.
End Dict.

(** [len(l)] *)
Definition len {A} (l : list A) : Z := Z.of_nat (List.length l).

(** [range(n)] *)
Definition range (n : Z) : list Z := map Z.of_nat (seq 0 (Z.to_nat n)).

(** Instants; [utils.get_datetime_as_utc] and [strftime] are applied to them
    before they are bound to a statement. *)
Definition datetime : Type := Z.

(** Modelled from the spec: [utils.get_datetime_as_utc] is not part of the
    file; the spec has it normalise a timestamp to UTC without changing the
    instant it denotes.  Instants are kept in UTC microseconds, on which the
    normalisation is the identity. *)
Definition get_datetime_as_utc (t : datetime) : datetime := t.

(* ================================================================== *)
(** * The numeric library *)

Class NumPy : Type := {
  scalar : Type;      (* a float64 *)
  darray : Type;      (* an array returned by [scipy.signal.periodogram] *)
  index : Type;       (* a position in such an array *)
  np_min : list scalar -> scalar;
  np_max : list scalar -> scalar;
  np_sub : scalar -> scalar -> scalar;
  np_mean : list scalar -> scalar;
  np_median : list scalar -> scalar;
  np_std : list scalar -> scalar;          (* ddof = 0 *)
  np_sqrt : scalar -> scalar;
  np_square : list scalar -> list scalar;
  np_percentile : list scalar -> Z -> scalar;
  periodogram : list scalar -> scalar -> darray * darray;
  np_argmax : darray -> index;
  np_getitem : darray -> index -> scalar;
}.

(** The instance of uninterpreted library calls. *)
#[local] Unset Elimination Schemes.
Inductive sym : Type :=
| SLit (z : Z)
| SMin (a : list sym)
| SMax (a : list sym)
| SSub (x y : sym)
| SMean (a : list sym)
| SMedian (a : list sym)
| SStd (a : list sym)
| SSqrt (x : sym)
| SSquare (x : sym)
| SPercentile (a : list sym) (q : Z)
| SItem (d : symarr) (i : symidx)
with symarr : Type :=
| SFreq (a : list sym) (fs : sym)
| SPxx (a : list sym) (fs : sym)
with symidx : Type :=
| SArgmax (d : symarr).
#[local] Set Elimination Schemes.

#[export] Instance SymNumPy : NumPy := {|
  scalar := sym;
  darray := symarr;
  index := symidx;
  np_min := SMin;
  np_max := SMax;
  np_sub := SSub;
  np_mean := SMean;
  np_median := SMedian;
  np_std := SStd;
  np_sqrt := SSqrt;
  np_square := map SSquare;
  np_percentile := SPercentile;
  periodogram := fun a fs => (SFreq a fs, SPxx a fs);
  np_argmax := SArgmax;
  np_getitem := SItem;
|}.

(* ================================================================== *)
(** * Scan *)

Section ScanModel.
Context {NP : NumPy}.

(** The values a caller can pass as a waveform.  An ndarray is given by its
    elements; its dtype is a sub-dtype of [np.number] when every element
    is a number. *)
Inductive pyelem : Type :=
| PyNum (x : scalar)
| PyStr (s : string)
| PyNone.

Inductive pyobj : Type :=
| PyList (l : list pyelem)
| PyTuple (l : list pyelem)
| PyNdarray (l : list pyelem)
| PyOther (type_name : string).     (* any other object *)

(** [isinstance(arr, (list, np.ndarray, tuple))] *)
Definition is_array_like (arr : pyobj) : bool :=
  match arr with
  | PyList _ | PyTuple _ | PyNdarray _ => true
  | PyOther _ => false
  end.

(** The elements of [np.array(arr)]. *)
Definition np_array (arr : pyobj) : list pyelem :=
  match arr with
  | PyList l | PyTuple l | PyNdarray l => l
  | PyOther _ => []
  end.


(** [np.issubdtype(a.dtype, np.number)], and the numbers of [a] when it
    holds. *)
Fixpoint numeric_values (a : list pyelem) : option (list scalar) :=
  match a with
  | [] => Some []
  | PyNum x :: a' =>
      match numeric_values a' with
      | Some xs => Some (x :: xs)
      | None => None
      end
  | _ :: _ => None
  end.

(** [Scan.analyze_signal] *)
Definition analyze_signal (arr : pyobj) (sampling_rate : scalar)
  : result (dict scalar * dict darray) :=
  if negb (is_array_like arr) then
    Err (TypeError ("Input must be a list, numpy array, or tuple. Not "
                      ++ match arr with PyOther t => t | _ => "" end))
  else
    let arr := np_array arr in
    match numeric_values arr with
    | None => Err (ValueError "Input array must contain only numerical values.")
    | Some x =>
        if negb (len arr =? 8192) then
          Err (ValueError ("Input array must have exactly 8192 elements. Got "
                             ++ repr_Z (len arr) ++ " elements."))
        else
          let min_val := np_min x in
          let max_val := np_max x in
          let '(f, pxx_den) := periodogram x sampling_rate in
          let scalars :=
            [ ("minimum", min_val);
              ("maximum", max_val);
              ("peak_to_peak", np_sub max_val min_val);
              ("mean", np_mean x);
              ("median", np_median x);
              ("standard_deviation", np_std x);
              ("rms", np_sqrt (np_mean (np_square x)));
              ("25th_quartile", np_percentile x 25);
              ("75th_quartile", np_percentile x 75);
              ("dominant_frequency", np_getitem f (np_argmax pxx_den)) ] in
          let arrays := [ ("power_spectrum", pxx_den) ] in
          Ok (scalars, arrays)
    end.

Record Scan : Type := mkScan {
  id : option Z;
  start : datetime;
  end_ : datetime;
  waveform_data : dict (dict pyobj);
  sampling_rate : dict scalar;
  analysis_scalar : dict (dict (dict scalar));
  analysis_array : dict (dict (dict darray));
  scan_data_float : dict scalar;
  scan_data_str : dict string;
}.

(** [Scan.__init__] *)
Definition Scan_init (start_ end__ : datetime) (sid : option Z) : Scan :=
  {| id := sid; start := start_; end_ := end__;
     waveform_data := []; sampling_rate := [];
     analysis_scalar := []; analysis_array := [];
     scan_data_float := []; scan_data_str := [] |}.

Definition set_waveform_data (v : dict (dict pyobj)) (s : Scan) : Scan :=
  mkScan (id s) (start s) (end_ s) v (sampling_rate s) (analysis_scalar s)
         (analysis_array s) (scan_data_float s) (scan_data_str s).
Definition set_sampling_rate (v : dict scalar) (s : Scan) : Scan :=
  mkScan (id s) (start s) (end_ s) (waveform_data s) v (analysis_scalar s)
         (analysis_array s) (scan_data_float s) (scan_data_str s).
Definition set_analysis_scalar (v : dict (dict (dict scalar))) (s : Scan) : Scan :=
  mkScan (id s) (start s) (end_ s) (waveform_data s) (sampling_rate s) v
         (analysis_array s) (scan_data_float s) (scan_data_str s).
Definition set_analysis_array (v : dict (dict (dict darray))) (s : Scan) : Scan :=
  mkScan (id s) (start s) (end_ s) (waveform_data s) (sampling_rate s)
         (analysis_scalar s) v (scan_data_float s) (scan_data_str s).
Definition set_scan_data_float (v : dict scalar) (s : Scan) : Scan :=
  mkScan (id s) (start s) (end_ s) (waveform_data s) (sampling_rate s)
         (analysis_scalar s) (analysis_array s) v (scan_data_str s).
Definition set_scan_data_str (v : dict string) (s : Scan) : Scan :=
  mkScan (id s) (start s) (end_ s) (waveform_data s) (sampling_rate s)
         (analysis_scalar s) (analysis_array s) (scan_data_float s) v.

(** The error of a name that is in both dictionaries. *)
Definition duplicate_name_error (k : string) : exn :=
  ValueError ("A metadata name may only appear once in either the float or str data. ('"
                ++ k ++ "')").

(** [Scan.add_scan_data] *)
Definition add_scan_data (float_data : dict scalar) (str_data : dict string)
  : M Scan unit :=
  for_each (dict_keys float_data) (fun k =>
    if dict_mem k str_data then raise (duplicate_name_error k) else ret tt) ;;
  modify (fun self =>
    set_scan_data_float (dict_update (scan_data_float self) float_data) self) ;;
  modify (fun self =>
    set_scan_data_str (dict_update (scan_data_str self) str_data) self).

(** [self.analysis_scalar[cavity][signal_name] = v] *)
Definition setitem_analysis_scalar (cavity signal_name : string)
           (v : dict scalar) : M Scan unit :=
  self <- get_state ;;
  inner <- getitem (analysis_scalar self) cavity ;;
  put_state (set_analysis_scalar
               (dict_set cavity (dict_set signal_name v inner) (analysis_scalar self))
               self).

(** [self.analysis_array[cavity][signal_name] = v] *)
Definition setitem_analysis_array (cavity signal_name : string)
           (v : dict darray) : M Scan unit :=
  self <- get_state ;;
  inner <- getitem (analysis_array self) cavity ;;
  put_state (set_analysis_array
               (dict_set cavity (dict_set signal_name v inner) (analysis_array self))
               self).

(** [self.analysis_array[cavity][signal_name][arr_name] = array] *)
Definition setitem_analysis_array3 (cavity signal_name arr_name : string)
           (array : darray) : M Scan unit :=
  self <- get_state ;;
  inner <- getitem (analysis_array self) cavity ;;
  bundle <- getitem inner signal_name ;;
  put_state (set_analysis_array
               (dict_set cavity
                  (dict_set signal_name (dict_set arr_name array bundle) inner)
                  (analysis_array self))
               self).

(** One turn of the loop of [add_cavity_data], for the signal
    [signal_name] of [data]. *)
Definition analyse_and_store (cavity : string) (data : dict pyobj) (rate : scalar)
           (signal_name : string) : M Scan unit :=
  if String.eqb signal_name "Time" then ret tt
  else
    arr <- getitem data signal_name ;;
    ' (scalars, arrays) <- lift_result (analyze_signal arr rate) ;;
    setitem_analysis_scalar cavity signal_name scalars ;;
    setitem_analysis_array cavity signal_name [] ;;
    for_each (dict_items arrays) (fun '(arr_name, array) =>
      setitem_analysis_array3 cavity signal_name arr_name array).

(** [Scan.add_cavity_data].  The Scan keeps the caller's [data]; the caller
    is taken not to change it afterwards. *)
Definition add_cavity_data (cavity : string) (data : dict pyobj)
           (sampling_rate_ : scalar) : M Scan unit :=
  modify (fun self =>
    set_waveform_data (dict_set cavity data (waveform_data self)) self) ;;
  modify (fun self =>
    set_analysis_scalar (dict_set cavity [] (analysis_scalar self)) self) ;;
  modify (fun self =>
    set_analysis_array (dict_set cavity [] (analysis_array self)) self) ;;
  modify (fun self =>
    set_sampling_rate (dict_set cavity sampling_rate_ (sampling_rate self)) self) ;;
  for_each (dict_keys data) (analyse_and_store cavity data sampling_rate_).

End ScanModel.

(* ================================================================== *)
(** * The database connection *)

Section Persistence.
Context {NP : NumPy}.

(** [json.dumps(a.tolist())]: the encoding is injective and a payload is
    given by the array it encodes. *)
Inductive json : Type :=
| JsonList (l : list pyelem)
| JsonArr (a : darray).

(** The rows of the six tables. *)
Inductive row : Type :=
| ScanRow (sid : Z) (scan_start_utc scan_end_utc : datetime)
| WaveformRow (wid sid : Z) (cavity signal_name : string) (sample_rate_hz : scalar)
| WaveformAdataRow (wid : Z) (name : string) (data : json)
| WaveformSdataRow (wid : Z) (name : string) (value : scalar)
| ScanFdataRow (sid : Z) (name : string) (value : scalar)
| ScanSdataRow (sid : Z) (name : string) (value : string).

(** The statements of the module, each with the parameters bound to it.
    The last four are passed to [executemany] with one tuple per row. *)
Inductive stmt : Type :=
| InsertScan (scan_start_utc scan_end_utc : datetime)
| SelectLastInsertId
| InsertWaveform (sid : Z) (cavity signal_name : string) (sample_rate_hz : scalar)
| InsertWaveformAdata (params : list (Z * string * json))
| InsertWaveformSdata (params : list (Z * string * scalar))
| InsertScanFdata (params : list (Z * string * scalar))
| InsertScanSdata (params : list (Z * string * string)).

Record Conn : Type := mkConn {
  committed : list row;          (* what every observer sees *)
  pending : list row;            (* written by the open transaction *)
  next_sid : Z;                  (* AUTO_INCREMENT of scan *)
  next_wid : Z;                  (* AUTO_INCREMENT of waveform *)
  last_insert_id : Z;
  result_set : option Z;         (* the row the cursor holds *)
  statements : list stmt;        (* passed to the cursor, oldest first *)
  cursor_open : bool;
  faults : list (option exn);    (* the outcome of the next calls *)
}.

Definition set_faults (v : list (option exn)) (c : Conn) : Conn :=
  mkConn (committed c) (pending c) (next_sid c) (next_wid c) (last_insert_id c)
         (result_set c) (statements c) (cursor_open c) v.
Definition set_pending (v : list row) (c : Conn) : Conn :=
  mkConn (committed c) v (next_sid c) (next_wid c) (last_insert_id c)
         (result_set c) (statements c) (cursor_open c) (faults c).
Definition set_cursor_open (v : bool) (c : Conn) : Conn :=
  mkConn (committed c) (pending c) (next_sid c) (next_wid c) (last_insert_id c)
         (result_set c) (statements c) v (faults c).
Definition set_result_set (v : option Z) (c : Conn) : Conn :=
  mkConn (committed c) (pending c) (next_sid c) (next_wid c) (last_insert_id c)
         v (statements c) (cursor_open c) (faults c).
Definition log_statement (q : stmt) (c : Conn) : Conn :=
  mkConn (committed c) (pending c) (next_sid c) (next_wid c) (last_insert_id c)
         (result_set c) (statements c ++ [q]) (cursor_open c) (faults c).

(** A call to the driver: it raises when the script says so and has its
    effect otherwise. *)
Definition db_call {A} (effect : Conn -> A * Conn) : M Conn A :=
  fun c =>
    match faults c with
    | Some e :: fs => (Err e, set_faults fs c)
    | None :: fs => let '(a, c') := effect (set_faults fs c) in (Ok a, c')
    | [] => let '(a, c') := effect c in (Ok a, c')
    end.

(** The effect of a statement inside the open transaction. *)
Definition apply_stmt (q : stmt) (c : Conn) : Conn :=
  match q with
  | InsertScan s e =>
      mkConn (committed c) (pending c ++ [ScanRow (next_sid c) s e])
             (next_sid c + 1) (next_wid c) (next_sid c)
             (result_set c) (statements c) (cursor_open c) (faults c)
  | SelectLastInsertId => set_result_set (Some (last_insert_id c)) c
  | InsertWaveform sid cav sig rate =>
      mkConn (committed c) (pending c ++ [WaveformRow (next_wid c) sid cav sig rate])
             (next_sid c) (next_wid c + 1) (next_wid c)
             (result_set c) (statements c) (cursor_open c) (faults c)
  | InsertWaveformAdata ps =>
      set_pending (pending c ++ map (fun '(w, n, d) => WaveformAdataRow w n d) ps) c
  | InsertWaveformSdata ps =>
      set_pending (pending c ++ map (fun '(w, n, v) => WaveformSdataRow w n v) ps) c
  | InsertScanFdata ps =>
      set_pending (pending c ++ map (fun '(s, n, v) => ScanFdataRow s n v) ps) c
  | InsertScanSdata ps =>
      set_pending (pending c ++ map (fun '(s, n, v) => ScanSdataRow s n v) ps) c
  end.

(** [conn.cursor()] *)
Definition conn_cursor : M Conn unit :=
  db_call (fun c => (tt, set_cursor_open true c)).

(** [cursor.execute(operation, params)] *)
Definition cursor_execute (q : stmt) : M Conn unit :=
  modify (log_statement q) ;;
  db_call (fun c => (tt, apply_stmt q c)).

(** [cursor.executemany(operation, seq_params)] *)
Definition cursor_executemany (q : stmt) : M Conn unit :=
  cursor_execute q.

(** [cursor.fetchone()[0]] *)
Definition cursor_fetchone_0 : M Conn Z :=
  r <- db_call (fun c => (result_set c, set_result_set None c)) ;;
  match r with
  | Some v => ret v
  | None => raise (TypeError "'NoneType' object is not subscriptable")
  end.

(** [conn.commit()] *)
Definition conn_commit : M Conn unit :=
  db_call (fun c =>
    (tt, mkConn (committed c ++ pending c) [] (next_sid c) (next_wid c)
                (last_insert_id c) (result_set c) (statements c)
                (cursor_open c) (faults c))).

(** [conn.rollback()]: everything written since the transaction began is
    dropped.  The call itself is taken not to fail. *)
Definition conn_rollback : M Conn unit := modify (set_pending []).

(** [cursor.close()] *)
Definition cursor_close : M Conn unit := modify (set_cursor_open false).

(** [w.tolist()] on a stored waveform *)
Definition tolist {St} (w : pyobj) : M St (list pyelem) :=
  match w with
  | PyNdarray l => ret l
  | PyList _ => raise (AttributeError "'list' object has no attribute 'tolist'")
  | PyTuple _ => raise (AttributeError "'tuple' object has no attribute 'tolist'")
  | PyOther t => raise (AttributeError ("'" ++ t ++ "' object has no attribute 'tolist'"))
  end.

(** [[f x for x in l]] with an [f] that may raise *)
Fixpoint map_m {St X Y} (f : X -> M St Y) (l : list X) : M St (list Y) :=
  match l with
  | [] => ret []
  | x :: l' => y <- f x ;; ys <- map_m f l' ;; ret (y :: ys)
  end.

(** The state of [insert_data]: the Scan ([self]) and the connection. *)
Definition Env : Type := (Scan * Conn)%type.

(** [Scan._insert_waveform] *)
Definition _insert_waveform (sid : Z) (cav signal_name : string) : M Env Z :=
  self <- read_fst ;;
  rate <- getitem (sampling_rate self) cav ;;
  on_snd (cursor_execute (InsertWaveform sid cav signal_name rate)) ;;
  on_snd (cursor_execute SelectLastInsertId) ;;
  on_snd cursor_fetchone_0.

(** [Scan._insert_waveform_adata] *)
Definition _insert_waveform_adata (wid : Z) (cav signal_name : string) : M Env unit :=
  self <- read_fst ;;
  data <- getitem (waveform_data self) cav ;;
  w <- getitem data signal_name ;;
  raw <- tolist w ;;
  by_signal <- getitem (analysis_array self) cav ;;
  bundle <- getitem by_signal signal_name ;;
  derived <- map_m (fun arr_name =>
                      a <- getitem bundle arr_name ;;
                      ret (wid, arr_name, JsonArr a))
                   (dict_keys bundle) ;;
  on_snd (cursor_executemany
            (InsertWaveformAdata ((wid, "raw", JsonList raw) :: derived))).

(** [Scan._insert_waveform_sdata] *)
Definition _insert_waveform_sdata (wid : Z) (cav signal_name : string) : M Env unit :=
  self <- read_fst ;;
  by_signal <- getitem (analysis_scalar self) cav ;;
  bundle <- getitem by_signal signal_name ;;
  let data := map (fun '(metric_name, value) => (wid, metric_name, value))
                  (dict_items bundle) in
  on_snd (cursor_executemany (InsertWaveformSdata data)).

(** [Scan._insert_scan_fdata] *)
Definition _insert_scan_fdata (sid : Z) : M Env unit :=
  self <- read_fst ;;
  let data := map (fun '(key, value) => (sid, key, value))
                  (dict_items (scan_data_float self)) in
  if 0 <? len data then on_snd (cursor_executemany (InsertScanFdata data))
  else ret tt.

(** [Scan._insert_scan_sdata] *)
Definition _insert_scan_sdata (sid : Z) : M Env unit :=
  self <- read_fst ;;
  let data := map (fun '(key, value) => (sid, key, value))
                  (dict_items (scan_data_str self)) in
  if 0 <? len data then on_snd (cursor_executemany (InsertScanSdata data))
  else ret tt.

(** One turn of the inner loop of [insert_data], for a signal other than
    Time. *)
Definition insert_one (sid : Z) (cav signal_name : string) : M Env unit :=
  wid <- _insert_waveform sid cav signal_name ;;
  _insert_waveform_adata wid cav signal_name ;;
  _insert_waveform_sdata wid cav signal_name.

(** The body of the [try] of [insert_data], after [cursor = conn.cursor()]. *)
Definition insert_data_body (start_time end_time : datetime) : M Env unit :=
  on_snd (cursor_execute (InsertScan start_time end_time)) ;;
  on_snd (cursor_execute SelectLastInsertId) ;;
  sid <- on_snd cursor_fetchone_0 ;;
  self <- read_fst ;;
  for_each (dict_items (waveform_data self)) (fun '(cav, data) =>
    for_each (dict_keys data) (fun signal_name =>
      if String.eqb signal_name "Time" then ret tt
      else insert_one sid cav signal_name)) ;;
  _insert_scan_fdata sid ;;
  _insert_scan_sdata sid ;;
  on_snd conn_commit.

(** [Scan.insert_data].  [conn] is a connection, never [None].  The local
    [cursor] is [None] in the handler exactly when [conn.cursor()] raised,
    hence the two handlers.  On the way out of a call that returns the cursor
    is left open, as in the source. *)
Definition insert_data : M Env unit :=
  self <- read_fst ;;
  let start_time := get_datetime_as_utc (start self) in
  let end_time := get_datetime_as_utc (end_ self) in
  try_except (on_snd conn_cursor)
             (fun e => on_snd conn_rollback ;; raise e) ;;
  try_except (insert_data_body start_time end_time)
             (fun e => on_snd conn_rollback ;; on_snd cursor_close ;; raise e).

End Persistence.

(* ================================================================== *)
(** * Query *)

(** A cell of a result row. *)
Inductive value : Type :=
| VInt (n : Z)
| VStr (s : string)
| VTime (t : datetime)
| VNaN.

(** The persistence collaborator [db.WaveformDB] and the filter object
    [db.QueryFilter] are outside the file: the three query methods are the
    operations of this class.  A query runs against the state of the database
    and may raise. *)
Class WaveformDB : Type := {
  db_state : Type;
  QueryFilter : Type;
  query_scan_rows :
    option datetime -> option datetime -> option QueryFilter ->
    M db_state (list (dict value));
  query_waveform_data :
    list value -> list string -> option (list string) ->
    M db_state (list (dict value));
  query_waveform_metadata :
    list value -> list string -> option (list string) ->
    M db_state (list (dict value));
}.

(** A table is the list of its rows. *)
Definition DataFrame : Type := list (dict value).

(** [pd.DataFrame(rows)] on a list of row dictionaries *)
Definition pd_DataFrame (rows : list (dict value)) : DataFrame := rows.

(** [df.<name>.values.tolist()]: a column exists when some row has the key;
    a row without it holds NaN. *)
Definition df_column {St} (name : string) (df : DataFrame) : M St (list value) :=
  if existsb (dict_mem name) df then
    ret (map (fun r => match dict_get name r with Some v => v | None => VNaN end) df)
  else
    raise (AttributeError ("'DataFrame' object has no attribute '" ++ name ++ "'")).

Module Query.
Section QueryModel.
Context {DB : WaveformDB}.

Record Query : Type := mkQuery {
  db : db_state;
  signal_names : list string;
  array_names : option (list string);
  begin_ : option datetime;
  end_ : option datetime;
  scan_filter : option QueryFilter;
  wf_metric_names : option (list string);
  staged : bool;
  scan_meta : option DataFrame;
  wf_data : option DataFrame;
  wf_meta : option DataFrame;
}.

(** [Query.__init__] *)
Definition init (db_ : db_state) (signal_names_ : list string)
           (array_names_ : option (list string))
           (begin__ end__ : option datetime)
           (scan_filter_ : option QueryFilter)
           (wf_metric_names_ : option (list string)) : Query :=
  {| db := db_; signal_names := signal_names_; array_names := array_names_;
     begin_ := begin__; end_ := end__; scan_filter := scan_filter_;
     wf_metric_names := wf_metric_names_;
     staged := false; scan_meta := None; wf_data := None; wf_meta := None |}.

Definition set_db (v : db_state) (q : Query) : Query :=
  mkQuery v (signal_names q) (array_names q) (begin_ q) (end_ q) (scan_filter q)
          (wf_metric_names q) (staged q) (scan_meta q) (wf_data q) (wf_meta q).
Definition set_staged (v : bool) (q : Query) : Query :=
  mkQuery (db q) (signal_names q) (array_names q) (begin_ q) (end_ q) (scan_filter q)
          (wf_metric_names q) v (scan_meta q) (wf_data q) (wf_meta q).
Definition set_scan_meta (v : option DataFrame) (q : Query) : Query :=
  mkQuery (db q) (signal_names q) (array_names q) (begin_ q) (end_ q) (scan_filter q)
          (wf_metric_names q) (staged q) v (wf_data q) (wf_meta q).
Definition set_wf_data (v : option DataFrame) (q : Query) : Query :=
  mkQuery (db q) (signal_names q) (array_names q) (begin_ q) (end_ q) (scan_filter q)
          (wf_metric_names q) (staged q) (scan_meta q) v (wf_meta q).
Definition set_wf_meta (v : option DataFrame) (q : Query) : Query :=
  mkQuery (db q) (signal_names q) (array_names q) (begin_ q) (end_ q) (scan_filter q)
          (wf_metric_names q) (staged q) (scan_meta q) (wf_data q) v.

(** A call on [self.db]. *)
Definition on_db {A} (m : M db_state A) : M Query A :=
  fun q => let '(r, d) := m (db q) in (r, set_db d q).

(** [Query.stage] *)
Definition stage : M Query unit :=
  self <- get_state ;;
  scan_rows <- on_db (query_scan_rows (begin_ self) (end_ self) (scan_filter self)) ;;
  modify (set_scan_meta (Some (pd_DataFrame scan_rows))) ;;
  modify (set_staged true).

(** [Query.get_scan_count] *)
Definition get_scan_count : M Query Z :=
  self <- get_state ;;
  match scan_meta self with
  | Some df => ret (len df)
  | None => raise (TypeError "object of type 'NoneType' has no len()")
  end.

(** [self.scan_meta.sid.values.tolist()] *)
Definition scan_meta_sids : M Query (list value) :=
  self <- get_state ;;
  match scan_meta self with
  | Some df => df_column "sid" df
  | None => raise (AttributeError "'NoneType' object has no attribute 'sid'")
  end.

(** [Query.run] *)
Definition run : M Query unit :=
  self <- get_state ;;
  if negb (staged self) then raise (RuntimeError "Query not staged.")
  else
    sids <- scan_meta_sids ;;
    rows <- on_db (query_waveform_data sids (signal_names self) (array_names self)) ;;
    modify (set_wf_data (Some (pd_DataFrame rows))) ;;
    sids <- scan_meta_sids ;;
    rows <- on_db (query_waveform_metadata sids (signal_names self)
                                           (wf_metric_names self)) ;;
    modify (set_wf_meta (Some (pd_DataFrame rows))).

End QueryModel.

(** [i * float(fs) / n_samples]: float division by an integer, which raises
    on zero.  Floats are idealised as rationals. *)
Definition truediv (x : Q) (n : Z) : result Q :=
  if n =? 0 then Err (ZeroDivisionError "float division by zero")
  else Ok (x / inject_Z n)%Q.

Fixpoint list_comprehension {X Y} (f : X -> result Y) (l : list X)
  : result (list Y) :=
  match l with
  | [] => Ok []
  | x :: l' =>
      match f x with
      | Err e => Err e
      | Ok y =>
          match list_comprehension f l' with
          | Err e => Err e
          | Ok ys => Ok (y :: ys)
          end
      end
  end.

(** [Query.get_frequency_range].  [int(n_samples/2)] truncates towards
    zero. *)
Definition get_frequency_range (fs : Q) (n_samples : Z) : result (list Q) :=
  list_comprehension
    (fun i => truediv (inject_Z i * fs)%Q n_samples)
    (range (Z.quot n_samples 2 + 1)).
End Query.

(* ================================================================== *)
(** * Specifications

    The predicates in which the properties of the model are stated. *)

(** [triple P m Q E]: run from a state of [P], [m] either returns [a] in a
    state of [Q a] or raises in a state of [E]. *)
Definition triple {St A} (P : St -> Prop) (m : M St A)
           (Q : A -> St -> Prop) (E : exn -> St -> Prop) : Prop :=
  forall st, P st ->
    match m st with
    | (Ok a, st') => Q a st'
    | (Err e, st') => E e st'
    end.

(** [stable I m]: [m] keeps [I], whether it returns or raises. *)
Definition stable {St A} (I : St -> Prop) (m : M St A) : Prop :=
  triple I m (fun _ => I) (fun _ => I).

(** [total I m]: from a state of [I], [m] returns, in a state of [I]. *)
Definition total {St A} (I : St -> Prop) (m : M St A) : Prop :=
  triple I m (fun _ => I) (fun _ _ => False).

(** ** Query.get_frequency_range *)



Section Specifications.
Context {NP : NumPy}.

(** ** Scan.add_cavity_data *)

(** [d[c][sg]], when both keys are there. *)
Definition dict_get2 {V} (c sg : string) (d : dict (dict V)) : option V :=
  match dict_get c d with
  | Some inner => dict_get sg inner
  | None => None
  end.

(** Every signal stored for [cav], other than Time, has its bundle of scalars
    and its bundle of arrays, and they are the analysis of the stored
    waveform at the sampling rate stored for [cav]. *)
Definition cavity_ok (s : Scan) (cav : string) : Prop :=
  forall data sg w,
    dict_get cav (waveform_data s) = Some data ->
    dict_get sg data = Some w ->
    sg <> "Time" ->
    exists rate scalars arrays,
      dict_get cav (sampling_rate s) = Some rate
      /\ analyze_signal w rate = Ok (scalars, arrays)
      /\ dict_get2 cav sg (analysis_scalar s) = Some scalars
      /\ dict_get2 cav sg (analysis_array s) = Some arrays.

Definition scan_inv (s : Scan) : Prop := forall cav, cavity_ok s cav.

(** A call [add_cavity_data(cavity, data, sampling_rate)]. *)
Definition call : Type := (string * dict pyobj * scalar)%type.

(** The Scan after a sequence of calls, whether they return or raise. *)
Fixpoint run_calls (cs : list call) (s : Scan) : Scan :=
  match cs with
  | [] => s
  | (c, d, r) :: cs' => run_calls cs' (snd (add_cavity_data c d r s))
  end.

(** Whether the last call of [cs] for [cav] returned; [acc] when there is
    none. *)
Fixpoint last_add_returned (cav : string) (cs : list call) (s : Scan) (acc : bool)
  : bool :=
  match cs with
  | [] => acc
  | (c, d, r) :: cs' =>
      let out := add_cavity_data c d r s in
      last_add_returned cav cs' (snd out)
        (if String.eqb c cav then is_ok (fst out) else acc)
  end.

(** The statement of C9 for the Scans over a library instance. *)
Definition analysis_invariant_claim : Prop :=
  forall (t t' : datetime) (sid : option Z) (cs : list call),
    scan_inv (run_calls cs (Scan_init t t' sid)).

(** The entries of [c'] are the same in [s] and [s']. *)
Definition same_at (c' : string) (s s' : Scan) : Prop :=
  dict_get c' (waveform_data s') = dict_get c' (waveform_data s)
  /\ dict_get c' (sampling_rate s') = dict_get c' (sampling_rate s)
  /\ dict_get c' (analysis_scalar s') = dict_get c' (analysis_scalar s)
  /\ dict_get c' (analysis_array s') = dict_get c' (analysis_array s).

Definition frame (c : string) (s s' : Scan) : Prop :=
  forall c', c' <> c -> same_at c' s s'.

(** What the loop maintains: nothing but the entries of [c] has changed since
    [s0], [c] holds [data] and [rate], and the signals done have their
    bundles. *)
Definition loop_inv (c : string) (data : dict pyobj) (rate : scalar) (s0 : Scan)
           (done : list string) (s : Scan) : Prop :=
  frame c s0 s
  /\ dict_get c (waveform_data s) = Some data
  /\ dict_get c (sampling_rate s) = Some rate
  /\ exists ms ma,
      dict_get c (analysis_scalar s) = Some ms
      /\ dict_get c (analysis_array s) = Some ma
      /\ forall sg, In sg done -> sg <> "Time" ->
           exists w sc ar,
             dict_get sg data = Some w
             /\ analyze_signal w rate = Ok (sc, ar)
             /\ dict_get sg ms = Some sc
             /\ dict_get sg ma = Some ar.

(** ** Scan.insert_data *)

(** The Scan is [s] and the committed rows are [cm]. *)
Definition env_inv (s : Scan) (cm : list row) (st : Env) : Prop :=
  fst st = s /\ committed (snd st) = cm.

(** A call on the connection that commits nothing. *)
Definition keeps_committed {A} (m : M Conn A) : Prop :=
  forall c, committed (snd (m c)) = committed c.


(** The Scan is [s] and no call on the connection is going to fail. *)
Definition quiet_env (s : Scan) (st : Env) : Prop :=
  fst st = s /\ faults (snd st) = [].

(** The statement of C2 at a Scan and a connection: a call that returns has
    given the Scan an id. *)
Definition id_assigned_claim (s : Scan) (c : Conn) : Prop :=
  id s = None ->
  fst (insert_data (s, c)) = Ok tt ->
  id (fst (snd (insert_data (s, c)))) <> None.

(** The rows of the derived arrays of a waveform: one for each name of the
    bundle, with the array of that name. *)
Definition derived_rows (wid : Z) (bundle : dict darray) (names : list string)
  : list (Z * string * json) :=
  flat_map (fun n => match dict_get n bundle with
                     | Some a => [(wid, n, JsonArr a)]
                     | None => []
                     end) names.

(** For one (cavity, signal): the waveform row, the read of its id, one bulk
    insert of the raw array followed by the derived arrays, one bulk insert
    of the scalars. *)
Definition waveform_statements (s : Scan) (sid wid : Z) (cav sg : string)
  : option (list stmt) :=
  match dict_get cav (sampling_rate s),
        dict_get2 cav sg (waveform_data s),
        dict_get2 cav sg (analysis_array s),
        dict_get2 cav sg (analysis_scalar s) with
  | Some rate, Some (PyNdarray raw), Some arrays, Some scalars =>
      Some [ InsertWaveform sid cav sg rate;
             SelectLastInsertId;
             InsertWaveformAdata
               ((wid, "raw", JsonList raw) :: derived_rows wid arrays (dict_keys arrays));
             InsertWaveformSdata
               (map (fun '(n, v) => (wid, n, v)) (dict_items scalars)) ]
  | _, _, _, _ => None
  end.

(** The (cavity, signal) pairs of a Scan, Time left out. *)
Definition not_time (sg : string) : bool := negb (String.eqb sg "Time").

Definition pairs_of (items : list (string * dict pyobj)) : list (string * string) :=
  flat_map (fun '(cav, data) => map (pair cav) (filter not_time (dict_keys data)))
           items.

Definition waveform_pairs (s : Scan) : list (string * string) :=
  pairs_of (dict_items (waveform_data s)).

(** The statements of the pairs, the waveform ids counting up from [wid]. *)
Fixpoint all_waveform_statements (s : Scan) (sid wid : Z)
         (pairs : list (string * string)) : option (list stmt) :=
  match pairs with
  | [] => Some []
  | (cav, sg) :: pairs' =>
      match waveform_statements s sid wid cav sg,
            all_waveform_statements s sid (wid + 1) pairs' with
      | Some a, Some b => Some (a ++ b)%list
      | _, _ => None
      end
  end.

(** The scan-level metadata: one bulk insert for a map with entries, no
    statement for an empty map. *)
Definition scan_fdata_statements (s : Scan) (sid : Z) : list stmt :=
  match scan_data_float s with
  | [] => []
  | _ :: _ => [InsertScanFdata (map (fun '(k, v) => (sid, k, v)) (scan_data_float s))]
  end.

Definition scan_sdata_statements (s : Scan) (sid : Z) : list stmt :=
  match scan_data_str s with
  | [] => []
  | _ :: _ => [InsertScanSdata (map (fun '(k, v) => (sid, k, v)) (scan_data_str s))]
  end.

(** A statement on the scan table or on a scan metadata table. *)
Definition scan_level (q : stmt) : bool :=
  match q with
  | InsertScan _ _ | InsertScanFdata _ | InsertScanSdata _ => true
  | _ => false
  end.

(** The Scan is [s], the statements issued since [c] are [L] and [k]
    waveform rows have been written since [c]. *)
Definition tracked (s : Scan) (c : Conn) (L : list stmt) (k : Z) (st : Env) : Prop :=
  fst st = s
  /\ statements (snd st) = (statements c ++ L)%list
  /\ next_wid (snd st) = next_wid c + k.

(** What the loops of [insert_data] maintain: the pairs [P] are done, their
    statements follow [pre] in the log, and none of them is on the scan table
    or on a scan metadata table. *)
Definition pairs_done (s : Scan) (c : Conn) (sid : Z) (pre : list stmt)
           (P : list (string * string)) (st : Env) : Prop :=
  exists ws,
    all_waveform_statements s sid (next_wid c) P = Some ws
    /\ forallb (fun q => negb (scan_level q)) ws = true
    /\ tracked s c (pre ++ ws) (len P) st.

End Specifications.

(* ================================================================== *)
(** * Sample objects

    Concrete inputs on which the model is run, over [SymNumPy]. *)

(** A sample value and a sampling rate. *)
Definition lit (z : Z) : @scalar SymNumPy := SLit z.

(** A waveform of 8192 samples, as an ndarray. *)
Definition flat_wave : @pyobj SymNumPy :=
  PyNdarray (repeat (PyNum (lit 0)) (Z.to_nat 8192)).


(** A list of one sample. *)
Definition short_wave : @pyobj SymNumPy := PyList [PyNum (lit 1)].

Definition t0 : datetime := 1700000000000000.
Definition t1 : datetime := 1700000001638400.

Definition fresh_scan : @Scan SymNumPy := Scan_init t0 t1 None.

(** A connection with an empty database, no open transaction and no fault
    to come. *)
Definition empty_conn : @Conn SymNumPy :=
  {| committed := []; pending := []; next_sid := 1; next_wid := 1;
     last_insert_id := 0; result_set := None; statements := [];
     cursor_open := false; faults := [] |}.

(** A database that answers the next query with the next response of a
    script, and with no row once the script is over. *)
Definition scripted_query : M (list (result (list (dict value)))) (list (dict value)) :=
  fun script =>
    match script with
    | [] => (Ok [], [])
    | r :: script' => (r, script')
    end.

#[export] Instance ScriptedDB : WaveformDB := {|
  db_state := list (result (list (dict value)));
  QueryFilter := unit;
  query_scan_rows := fun _ _ _ => scripted_query;
  query_waveform_data := fun _ _ _ => scripted_query;
  query_waveform_metadata := fun _ _ _ => scripted_query;
|}.

Definition scan_row (sid : Z) (t : datetime) : dict value :=
  [("sid", VInt sid); ("scan_start_utc", VTime t); ("scan_end_utc", VTime (t + 1638400))].

(** One cavity with a time axis and two signals, and one entry of scan
    metadata of each kind. *)
Definition sample_scan : @Scan SymNumPy :=
  snd (add_cavity_data "R1"
         [("Time", flat_wave); ("GMES", flat_wave); ("PMES", flat_wave)]
         (lit 5000)
         (snd (add_scan_data [("R1XXITOT", lit 7)] [("mode", "CW")] fresh_scan))).

(** A connection on which the tenth call, the insert of the second waveform
    row, fails. *)
Definition failing_conn : @Conn SymNumPy :=
  {| committed := []; pending := []; next_sid := 1; next_wid := 1;
     last_insert_id := 0; result_set := None; statements := [];
     cursor_open := false;
     faults := (repeat None 9 ++ [Some (DatabaseError 1062 "Duplicate entry")])%list |}.

(** The tables of the rows. *)
Definition table_of (r : @row SymNumPy) : string :=
  match r with
  | ScanRow _ _ _ => "scan"
  | WaveformRow _ _ _ _ _ => "waveform"
  | WaveformAdataRow _ _ _ => "waveform_adata"
  | WaveformSdataRow _ _ _ => "waveform_sdata"
  | ScanFdataRow _ _ _ => "scan_fdata"
  | ScanSdataRow _ _ _ => "scan_sdata"
  end.

Definition count_table (t : string) (rows : list (@row SymNumPy)) : Z :=
  len (filter (fun r => String.eqb (table_of r) t) rows).

(* ================================================================== *)
(** * Further specifications *)

Section MoreSpecifications.
Context {NP : NumPy}.

(** ** Scan.add_cavity_data *)

(** The exception that the turn of the loop for the signal [sg] raises, if
    it raises. *)
Definition refusal (data : dict pyobj) (rate : scalar) (sg : string) : option exn :=
  if String.eqb sg "Time" then None
  else
    match dict_get sg data with
    | Some w =>
        match analyze_signal w rate with
        | Ok _ => None
        | Err e => Some e
        end
    | None => Some (KeyError sg)
    end.

(** The first exception raised along the signals [keys]. *)
Fixpoint first_refusal_in (data : dict pyobj) (rate : scalar) (keys : list string)
  : option exn :=
  match keys with
  | [] => None
  | sg :: keys' =>
      match refusal data rate sg with
      | Some e => Some e
      | None => first_refusal_in data rate keys'
      end
  end.


(** The state after the four assignments that open [add_cavity_data]. *)
Definition cavity_reset (c : string) (data : dict pyobj) (rate : scalar) (s : Scan)
  : Scan :=
  set_sampling_rate (dict_set c rate (sampling_rate s))
    (set_analysis_array (dict_set c [] (analysis_array s))
       (set_analysis_scalar (dict_set c [] (analysis_scalar s))
          (set_waveform_data (dict_set c data (waveform_data s)) s))).

(** What [add_cavity_data] never writes after its first four assignments. *)
Definition kept (s1 s : Scan) : Prop :=
  id s = id s1 /\ start s = start s1 /\ end_ s = end_ s1
  /\ waveform_data s = waveform_data s1 /\ sampling_rate s = sampling_rate s1
  /\ scan_data_float s = scan_data_float s1 /\ scan_data_str s = scan_data_str s1.

(** The cavity [c] has bundles for signals of [done] only, none for Time. *)
Definition bundles_within (c : string) (done : list string) (s : Scan) : Prop :=
  exists ms ma,
    dict_get c (analysis_scalar s) = Some ms
    /\ dict_get c (analysis_array s) = Some ma
    /\ forall sg, dict_get sg ms <> None \/ dict_get sg ma <> None ->
                  In sg done /\ sg <> "Time".

End MoreSpecifications.

Section RowSpecifications.
Context {NP : NumPy}.

(** ** Scan.insert_data: the rows *)

(** The part of a connection that statements act on. *)
Definition db_of (c : Conn) : list row * list row * Z * Z * Z :=
  (committed c, pending c, next_sid c, next_wid c, last_insert_id c).

(** The statements [qs] executed one after the other. *)
Definition replay (qs : list stmt) (c : Conn) : Conn :=
  fold_left (fun c' q => apply_stmt q c') qs c.

(** The connection is where the statements logged since [c0] put it. *)
Definition logged (c0 : Conn) (st : Env) : Prop :=
  exists L,
    statements (snd st) = (statements c0 ++ L)%list
    /\ db_of (snd st) = db_of (replay L c0).

(** The same, after the commit. *)
Definition logged_and_committed (c0 : Conn) (st : Env) : Prop :=
  exists L,
    statements (snd st) = (statements c0 ++ L)%list
    /\ committed (snd st) = (committed (replay L c0) ++ pending (replay L c0))%list
    /\ pending (snd st) = []
    /\ next_sid (snd st) = next_sid (replay L c0)
    /\ next_wid (snd st) = next_wid (replay L c0).

(** [on_return I m]: if [m] returns from a state of [I], it is in a state of
    [I]. *)
Definition on_return {St A} (I : St -> Prop) (m : M St A) : Prop :=
  triple I m (fun _ => I) (fun _ _ => True).

(** The rows of one (cavity, signal): the waveform row, then its array rows,
    the raw one first, then its scalar rows. *)
Definition waveform_rows (s : Scan) (sid wid : Z) (cav sg : string)
  : option (list row) :=
  match dict_get cav (sampling_rate s),
        dict_get2 cav sg (waveform_data s),
        dict_get2 cav sg (analysis_array s),
        dict_get2 cav sg (analysis_scalar s) with
  | Some rate, Some (PyNdarray raw), Some arrays, Some scalars =>
      Some (WaveformRow wid sid cav sg rate
              :: WaveformAdataRow wid "raw" (JsonList raw)
              :: (map (fun '(w, n, d) => WaveformAdataRow w n d)
                      (derived_rows wid arrays (dict_keys arrays))
                  ++ map (fun n_v => WaveformSdataRow wid (fst n_v) (snd n_v))
                         (dict_items scalars))%list)
  | _, _, _, _ => None
  end.

Fixpoint all_waveform_rows (s : Scan) (sid wid : Z)
         (pairs : list (string * string)) : option (list row) :=
  match pairs with
  | [] => Some []
  | (cav, sg) :: pairs' =>
      match waveform_rows s sid wid cav sg,
            all_waveform_rows s sid (wid + 1) pairs' with
      | Some a, Some b => Some (a ++ b)%list
      | _, _ => None
      end
  end.

Definition scan_fdata_rows (s : Scan) (sid : Z) : list row :=
  map (fun k_v => ScanFdataRow sid (fst k_v) (snd k_v)) (scan_data_float s).

Definition scan_sdata_rows (s : Scan) (sid : Z) : list row :=
  map (fun k_v => ScanSdataRow sid (fst k_v) (snd k_v)) (scan_data_str s).

(** All the rows of a Scan, with the scan id [sid] and the waveform ids
    counting up from [wid]. *)
Definition scan_rows (s : Scan) (sid wid : Z) : option (list row) :=
  match all_waveform_rows s sid wid (waveform_pairs s) with
  | Some rows =>
      Some (ScanRow sid (get_datetime_as_utc (start s)) (get_datetime_as_utc (end_ s))
              :: (rows ++ scan_fdata_rows s sid ++ scan_sdata_rows s sid)%list)
  | None => None
  end.

End RowSpecifications.

Section IntegritySpecifications.
Context {NP : NumPy}.

(** The row belongs to the scan [sid] and, when it is a waveform row or a
    row of a waveform, to one of the [n] waveforms numbered from [wid]. *)
Definition row_in_scan (sid wid n : Z) (r : row) : Prop :=
  match r with
  | ScanRow sid' _ _ => sid' = sid
  | WaveformRow w sid' _ _ _ => sid' = sid /\ wid <= w < wid + n
  | WaveformAdataRow w _ _ => wid <= w < wid + n
  | WaveformSdataRow w _ _ => wid <= w < wid + n
  | ScanFdataRow sid' _ _ => sid' = sid
  | ScanSdataRow sid' _ _ => sid' = sid
  end.

(** The ids of the waveform rows among [rows], in order. *)
Definition waveform_ids (rows : list row) : list Z :=
  flat_map (fun r => match r with
                     | WaveformRow w _ _ _ _ => [w]
                     | _ => []
                     end) rows.

(** The ids of the scan rows among [rows], in order. *)
Definition scan_ids (rows : list row) : list Z :=
  flat_map (fun r => match r with
                     | ScanRow sid _ _ => [sid]
                     | _ => []
                     end) rows.

(** Every call of [cs] returns. *)
Fixpoint all_returned (cs : list call) (s : Scan) : bool :=
  match cs with
  | [] => true
  | (c, d, r) :: cs' =>
      let out := add_cavity_data c d r s in
      is_ok (fst out) && all_returned cs' (snd out)
  end.

(** Every signal of [data] other than Time is an ndarray. *)
Definition ndarray_signals (data : dict pyobj) : bool :=
  forallb (fun kv => match kv with
                     | (sg, PyNdarray _) => true
                     | (sg, _) => String.eqb sg "Time"
                     end) data.

(** Every signal that the Scan holds, other than Time, is an ndarray. *)
Definition holds_ndarrays (s : Scan) : Prop :=
  forall cav data sg w,
    dict_get cav (waveform_data s) = Some data ->
    dict_get sg data = Some w ->
    sg <> "Time" ->
    exists raw, w = PyNdarray raw.

End IntegritySpecifications.

Section CursorSpecifications.
Context {NP : NumPy}.

(** The cursor of the connection has been created and not closed. *)
Definition cursor_left_open (st : Env) : Prop := cursor_open (snd st) = true.

End CursorSpecifications.

Section QuerySpecifications.
Import Query.
Context {DB : WaveformDB}.

(** The scan ids of a staged table, as [run] reads them. *)
Definition sids_of (df : DataFrame) : list value :=
  map (fun r => match dict_get "sid" r with Some v => v | None => VNaN end) df.

(** The two Queries ask for the same thing. *)
Definition same_request (q q' : Query) : Prop :=
  signal_names q' = signal_names q /\ array_names q' = array_names q
  /\ begin_ q' = begin_ q /\ end_ q' = end_ q
  /\ scan_filter q' = scan_filter q /\ wf_metric_names q' = wf_metric_names q.

End QuerySpecifications.

(** ** More sample objects *)

(** The 8192 samples of [flat_wave], as a list. *)
Definition list_wave : @pyobj SymNumPy :=
  PyList (repeat (PyNum (lit 0)) (Z.to_nat 8192)).

(** The signals of a cavity: a time axis and two waveforms. *)
Definition sample_data : dict (@pyobj SymNumPy) :=
  [("Time", flat_wave); ("GMES", flat_wave); ("PMES", flat_wave)].

(** Signals of which the second is refused. *)
Definition refused_data : dict (@pyobj SymNumPy) :=
  [("GMES", flat_wave); ("PMES", short_wave); ("DETA", flat_wave)].

(** A Scan whose one cavity has a time axis and nothing else. *)
Definition time_only_scan : @Scan SymNumPy :=
  snd (add_cavity_data "R1" [("Time", flat_wave)] (lit 5000) fresh_scan).

Definition waveform_row (sid : Z) (signal : string) : dict value :=
  [("sid", VInt sid); ("cavity", VStr "R1"); ("signal_name", VStr signal)].

(** A Query on a database that answers as [script] says. *)
Definition query_on (script : list (result (list (dict value))))
  : @Query.Query ScriptedDB :=
  @Query.init ScriptedDB script ["GMES"] None None None None None.

Section CensusSpecifications.
Context {NP : NumPy}.

(** The table of a row. *)
Definition table_name (r : row) : string :=
  match r with
  | ScanRow _ _ _ => "scan"
  | WaveformRow _ _ _ _ _ => "waveform"
  | WaveformAdataRow _ _ _ => "waveform_adata"
  | WaveformSdataRow _ _ _ => "waveform_sdata"
  | ScanFdataRow _ _ _ => "scan_fdata"
  | ScanSdataRow _ _ _ => "scan_sdata"
  end.

(** The number of rows of the table [t] among [rows]. *)
Definition rows_of (t : string) (rows : list row) : Z :=
  len (filter (fun r => String.eqb (table_name r) t) rows).

(** The rows that one analysed waveform puts in the table [t]. *)
Definition per_waveform (t : string) : Z :=
  (if String.eqb "waveform" t then 1 else 0)
  + (if String.eqb "waveform_adata" t then 2 else 0)
  + (if String.eqb "waveform_sdata" t then 10 else 0).

End CensusSpecifications.

(* ================================================================== *)
(** * Lemmas on the monad and on dictionaries *)


Section DictFacts.
Context {V : Type}.
Implicit Types (d : dict V) (k : string) (v : V).

Lemma dict_get_set k k' v d :
  dict_get k (dict_set k' v d) = if String.eqb k k' then Some v else dict_get k d.
Proof.
  induction d as [|[k0 v0] d IH]; simpl.
  - reflexivity.
  - destruct (String.eqb_spec k' k0) as [->|Hne]; simpl.
    + destruct (String.eqb k k0); reflexivity.
    + rewrite IH. destruct (String.eqb_spec k k0) as [->|Hne'].
      * destruct (String.eqb_spec k0 k'); [congruence | reflexivity].
      * reflexivity.
Qed.

Lemma dict_get_set_eq k v d : dict_get k (dict_set k v d) = Some v.
Proof. rewrite dict_get_set, String.eqb_refl. reflexivity. Qed.

Lemma dict_get_set_neq k k' v d :
  k <> k' -> dict_get k (dict_set k' v d) = dict_get k d.
Proof.
  intros Hne. rewrite dict_get_set.
  destruct (String.eqb_spec k k'); [contradiction | reflexivity].
Qed.

Lemma dict_mem_keys k d : dict_mem k d = true <-> In k (dict_keys d).
Proof.
  unfold dict_mem, dict_keys.
  induction d as [|[k0 v0] d IH]; simpl.
  - split; [discriminate | tauto].
  - destruct (String.eqb_spec k k0) as [->|Hne].
    + split; auto.
    + rewrite IH. split; [auto | intros [Heq|Hin]; [congruence | assumption]].
Qed.

Lemma dict_get_keys k d : In k (dict_keys d) -> exists v, dict_get k d = Some v.
Proof.
  intros Hin. apply dict_mem_keys in Hin. unfold dict_mem in Hin.
  destruct (dict_get k d) as [v|]; [eauto | discriminate].
Qed.

Lemma dict_get_update k d other :
  nodup_keys other = true ->
  dict_get k (dict_update d other) =
  match dict_get k other with Some v => Some v | None => dict_get k d end.
Proof.
  unfold dict_update, dict_items.
  revert d. induction other as [|[k0 v0] other IH]; intros d Hnd; simpl.
  - reflexivity.
  - simpl in Hnd. apply andb_prop in Hnd. destruct Hnd as [Hfresh Hnd].
    rewrite (IH _ Hnd), dict_get_set.
    destruct (String.eqb_spec k k0) as [->|Hne].
    + unfold dict_mem in Hfresh.
      destruct (dict_get k0 other); [discriminate | reflexivity].
    + reflexivity.
Qed.

End DictFacts.

(* ================================================================== *)
(** * Scan.add_scan_data *)

Section AddScanData.
Context {NP : NumPy}.

(** The disjointness loop stops at the first key of [float_data] that is also
    a key of [str_data], and touches nothing. *)
Lemma disjointness_check (str_data : dict string) (ks : list string) (s : Scan) :
  for_each ks (fun k =>
    if dict_mem k str_data then raise (duplicate_name_error k) else ret tt) s
  = match find (fun k => dict_mem k str_data) ks with
    | Some k => (Err (duplicate_name_error k), s)
    | None => (Ok tt, s)
    end.
Proof.
  induction ks as [|k ks IH]; simpl.
  - reflexivity.
  - unfold bind. destruct (dict_mem k str_data) eqn:Hk.
    + reflexivity.
    + simpl. exact IH.
Qed.

Lemma add_scan_data_unfold (float_data : dict scalar) (str_data : dict string) (s : Scan) :
  add_scan_data float_data str_data s
  = match find (fun k => dict_mem k str_data) (dict_keys float_data) with
    | Some k => (Err (duplicate_name_error k), s)
    | None =>
        (Ok tt,
         set_scan_data_str (dict_update (scan_data_str s) str_data)
           (set_scan_data_float (dict_update (scan_data_float s) float_data) s))
    end.
Proof.
  unfold add_scan_data. unfold bind at 1.
  rewrite disjointness_check.
  destruct (find _ _); reflexivity.
Qed.

(** C8.  [add_scan_data float_data str_data] raises exactly when some key is
    in both [float_data] and [str_data], and what it raises is a ValueError.
    Otherwise it returns, and in the state it leaves a name is looked up in
    the incoming dictionary first and in the earlier contents second, in each
    of the two maps: a name of an earlier call is accepted and overwritten,
    and every incoming entry is there.  Nothing else of the Scan changes. *)
Theorem add_scan_data_spec
        (float_data : dict scalar) (str_data : dict string) (s : Scan)
        (Hfloat : nodup_keys float_data = true)
        (Hstr : nodup_keys str_data = true) :
  let r := fst (add_scan_data float_data str_data s) in
  let s' := snd (add_scan_data float_data str_data s) in
  ((exists e, r = Err e) <->
   (exists k, In k (dict_keys float_data) /\ In k (dict_keys str_data)))
  /\ (forall e, r = Err e -> class_of e = CValueError)
  /\ (r = Ok tt ->
      (forall k, dict_get k (scan_data_float s') =
                 match dict_get k float_data with
                 | Some v => Some v
                 | None => dict_get k (scan_data_float s)
                 end)
      /\ (forall k, dict_get k (scan_data_str s') =
                    match dict_get k str_data with
                    | Some v => Some v
                    | None => dict_get k (scan_data_str s)
                    end)
      /\ id s' = id s /\ start s' = start s /\ end_ s' = end_ s
      /\ waveform_data s' = waveform_data s
      /\ sampling_rate s' = sampling_rate s
      /\ analysis_scalar s' = analysis_scalar s
      /\ analysis_array s' = analysis_array s).
Proof.
  intros r s'. subst r s'. rewrite add_scan_data_unfold.
  destruct (find (fun k => dict_mem k str_data) (dict_keys float_data)) as [k|] eqn:Hfind;
    simpl.
  - apply find_some in Hfind. destruct Hfind as [Hin Hmem].
    apply dict_mem_keys in Hmem.
    split; [|split].
    + split; [intros _; exists k; tauto | intros _; eexists; reflexivity].
    + intros e He. inversion He. reflexivity.
    + discriminate.
  - split; [|split].
    + split.
      * intros [e He]. discriminate.
      * intros [k [Hin Hin']]. exfalso.
        pose proof (find_none _ _ Hfind k Hin) as Hno. simpl in Hno.
        apply dict_mem_keys in Hin'. congruence.
    + intros e He. discriminate.
    + intros _. repeat split; try reflexivity.
      * intros k. apply dict_get_update. exact Hfloat.
      * intros k. apply dict_get_update. exact Hstr.
Qed.

(** C10.  When [add_scan_data] raises, the Scan is as it was before the
    call. *)
Theorem add_scan_data_error_unchanged
        (float_data : dict scalar) (str_data : dict string) (s : Scan) (e : exn) :
  fst (add_scan_data float_data str_data s) = Err e ->
  snd (add_scan_data float_data str_data s) = s
  /\ scan_data_float (snd (add_scan_data float_data str_data s)) = scan_data_float s
  /\ scan_data_str (snd (add_scan_data float_data str_data s)) = scan_data_str s.
Proof.
  rewrite add_scan_data_unfold.
  destruct (find (fun k => dict_mem k str_data) (dict_keys float_data)); simpl.
  - intros _. repeat split; reflexivity.
  - discriminate.
Qed.

End AddScanData.

(** The two calls of the spec's examples: the same name in both dictionaries,
    and two different names. *)
Lemma add_scan_data_spec_witness :
  fst (add_scan_data [("A", lit 1)] [("A", "x")] fresh_scan)
  = Err (ValueError "A metadata name may only appear once in either the float or str data. ('A')")
  /\ fst (add_scan_data [("A", lit 1)] [("B", "x")] fresh_scan) = Ok tt
  /\ dict_get "A" (scan_data_float
                     (snd (add_scan_data [("A", lit 1)] [("B", "x")] fresh_scan)))
     = Some (lit 1)
  /\ dict_get "B" (scan_data_str
                     (snd (add_scan_data [("A", lit 1)] [("B", "x")] fresh_scan)))
     = Some "x".
Proof.
  pose proof (add_scan_data_spec [("A", lit 1)] [("B", "x")] fresh_scan
                eq_refl eq_refl) as H.
  cbv zeta in H. destruct H as [_ [_ H]].
  destruct (H eq_refl) as [Hf [Hs _]].
  split; [reflexivity|]. split; [reflexivity|]. split.
  - rewrite (Hf "A"). reflexivity.
  - rewrite (Hs "B"). reflexivity.
Defined.

Lemma add_scan_data_error_unchanged_witness :
  snd (add_scan_data [("A", lit 1)] [("A", "x")] fresh_scan) = fresh_scan.
Proof.
  exact (proj1 (add_scan_data_error_unchanged
                  [("A", lit 1)] [("A", "x")] fresh_scan _ eq_refl)).
Defined.

(* ================================================================== *)
(** * Scan.analyze_signal *)

Section AnalyzeSignal.
Context {NP : NumPy}.



Lemma len_map {A B} (f : A -> B) (l : list A) : len (map f l) = len l.
Proof. unfold len. rewrite length_map. reflexivity. Qed.



End AnalyzeSignal.



(* ================================================================== *)
(** * Query.get_frequency_range *)

Section FrequencyRange.
Import Query.






End FrequencyRange.



(** With no sample the division by [n_samples] raises. *)
Example get_frequency_range_zero :
  Query.get_frequency_range 5000 0 = Err (ZeroDivisionError "float division by zero").
Proof. reflexivity. Qed.

(* ================================================================== *)
(** * Query: stage, then run *)

Section QueryProtocol.
Import Query.
Context {DB : WaveformDB}.

Lemma run_unstaged (q : Query) :
  staged q = false -> run q = (Err (RuntimeError "Query not staged."), q).
Proof.
  intros Hq. unfold run, bind, get_state. rewrite Hq. reflexivity.
Qed.

Lemma stage_ok (q : Query) (rows : list (dict value)) (d : db_state) :
  query_scan_rows (begin_ q) (end_ q) (scan_filter q) (db q) = (Ok rows, d) ->
  stage q = (Ok tt, set_staged true (set_scan_meta (Some (pd_DataFrame rows)) (set_db d q))).
Proof.
  intros Hrows. unfold stage, bind, get_state, on_db, modify.
  rewrite Hrows. reflexivity.
Qed.

(** C7.  A Query that has not been staged (and a new Query is not) refuses
    [run] with a RuntimeError and is left as it was, so a new Query still has
    no [wf_data] and no [wf_meta].  When the metadata query of [stage]
    returns [rows], [stage] returns, the Query is staged, its metadata is the
    table of [rows], whatever was staged before, and [get_scan_count] is the
    number of [rows]; a second [stage] replaces the table by the rows of its
    own query. *)
Theorem query_stage_then_run :
  (forall d sn an b e f wm,
      let q := init d sn an b e f wm in
      run q = (Err (RuntimeError "Query not staged."), q)
      /\ wf_data (snd (run q)) = None /\ wf_meta (snd (run q)) = None)
  /\ (forall q, staged q = false ->
        fst (run q) = Err (RuntimeError "Query not staged.") /\ snd (run q) = q)
  /\ (forall q rows d,
        query_scan_rows (begin_ q) (end_ q) (scan_filter q) (db q) = (Ok rows, d) ->
        let q' := snd (stage q) in
        fst (stage q) = Ok tt
        /\ staged q' = true
        /\ scan_meta q' = Some (pd_DataFrame rows)
        /\ get_scan_count q' = (Ok (len rows), q')
        /\ forall rows2 d2,
            query_scan_rows (begin_ q') (end_ q') (scan_filter q') (db q') = (Ok rows2, d2) ->
            fst (stage q') = Ok tt
            /\ scan_meta (snd (stage q')) = Some (pd_DataFrame rows2)
            /\ get_scan_count (snd (stage q')) = (Ok (len rows2), snd (stage q'))).
Proof.
  split; [|split].
  - intros d sn an b e f wm q.
    rewrite (run_unstaged q eq_refl). simpl. auto.
  - intros q Hq. rewrite (run_unstaged q Hq). auto.
  - intros q rows d Hrows q'. subst q'.
    rewrite (stage_ok q rows d Hrows). cbn [fst snd].
    set (q1 := set_staged true _).
    split; [reflexivity|]. split; [reflexivity|]. split; [reflexivity|].
    split; [reflexivity|].
    intros rows2 d2 Hrows2.
    rewrite (stage_ok q1 rows2 d2 Hrows2). cbn [fst snd].
    repeat split; reflexivity.
Qed.

End QueryProtocol.

(** A database that answers the first metadata query with two scans and the
    second with one. *)
Lemma query_stage_then_run_witness :
  let q := Query.init
             [Ok [scan_row 1 t0; scan_row 2 t1]; Ok [scan_row 3 t1]]
             ["GMES"] None None None None None in
  fst (Query.run q) = Err (RuntimeError "Query not staged.")
  /\ fst (Query.get_scan_count (snd (Query.stage q))) = Ok 2
  /\ fst (Query.get_scan_count (snd (Query.stage (snd (Query.stage q))))) = Ok 1.
Proof.
  intros q.
  destruct (@query_stage_then_run ScriptedDB) as [_ [Hrun Hstage]].
  split; [exact (proj1 (Hrun q eq_refl))|].
  destruct (Hstage q [scan_row 1 t0; scan_row 2 t1] [Ok [scan_row 3 t1]] eq_refl)
    as [_ [_ [_ [Hcount Hagain]]]].
  split; [rewrite Hcount; reflexivity|].
  destruct (Hagain [scan_row 3 t1] [] eq_refl) as [_ [_ Hcount2]].
  rewrite Hcount2. reflexivity.
Defined.

(* ================================================================== *)
(** * A program logic for [M] *)

Section Triples.
Context {St : Type}.
Implicit Types (P : St -> Prop) (E : exn -> St -> Prop).

Lemma triple_ret {A} P (a : A) (Q : A -> St -> Prop) E :
  (forall st, P st -> Q a st) -> triple P (ret a) Q E.
Proof. intros H st Hst. simpl. auto. Qed.

Lemma triple_raise {A} P (e : exn) (Q : A -> St -> Prop) E :
  (forall st, P st -> E e st) -> triple P (raise e) Q E.
Proof. intros H st Hst. simpl. auto. Qed.

Lemma triple_bind {A B} P (m : M St A) (k : A -> M St B)
      (Q : A -> St -> Prop) (R : B -> St -> Prop) E :
  triple P m Q E -> (forall a, triple (Q a) (k a) R E) -> triple P (bind m k) R E.
Proof.
  intros Hm Hk st Hst. unfold bind. specialize (Hm st Hst).
  destruct (m st) as [[a|e] st']; [apply Hk; exact Hm | exact Hm].
Qed.

Lemma triple_conseq {A} P P' (m : M St A) (Q Q' : A -> St -> Prop) E E' :
  triple P' m Q' E' ->
  (forall st, P st -> P' st) ->
  (forall a st, Q' a st -> Q a st) ->
  (forall e st, E' e st -> E e st) ->
  triple P m Q E.
Proof.
  intros Hm HP HQ HE st Hst. specialize (Hm st (HP st Hst)).
  destruct (m st) as [[a|e] st']; auto.
Qed.

Lemma triple_modify P (f : St -> St) (Q : unit -> St -> Prop) E :
  (forall st, P st -> Q tt (f st)) -> triple P (modify f) Q E.
Proof. intros H st Hst. simpl. auto. Qed.

Lemma triple_getitem {V} P (d : dict V) (k : string) (Q : V -> St -> Prop) E :
  (forall v st, dict_get k d = Some v -> P st -> Q v st) ->
  (forall st, dict_get k d = None -> P st -> E (KeyError k) st) ->
  triple P (getitem d k) Q E.
Proof.
  intros Hs Hn st Hst. unfold getitem.
  destruct (dict_get k d) as [v|] eqn:Hget; simpl; auto.
Qed.

(** The rule of the [for] loop: the invariant speaks of the items done. *)
Lemma triple_for_each {X} (I : list X -> St -> Prop) E
      (l : list X) (body : X -> M St unit) :
  (forall done x, In x l ->
     triple (I done) (body x) (fun _ => I (done ++ [x])%list) E) ->
  forall done, triple (I done) (for_each l body) (fun _ => I (done ++ l)%list) E.
Proof.
  induction l as [|x l IH]; intros Hbody done.
  - simpl. apply triple_ret. intros st Hst. rewrite app_nil_r. exact Hst.
  - simpl. eapply triple_bind.
    + apply Hbody. left. reflexivity.
    + intros []. eapply triple_conseq.
      * apply (IH (fun done' y Hy => Hbody done' y (or_intror Hy)) (done ++ [x])%list).
      * auto.
      * intros u st Hst. cbv beta in Hst. rewrite <- app_assoc in Hst. exact Hst.
      * auto.
Qed.

Lemma triple_try_except {A} P (body : M St A) (handler : exn -> M St A)
      (Q : A -> St -> Prop) E E' :
  triple P body Q E' ->
  (forall e, triple (E' e) (handler e) Q E) ->
  triple P (try_except body handler) Q E.
Proof.
  intros Hb Hh st Hst. unfold try_except. specialize (Hb st Hst).
  destruct (body st) as [[a|e] st']; [exact Hb | apply Hh; exact Hb].
Qed.

End Triples.

Lemma triple_on_snd {S1 S2 A} (P : S1 * S2 -> Prop) (m : M S2 A)
      (Q : A -> S1 * S2 -> Prop) (E : exn -> S1 * S2 -> Prop) :
  (forall s, triple (fun c => P (s, c)) m (fun a c => Q a (s, c)) (fun e c => E e (s, c))) ->
  triple P (on_snd m) Q E.
Proof.
  intros H [s c] Hst. unfold on_snd. simpl.
  specialize (H s c Hst). destruct (m c) as [[a|e] c']; exact H.
Qed.

Lemma triple_read_fst {S1 S2} (P : S1 * S2 -> Prop)
      (Q : S1 -> S1 * S2 -> Prop) (E : exn -> S1 * S2 -> Prop) :
  (forall st, P st -> Q (fst st) st) -> triple P read_fst Q E.
Proof. intros H st Hst. simpl. auto. Qed.

(* ================================================================== *)
(** * Scan.add_cavity_data *)

Section AddCavityData.
Context {NP : NumPy}.

Lemma cavity_ok_same_at (c' : string) (s s' : Scan) :
  same_at c' s s' -> cavity_ok s c' -> cavity_ok s' c'.
Proof.
  intros [Hw [Hr [Hs Ha]]] Hok data sg w Hdata Hsg Hne.
  rewrite Hw in Hdata.
  destruct (Hok data sg w Hdata Hsg Hne) as [rate [sc [ar [H1 [H2 [H3 H4]]]]]].
  exists rate, sc, ar. unfold dict_get2 in *. rewrite Hr, Hs, Ha. auto.
Qed.

Lemma analyze_signal_arrays (w : pyobj) (rate : scalar) sc ar :
  analyze_signal w rate = Ok (sc, ar) ->
  exists pxx, ar = [("power_spectrum", pxx)].
Proof.
  unfold analyze_signal.
  destruct (negb (is_array_like w)); [discriminate|].
  destruct (numeric_values (np_array w)); [|discriminate].
  destruct (negb (len (np_array w) =? 8192)); [discriminate|].
  destruct (periodogram l rate) as [f pxx]. intros H. inversion H. eauto.
Qed.

Lemma analyse_and_store_triple c data rate s0 done x :
  triple (loop_inv c data rate s0 done)
         (analyse_and_store c data rate x)
         (fun _ => loop_inv c data rate s0 (done ++ [x])%list)
         (fun _ => frame c s0).
Proof.
  intros s [Hframe [Hw [Hr [ms [ma [Hms [Hma Hdone]]]]]]].
  unfold analyse_and_store.
  destruct (String.eqb_spec x "Time") as [->|Hne].
  - simpl. split; [exact Hframe|]. split; [exact Hw|]. split; [exact Hr|].
    exists ms, ma. split; [exact Hms|]. split; [exact Hma|].
    intros sg Hin Hsg. apply in_app_or in Hin. destruct Hin as [Hin|[<-|[]]].
    + apply Hdone; assumption.
    + contradiction.
  - unfold bind at 1. unfold getitem at 1.
    destruct (dict_get x data) as [w|] eqn:Hx; [|exact Hframe].
    simpl. unfold bind at 1. unfold lift_result.
    destruct (analyze_signal w rate) as [[sc ar]|e] eqn:Han; [|exact Hframe].
    destruct (analyze_signal_arrays _ _ _ _ Han) as [pxx ->].
    unfold setitem_analysis_scalar, setitem_analysis_array,
      setitem_analysis_array3, bind, get_state, put_state, getitem.
    simpl. rewrite Hms. simpl. rewrite Hma. simpl.
    unfold bind, ret, raise. simpl. rewrite dict_get_set_eq.
    rewrite dict_get_set_eq.
    split; [|split; [exact Hw | split; [exact Hr|]]].
    + intros c' Hc'. destruct (Hframe c' Hc') as [H1 [H2 [H3 H4]]].
      unfold same_at. simpl.
      rewrite !(dict_get_set_neq c' c) by exact Hc'. auto.
    + eexists. eexists. split; [apply dict_get_set_eq|].
      split; [apply dict_get_set_eq|].
      intros sg Hin Hsg. apply in_app_or in Hin.
      destruct (String.eqb_spec sg x) as [->|Hsx].
      * exists w, sc, [("power_spectrum", pxx)].
        rewrite !dict_get_set_eq. auto.
      * destruct Hin as [Hin|[<-|[]]]; [|congruence].
        destruct (Hdone sg Hin Hsg) as [w' [sc' [ar' [G1 [G2 [G3 G4]]]]]].
        exists w', sc', ar'.
        rewrite !(dict_get_set_neq sg x) by exact Hsx. auto.
Qed.

(** What a call does: it returns with the bundles of its cavity in place, or
    it raises; the other cavities are as before in both cases. *)
Lemma add_cavity_data_triple (c : string) (data : dict pyobj) (rate : scalar)
      (s0 : Scan) :
  triple (fun s => s = s0) (add_cavity_data c data rate)
         (fun _ s' => frame c s0 s' /\ cavity_ok s' c)
         (fun _ s' => frame c s0 s').
Proof.
  intros s ->. unfold add_cavity_data.
  unfold bind at 1 2 3 4. unfold modify.
  set (s1 := set_sampling_rate _ _).
  assert (Hinit : loop_inv c data rate s0 [] s1).
  { subst s1. split; [|split; [|split]].
    - intros c' Hc'. unfold same_at. simpl.
      rewrite !(dict_get_set_neq c' c) by exact Hc'. auto.
    - simpl. apply dict_get_set_eq.
    - simpl. apply dict_get_set_eq.
    - exists [], []. simpl. rewrite !dict_get_set_eq.
      split; [reflexivity|]. split; [reflexivity|]. intros sg []. }
  pose proof (triple_for_each (loop_inv c data rate s0) (fun _ => frame c s0)
                (dict_keys data) (analyse_and_store c data rate)
                (fun done x _ => analyse_and_store_triple c data rate s0 done x)
                [] s1 Hinit) as Hloop.
  destruct (for_each (dict_keys data) (analyse_and_store c data rate) s1)
    as [[[]|e] s'] eqn:Hrun; [|exact Hloop].
  simpl in Hloop.
  destruct Hloop as [Hframe [Hw [Hr [ms [ma [Hms [Hma Hdone]]]]]]].
  split; [exact Hframe|].
  intros data' sg w Hdata Hsg Hne.
  rewrite Hw in Hdata. inversion Hdata. subst data'.
  assert (Hin : In sg (dict_keys data)).
  { apply dict_mem_keys. unfold dict_mem. rewrite Hsg. reflexivity. }
  destruct (Hdone sg Hin Hne) as [w' [sc [ar [G1 [G2 [G3 G4]]]]]].
  rewrite Hsg in G1. inversion G1. subst w'.
  exists rate, sc, ar. unfold dict_get2. rewrite Hms, Hma. auto.
Qed.

Lemma run_calls_cavity_ok (cav : string) (cs : list call) :
  forall (s : Scan) (acc : bool),
    (acc = true -> cavity_ok s cav) ->
    last_add_returned cav cs s acc = true ->
    cavity_ok (run_calls cs s) cav.
Proof.
  induction cs as [|[[c d] r] cs IH]; intros s acc Hacc Hlast; simpl in *.
  - auto.
  - eapply IH; [|exact Hlast]. intros H.
    pose proof (add_cavity_data_triple c d r s s eq_refl) as Hcall.
    destruct (add_cavity_data c d r s) as [[[]|e] s'] eqn:Hrun; simpl in *.
    + destruct Hcall as [Hframe Hok].
      destruct (String.eqb_spec c cav) as [->|Hne]; [exact Hok|].
      apply (cavity_ok_same_at cav s s'); [apply Hframe; congruence | auto].
    + destruct (String.eqb_spec c cav) as [->|Hne]; [discriminate|].
      apply (cavity_ok_same_at cav s s'); [apply Hcall; congruence | auto].
Qed.

Lemma cavity_ok_init (t t' : datetime) (sid : option Z) (cav : string) :
  cavity_ok (Scan_init t t' sid) cav.
Proof. intros data sg w Hdata. simpl in Hdata. discriminate. Qed.

(** C9, as the code has it.  After any sequence of [add_cavity_data] calls on
    a new Scan, calls that raise included, every signal other than Time that
    is stored for a cavity whose last call returned has its bundle of scalars
    and its bundle of arrays, and they are the analysis of the stored
    waveform at the rate of that call. *)
Theorem add_cavity_data_invariant
        (t t' : datetime) (sid : option Z) (cs : list call) (cav : string) :
  last_add_returned cav cs (Scan_init t t' sid) true = true ->
  cavity_ok (run_calls cs (Scan_init t t' sid)) cav.
Proof.
  apply run_calls_cavity_ok. intros _. apply cavity_ok_init.
Qed.

End AddCavityData.

(** Two calls: the first raises on a list of one sample, the second stores
    a time axis and a waveform of 8192 samples for another cavity. *)
Lemma add_cavity_data_invariant_witness :
  cavity_ok
    (run_calls [("R1", [("GMES", short_wave)], lit 5000);
                ("R2", [("Time", flat_wave); ("GMES", flat_wave)], lit 5000)]
               fresh_scan)
    "R2".
Proof.
  apply (add_cavity_data_invariant t0 t1 None
           [("R1", [("GMES", short_wave)], lit 5000);
            ("R2", [("Time", flat_wave); ("GMES", flat_wave)], lit 5000)] "R2").
  vm_compute. reflexivity.
Defined.

(** A call with a list of one sample raises after the list has been stored:
    the signal is in [waveform_data] and has no bundle. *)
Lemma analysis_invariant_broken_by_raise : ~ @analysis_invariant_claim SymNumPy.
Proof.
  intros H.
  destruct (H t0 t1 None [("R1", [("GMES", short_wave)], lit 5000)]
              "R1" [("GMES", short_wave)] "GMES" short_wave
              eq_refl eq_refl ltac:(discriminate))
    as [rate [sc [ar [_ [_ [Hsc _]]]]]].
  vm_compute in Hsc. discriminate.
Qed.

(* ================================================================== *)
(** * Scan.insert_data: what a call leaves untouched *)

Section Stable.
Context {St : Type} (I : St -> Prop).

Lemma stable_ret {A} (a : A) : stable I (ret a).
Proof. apply triple_ret. auto. Qed.

Lemma stable_raise {A} (e : exn) : stable I (@raise St A e).
Proof. apply triple_raise. auto. Qed.

Lemma stable_bind {A B} (m : M St A) (k : A -> M St B) :
  stable I m -> (forall a, stable I (k a)) -> stable I (bind m k).
Proof. intros Hm Hk. eapply triple_bind; [exact Hm | exact Hk]. Qed.

Lemma stable_for_each {X} (l : list X) (body : X -> M St unit) :
  (forall x, stable I (body x)) -> stable I (for_each l body).
Proof.
  intros Hb. induction l as [|x l IH]; simpl.
  - apply stable_ret.
  - apply stable_bind; [apply Hb | intros _; exact IH].
Qed.

Lemma stable_getitem {V} (d : dict V) (k : string) : stable I (getitem d k).
Proof. unfold getitem. destruct (dict_get k d); [apply stable_ret | apply stable_raise]. Qed.

Lemma stable_try_except {A} (body : M St A) (handler : exn -> M St A) :
  stable I body -> (forall e, stable I (handler e)) -> stable I (try_except body handler).
Proof.
  intros Hb Hh. eapply triple_try_except; [exact Hb | exact Hh].
Qed.

End Stable.

Section StableEnv.
Context {NP : NumPy}.

Lemma stable_map_m {St X Y} (I : St -> Prop) (f : X -> M St Y) (l : list X) :
  (forall x, stable I (f x)) -> stable I (map_m f l).
Proof.
  intros Hf. induction l as [|x l IH]; simpl.
  - apply stable_ret.
  - apply stable_bind; [apply Hf|]. intros y.
    apply stable_bind; [exact IH|]. intros ys. apply stable_ret.
Qed.

Lemma stable_tolist {St} (I : St -> Prop) (w : pyobj) : stable I (tolist w).
Proof. destruct w; simpl; first [apply stable_ret | apply stable_raise]. Qed.

Lemma stable_on_snd {A} (s : Scan) (cm : list row) (m : M Conn A) :
  keeps_committed m -> stable (env_inv s cm) (on_snd m).
Proof.
  intros Hm [s1 c] [Hs Hc]. simpl in *. unfold on_snd. simpl.
  specialize (Hm c). destruct (m c) as [[a|e] c']; simpl in *;
    split; simpl; congruence.
Qed.

Lemma stable_read_fst (s : Scan) (cm : list row) :
  stable (env_inv s cm) (@read_fst Scan Conn).
Proof. intros st Hst. exact Hst. Qed.

Lemma keeps_committed_db_call {A} (effect : Conn -> A * Conn) :
  (forall c, committed (snd (effect c)) = committed c) ->
  keeps_committed (db_call effect).
Proof.
  intros He c. unfold db_call.
  destruct (faults c) as [|[e|] fs]; simpl.
  - specialize (He c). destruct (effect c). exact He.
  - reflexivity.
  - specialize (He (set_faults fs c)). destruct (effect (set_faults fs c)). exact He.
Qed.

Lemma keeps_committed_cursor : keeps_committed conn_cursor.
Proof. apply keeps_committed_db_call. reflexivity. Qed.

Lemma keeps_committed_execute (q : stmt) : keeps_committed (cursor_execute q).
Proof.
  intros c. unfold cursor_execute, bind, modify.
  rewrite (keeps_committed_db_call (fun c0 => (tt, apply_stmt q c0))).
  - reflexivity.
  - intros c0. destruct q; reflexivity.
Qed.

Lemma keeps_committed_executemany (q : stmt) : keeps_committed (cursor_executemany q).
Proof. apply keeps_committed_execute. Qed.

Lemma keeps_committed_fetchone : keeps_committed cursor_fetchone_0.
Proof.
  intros c. unfold cursor_fetchone_0, bind.
  pose proof (keeps_committed_db_call
                (fun c0 => (result_set c0, set_result_set None c0))
                (fun _ => eq_refl) c) as H.
  destruct (db_call _ c) as [[[v|]|e] c']; simpl in *; exact H.
Qed.

Lemma keeps_committed_rollback : keeps_committed conn_rollback.
Proof. intros c. reflexivity. Qed.

Lemma keeps_committed_close : keeps_committed cursor_close.
Proof. intros c. reflexivity. Qed.

End StableEnv.

Create HintDb stable.

#[export] Hint Resolve stable_ret stable_raise stable_getitem stable_tolist
  stable_read_fst stable_on_snd keeps_committed_cursor keeps_committed_execute
  keeps_committed_executemany keeps_committed_fetchone keeps_committed_rollback
  keeps_committed_close : stable.

(** Splits a computation along its binds and loops. *)
Ltac stable_step :=
  first [ apply stable_bind; [|intros ?]
        | apply stable_for_each; intros ?
        | apply stable_map_m; intros ?
        | apply stable_try_except; [|intros ?]
        | match goal with
          | |- stable _ (if ?b then _ else _) => destruct b
          | |- stable _ (match ?x with (_, _) => _ end) => destruct x
          end
        | solve [auto with stable] ].

Section InsertDataFrame.
Context {NP : NumPy}.

Lemma stable_insert_waveform s cm sid cav sg :
  stable (env_inv s cm) (_insert_waveform sid cav sg).
Proof. unfold _insert_waveform. repeat stable_step. Qed.

Lemma stable_insert_waveform_adata s cm wid cav sg :
  stable (env_inv s cm) (_insert_waveform_adata wid cav sg).
Proof. unfold _insert_waveform_adata. repeat stable_step. Qed.

Lemma stable_insert_waveform_sdata s cm wid cav sg :
  stable (env_inv s cm) (_insert_waveform_sdata wid cav sg).
Proof. unfold _insert_waveform_sdata. repeat stable_step. Qed.

Lemma stable_insert_scan_fdata s cm sid :
  stable (env_inv s cm) (_insert_scan_fdata sid).
Proof. unfold _insert_scan_fdata. repeat stable_step. Qed.

Lemma stable_insert_scan_sdata s cm sid :
  stable (env_inv s cm) (_insert_scan_sdata sid).
Proof. unfold _insert_scan_sdata. repeat stable_step. Qed.

(** [conn.commit()] changes the committed rows only when it returns. *)
Lemma commit_triple s cm :
  triple (env_inv s cm) (on_snd conn_commit)
         (fun _ st => fst st = s) (fun _ => env_inv s cm).
Proof.
  intros [s1 c] [Hs Hc]. simpl in *. unfold on_snd, conn_commit, db_call. simpl.
  destruct (faults c) as [|[e|] fs]; simpl; auto. split; auto.
Qed.

(** The body of the [try] never changes the Scan, and it changes the committed
    rows only when it returns. *)
Lemma insert_data_body_triple s cm t t' :
  triple (env_inv s cm) (insert_data_body t t')
         (fun _ st => fst st = s) (fun _ => env_inv s cm).
Proof.
  unfold insert_data_body.
  assert (Hstep : forall A (m : M Env A) (k : A -> M Env unit),
             stable (env_inv s cm) m ->
             (forall a, triple (env_inv s cm) (k a)
                               (fun _ st => fst st = s) (fun _ => env_inv s cm)) ->
             triple (env_inv s cm) (bind m k)
                    (fun _ st => fst st = s) (fun _ => env_inv s cm)).
  { intros A m k Hm Hk. eapply triple_bind; [exact Hm | exact Hk]. }
  apply Hstep; [auto with stable | intros _].
  apply Hstep; [auto with stable | intros _].
  apply Hstep; [auto with stable | intros sid].
  apply Hstep; [auto with stable | intros self].
  apply Hstep.
  { apply stable_for_each. intros [cav data].
    apply stable_for_each. intros sg.
    destruct (String.eqb sg "Time"); [auto with stable|].
    apply stable_bind; [apply stable_insert_waveform | intros wid].
    apply stable_bind; [apply stable_insert_waveform_adata | intros _].
    apply stable_insert_waveform_sdata. }
  intros _.
  apply Hstep; [apply stable_insert_scan_fdata | intros _].
  apply Hstep; [apply stable_insert_scan_sdata | intros _].
  apply commit_triple.
Qed.

(** [insert_data] along its two handlers. *)
Lemma insert_data_unfold (s : Scan) (c : Conn) :
  insert_data (s, c) =
  match on_snd conn_cursor (s, c) with
  | (Err e, st1) => (Err e, (fst st1, set_pending [] (snd st1)))
  | (Ok _, st1) =>
      match insert_data_body (get_datetime_as_utc (start s))
                             (get_datetime_as_utc (end_ s)) st1 with
      | (Ok a, st2) => (Ok a, st2)
      | (Err e, st2) =>
          (Err e, (fst st2, set_cursor_open false (set_pending [] (snd st2))))
      end
  end.
Proof.
  unfold insert_data, bind at 1, read_fst. cbn [fst].
  unfold bind at 1. unfold try_except at 1.
  destruct (on_snd conn_cursor (s, c)) as [[[]|e] st1].
  - unfold try_except.
    destruct (insert_data_body _ _ st1) as [[[]|e] st2]; reflexivity.
  - destruct st1. reflexivity.
Qed.


(** The Scan object is the same after a call, whatever the outcome. *)
Lemma insert_data_keeps_self (s : Scan) (c : Conn) :
  fst (snd (insert_data (s, c))) = s.
Proof.
  rewrite insert_data_unfold.
  pose proof (stable_on_snd s (committed c) conn_cursor keeps_committed_cursor
                (s, c) (conj eq_refl eq_refl)) as Hcur.
  destruct (on_snd conn_cursor (s, c)) as [[[]|e1] st1] eqn:Hc1.
  - pose proof (insert_data_body_triple s (committed c)
                  (get_datetime_as_utc (start s)) (get_datetime_as_utc (end_ s))
                  st1 Hcur) as Hbody.
    destruct (insert_data_body _ _ st1) as [[[]|e2] st2] eqn:Hb; simpl.
    + exact Hbody.
    + exact (proj1 Hbody).
  - simpl. exact (proj1 Hcur).
Qed.

(** C2, as the code has it.  A call of [insert_data] that returns leaves the
    Scan object as it was: a Scan made with no id still has none.  The
    generated scan id is a local of the call, bound to the statements that
    follow, and is not stored on the object. *)
Theorem insert_data_keeps_id (s : Scan) (c : Conn) (st' : Env) :
  id s = None ->
  insert_data (s, c) = (Ok tt, st') ->
  fst st' = s /\ id (fst st') = None.
Proof.
  intros Hid Hrun.
  pose proof (insert_data_keeps_self s c) as Hself.
  rewrite Hrun in Hself. simpl in Hself.
  split; [exact Hself | rewrite Hself; exact Hid].
Qed.

End InsertDataFrame.

(* ================================================================== *)
(** * Scan.insert_data: the statements it issues *)

Section InsertDataStatements.
Context {NP : NumPy}.

(** ** Inversion of a run that returns *)

Lemma bind_ok {St A B} (m : M St A) (k : A -> M St B) st b st' :
  bind m k st = (Ok b, st') ->
  exists a st1, m st = (Ok a, st1) /\ k a st1 = (Ok b, st').
Proof.
  unfold bind. destruct (m st) as [[a|e] st1]; [eauto | discriminate].
Qed.

Lemma on_snd_ok {S1 S2 A} (m : M S2 A) (s : S1) (c : S2) a st' :
  on_snd m (s, c) = (Ok a, st') ->
  exists c', m c = (Ok a, c') /\ st' = (s, c').
Proof.
  unfold on_snd. simpl. destruct (m c) as [r c']. intros H. inversion H. eauto.
Qed.

Lemma getitem_ok {St V} (d : dict V) (k : string) (st : St) v st' :
  getitem d k st = (Ok v, st') -> dict_get k d = Some v /\ st' = st.
Proof.
  unfold getitem. destruct (dict_get k d); simpl; intros H; inversion H. auto.
Qed.

Lemma db_call_ok {A} (effect : Conn -> A * Conn) (c : Conn) a c' :
  db_call effect c = (Ok a, c') ->
  exists fs, effect (set_faults fs c) = (a, c').
Proof.
  unfold db_call. destruct (faults c) as [|[e|] fs] eqn:Hf.
  - exists []. replace (set_faults [] c) with c
      by (destruct c; simpl in *; subst; reflexivity).
    destruct (effect c). inversion H. reflexivity.
  - discriminate.
  - exists fs. destruct (effect (set_faults fs c)). inversion H. reflexivity.
Qed.

Lemma cursor_execute_ok (q : stmt) (c c' : Conn) (u : unit) :
  cursor_execute q c = (Ok u, c') ->
  exists fs, c' = apply_stmt q (set_faults fs (log_statement q c)).
Proof.
  unfold cursor_execute, bind, modify. intros H.
  apply db_call_ok in H. destruct H as [fs H]. inversion H. eauto.
Qed.

Lemma cursor_fetchone_0_ok (c c' : Conn) (v : Z) :
  cursor_fetchone_0 c = (Ok v, c') ->
  result_set c = Some v /\ exists fs, c' = set_result_set None (set_faults fs c).
Proof.
  unfold cursor_fetchone_0. intros H. apply bind_ok in H.
  destruct H as [r [c1 [Hcall Hret]]].
  apply db_call_ok in Hcall. destruct Hcall as [fs Hcall]. inversion Hcall.
  destruct r as [v'|]; simpl in Hret; inversion Hret. subst.
  split; [assumption | eauto].
Qed.

Lemma map_m_derived_ok {St} (wid : Z) (bundle : dict darray) (names : list string)
      (st st' : St) rows :
  map_m (fun arr_name =>
           a <- getitem bundle arr_name ;; ret (wid, arr_name, JsonArr a))
        names st = (Ok rows, st') ->
  rows = derived_rows wid bundle names /\ st' = st.
Proof.
  revert rows st'. induction names as [|n names IH]; intros rows st' H; simpl in H.
  - inversion H. auto.
  - apply bind_ok in H. destruct H as [y [st1 [Hy H]]].
    apply bind_ok in Hy. destruct Hy as [a [st2 [Ha Hy]]].
    apply getitem_ok in Ha. destruct Ha as [Ha ->]. inversion Hy. subst y st1.
    apply bind_ok in H. destruct H as [ys [st3 [Hys H]]].
    apply IH in Hys. destruct Hys as [-> ->]. inversion H. subst.
    simpl. rewrite Ha. auto.
Qed.

Lemma derived_rows_names (wid : Z) (bundle : dict darray) :
  map (fun r => snd (fst r)) (derived_rows wid bundle (dict_keys bundle))
  = dict_keys bundle.
Proof.
  unfold derived_rows.
  assert (H : forall names, (forall n, In n names -> In n (dict_keys bundle)) ->
            map (fun r => snd (fst r))
                (flat_map (fun n => match dict_get n bundle with
                                    | Some a => [(wid, n, JsonArr a)]
                                    | None => []
                                    end) names) = names).
  { induction names as [|n names IH]; intros Hin; simpl; [reflexivity|].
    destruct (dict_get_keys n bundle (Hin n (or_introl eq_refl))) as [a ->].
    simpl. rewrite IH; [reflexivity|]. intros m Hm. apply Hin. right. exact Hm. }
  apply H. auto.
Qed.

End InsertDataStatements.

Section InsertDataTrace.
Context {NP : NumPy}.

Lemma on_snd_ok' {A} (m : M Conn A) (st : Env) a st' :
  on_snd m st = (Ok a, st') ->
  exists c', m (snd st) = (Ok a, c') /\ st' = (fst st, c').
Proof. destruct st as [s c]. apply on_snd_ok. Qed.

Lemma insert_waveform_ok s c L k sid cav sg st wid st' :
  tracked s c L k st ->
  _insert_waveform sid cav sg st = (Ok wid, st') ->
  wid = next_wid c + k
  /\ exists rate,
      dict_get cav (sampling_rate s) = Some rate
      /\ tracked s c (L ++ [InsertWaveform sid cav sg rate; SelectLastInsertId]) (k + 1) st'.
Proof.
  intros [Hs [HL Hk]] H. subst s. unfold _insert_waveform in H.
  apply bind_ok in H as (self & st1 & H1 & H).
  unfold read_fst in H1. inversion H1. subst self st1. clear H1.
  apply bind_ok in H as (rate & st1 & H1 & H). apply getitem_ok in H1 as [Hrate ->].
  apply bind_ok in H as (u1 & st1 & H1 & H).
  apply on_snd_ok' in H1 as (c1 & H1 & ->).
  apply cursor_execute_ok in H1 as [fs1 ->].
  apply bind_ok in H as (u2 & st2 & H2 & H).
  apply on_snd_ok' in H2 as (c2 & H2 & ->).
  apply cursor_execute_ok in H2 as [fs2 ->].
  apply on_snd_ok' in H as (c3 & H & ->).
  apply cursor_fetchone_0_ok in H as [Hres [fs3 ->]].
  simpl in Hres. inversion Hres. subst wid.
  split; [exact Hk|]. exists rate. split; [exact Hrate|].
  unfold tracked. simpl. rewrite HL, Hk, <- !app_assoc.
  split; [reflexivity|]. split; [reflexivity | lia].
Qed.

Lemma tolist_ok {St} (w : pyobj) (st st' : St) raw :
  tolist w st = (Ok raw, st') -> w = PyNdarray raw /\ st' = st.
Proof. destruct w; simpl; intros H; inversion H. auto. Qed.

Lemma insert_waveform_adata_ok s c L k wid cav sg st st' :
  tracked s c L k st ->
  _insert_waveform_adata wid cav sg st = (Ok tt, st') ->
  exists raw arrays,
    dict_get2 cav sg (waveform_data s) = Some (PyNdarray raw)
    /\ dict_get2 cav sg (analysis_array s) = Some arrays
    /\ tracked s c
         (L ++ [InsertWaveformAdata
                  ((wid, "raw", JsonList raw)
                     :: derived_rows wid arrays (dict_keys arrays))]) k st'.
Proof.
  intros [Hs [HL Hk]] H. subst s. unfold _insert_waveform_adata in H.
  apply bind_ok in H as (self & st1 & H1 & H).
  unfold read_fst in H1. inversion H1. subst self st1. clear H1.
  apply bind_ok in H as (data & st1 & H1 & H). apply getitem_ok in H1 as [Hdata ->].
  apply bind_ok in H as (w & st1 & H1 & H). apply getitem_ok in H1 as [Hw ->].
  apply bind_ok in H as (raw & st1 & H1 & H). apply tolist_ok in H1 as [-> ->].
  apply bind_ok in H as (by_signal & st1 & H1 & H). apply getitem_ok in H1 as [Hby ->].
  apply bind_ok in H as (bundle & st1 & H1 & H). apply getitem_ok in H1 as [Hb ->].
  apply bind_ok in H as (derived & st1 & H1 & H).
  apply map_m_derived_ok in H1 as [-> ->].
  apply on_snd_ok' in H as (c' & H & ->).
  apply cursor_execute_ok in H as [fs ->].
  exists raw, bundle. unfold dict_get2. rewrite Hdata, Hw, Hby, Hb.
  split; [reflexivity|]. split; [reflexivity|].
  unfold tracked. simpl. rewrite HL, Hk, <- app_assoc.
  split; [reflexivity|]. split; [reflexivity | lia].
Qed.

Lemma insert_waveform_sdata_ok s c L k wid cav sg st st' :
  tracked s c L k st ->
  _insert_waveform_sdata wid cav sg st = (Ok tt, st') ->
  exists scalars,
    dict_get2 cav sg (analysis_scalar s) = Some scalars
    /\ tracked s c
         (L ++ [InsertWaveformSdata
                  (map (fun '(n, v) => (wid, n, v)) (dict_items scalars))]) k st'.
Proof.
  intros [Hs [HL Hk]] H. subst s. unfold _insert_waveform_sdata in H.
  apply bind_ok in H as (self & st1 & H1 & H).
  unfold read_fst in H1. inversion H1. subst self st1. clear H1.
  apply bind_ok in H as (by_signal & st1 & H1 & H). apply getitem_ok in H1 as [Hby ->].
  apply bind_ok in H as (bundle & st1 & H1 & H). apply getitem_ok in H1 as [Hb ->].
  apply on_snd_ok' in H as (c' & H & ->).
  apply cursor_execute_ok in H as [fs ->].
  exists bundle. unfold dict_get2. rewrite Hby, Hb.
  split; [reflexivity|].
  unfold tracked. simpl. rewrite HL, Hk, <- app_assoc.
  split; [reflexivity|]. split; [reflexivity | lia].
Qed.

End InsertDataTrace.

Section InsertDataLoops.
Context {NP : NumPy}.

Lemma len_cons {A} (a : A) (l : list A) : len (a :: l) = len l + 1.
Proof. unfold len. simpl List.length. lia. Qed.

Lemma len_snoc {A} (l : list A) (a : A) : len (l ++ [a]) = len l + 1.
Proof. unfold len. rewrite length_app. simpl. lia. Qed.

Lemma all_waveform_statements_snoc s sid cav sg (P : list (string * string)) :
  forall wid ws w,
    all_waveform_statements s sid wid P = Some ws ->
    waveform_statements s sid (wid + len P) cav sg = Some w ->
    all_waveform_statements s sid wid (P ++ [(cav, sg)]) = Some (ws ++ w)%list.
Proof.
  induction P as [|[cav0 sg0] P IH]; intros wid ws w Hws Hw; simpl in *.
  - inversion Hws. subst ws. replace (wid + len []) with wid in Hw by (unfold len; simpl; lia).
    rewrite Hw. rewrite app_nil_r. reflexivity.
  - destruct (waveform_statements s sid wid cav0 sg0) as [a|]; [|discriminate].
    destruct (all_waveform_statements s sid (wid + 1) P) as [b|] eqn:Hb; [|discriminate].
    inversion Hws. subst ws.
    rewrite (IH (wid + 1) b w Hb).
    + rewrite app_assoc. reflexivity.
    + rewrite len_cons in Hw. replace (wid + 1 + len P) with (wid + (len P + 1)) by lia.
      exact Hw.
Qed.

Lemma insert_one_ok s c sid pre P cav sg st st' :
  pairs_done s c sid pre P st ->
  insert_one sid cav sg st = (Ok tt, st') ->
  pairs_done s c sid pre (P ++ [(cav, sg)]) st'.
Proof.
  intros [ws [Hws [Hlev Htr]]] H. unfold insert_one in H.
  apply bind_ok in H as (wid & st1 & H1 & H).
  destruct (insert_waveform_ok _ _ _ _ _ _ _ _ _ _ Htr H1) as [-> [rate [Hrate Htr1]]].
  apply bind_ok in H as ([] & st2 & H2 & H).
  destruct (insert_waveform_adata_ok _ _ _ _ _ _ _ _ _ Htr1 H2)
    as [raw [arrays [Hraw [Harr Htr2]]]].
  destruct (insert_waveform_sdata_ok _ _ _ _ _ _ _ _ _ Htr2 H)
    as [scalars [Hsc Htr3]].
  eexists. split; [|split].
  - apply all_waveform_statements_snoc; [exact Hws|].
    unfold waveform_statements. rewrite Hrate, Hraw, Harr, Hsc. reflexivity.
  - rewrite forallb_app, Hlev. reflexivity.
  - rewrite len_snoc. rewrite <- !app_assoc in Htr3. simpl in Htr3.
    exact Htr3.
Qed.

Lemma signals_loop_ok s c sid pre P cav (keys : list string) st st' :
  pairs_done s c sid pre P st ->
  for_each keys (fun signal_name =>
    if String.eqb signal_name "Time" then ret tt
    else insert_one sid cav signal_name) st = (Ok tt, st') ->
  pairs_done s c sid pre (P ++ map (pair cav) (filter not_time keys)) st'.
Proof.
  intros Hst Hrun.
  pose proof (triple_for_each
                (fun done => pairs_done s c sid pre
                               (P ++ map (pair cav) (filter not_time done)))
                (fun _ _ => True) keys
                (fun signal_name =>
                   if String.eqb signal_name "Time" then ret tt
                   else insert_one sid cav signal_name)) as Hloop.
  simpl in Hloop.
  assert (Hbody : forall done x, In x keys ->
             triple (pairs_done s c sid pre
                       (P ++ map (pair cav) (filter not_time done)))
                    (if String.eqb x "Time" then ret tt else insert_one sid cav x)
                    (fun _ => pairs_done s c sid pre
                       (P ++ map (pair cav) (filter not_time (done ++ [x]))))
                    (fun _ _ => True)).
  { intros done x _ st0 H0.
    rewrite filter_app, map_app. simpl. unfold not_time at 2.
    destruct (String.eqb x "Time"); simpl.
    - rewrite app_nil_r. exact H0.
    - destruct (insert_one sid cav x st0) as [[[]|e] st1] eqn:Hone; [|exact I].
      rewrite app_assoc. apply (insert_one_ok _ _ _ _ _ _ _ _ _ H0 Hone). }
  specialize (Hloop Hbody [] st). simpl in Hloop. rewrite app_nil_r in Hloop.
  specialize (Hloop Hst). rewrite Hrun in Hloop. exact Hloop.
Qed.

Lemma cavities_loop_ok s c sid pre (items : list (string * dict pyobj)) st st' :
  pairs_done s c sid pre [] st ->
  for_each items (fun '(cav, data) =>
    for_each (dict_keys data) (fun signal_name =>
      if String.eqb signal_name "Time" then ret tt
      else insert_one sid cav signal_name)) st = (Ok tt, st') ->
  pairs_done s c sid pre (pairs_of items) st'.
Proof.
  intros Hst Hrun.
  pose proof (triple_for_each
                (fun done => pairs_done s c sid pre (pairs_of done))
                (fun _ _ => True) items
                (fun '(cav, data) =>
                   for_each (dict_keys data) (fun signal_name =>
                     if String.eqb signal_name "Time" then ret tt
                     else insert_one sid cav signal_name))) as Hloop.
  assert (Hbody : forall done x, In x items ->
             triple (pairs_done s c sid pre (pairs_of done))
                    ((fun '(cav, data) =>
                        for_each (dict_keys data) (fun signal_name =>
                          if String.eqb signal_name "Time" then ret tt
                          else insert_one sid cav signal_name)) x)
                    (fun _ => pairs_done s c sid pre (pairs_of (done ++ [x])))
                    (fun _ _ => True)).
  { intros done [cav data] _ st0 H0.
    destruct (for_each (dict_keys data) _ st0) as [[[]|e] st1] eqn:Hin; [|exact I].
    unfold pairs_of. rewrite flat_map_app. simpl. rewrite app_nil_r.
    apply (signals_loop_ok _ _ _ _ _ _ _ _ _ H0 Hin). }
  specialize (Hloop Hbody [] st Hst). rewrite Hrun in Hloop. exact Hloop.
Qed.

Lemma insert_scan_fdata_ok s c L k sid st st' :
  tracked s c L k st ->
  _insert_scan_fdata sid st = (Ok tt, st') ->
  tracked s c (L ++ scan_fdata_statements s sid) k st'.
Proof.
  intros [Hs [HL Hk]] H. subst s. unfold _insert_scan_fdata in H.
  apply bind_ok in H as (self & st1 & H1 & H).
  unfold read_fst in H1. inversion H1. subst self st1. clear H1.
  unfold scan_fdata_statements, dict_items in *.
  destruct (scan_data_float (fst st)) as [|kv d].
  - simpl in H. inversion H. subst st'. rewrite app_nil_r.
    split; [reflexivity|]. split; assumption.
  - rewrite len_map, len_cons in H.
    replace (0 <? len d + 1) with true in H
      by (symmetry; apply Z.ltb_lt; unfold len; lia).
    apply on_snd_ok' in H as (c' & H & ->).
    apply cursor_execute_ok in H as [fs ->].
    unfold tracked. simpl. rewrite HL, Hk, <- app_assoc.
    split; [reflexivity|]. split; [reflexivity | lia].
Qed.

Lemma insert_scan_sdata_ok s c L k sid st st' :
  tracked s c L k st ->
  _insert_scan_sdata sid st = (Ok tt, st') ->
  tracked s c (L ++ scan_sdata_statements s sid) k st'.
Proof.
  intros [Hs [HL Hk]] H. subst s. unfold _insert_scan_sdata in H.
  apply bind_ok in H as (self & st1 & H1 & H).
  unfold read_fst in H1. inversion H1. subst self st1. clear H1.
  unfold scan_sdata_statements, dict_items in *.
  destruct (scan_data_str (fst st)) as [|kv d].
  - simpl in H. inversion H. subst st'. rewrite app_nil_r.
    split; [reflexivity|]. split; assumption.
  - rewrite len_map, len_cons in H.
    replace (0 <? len d + 1) with true in H
      by (symmetry; apply Z.ltb_lt; unfold len; lia).
    apply on_snd_ok' in H as (c' & H & ->).
    apply cursor_execute_ok in H as [fs ->].
    unfold tracked. simpl. rewrite HL, Hk, <- app_assoc.
    split; [reflexivity|]. split; [reflexivity | lia].
Qed.

End InsertDataLoops.

Section Total.
Context {St : Type} (I : St -> Prop).

Lemma total_ret {A} (a : A) : total I (ret a).
Proof. apply triple_ret. auto. Qed.

Lemma total_bind {A B} (m : M St A) (k : A -> M St B) :
  total I m -> (forall a, total I (k a)) -> total I (bind m k).
Proof. intros Hm Hk. eapply triple_bind; [exact Hm | exact Hk]. Qed.

Lemma total_for_each {X} (l : list X) (body : X -> M St unit) :
  (forall x, In x l -> total I (body x)) -> total I (for_each l body).
Proof.
  induction l as [|x l IH]; intros Hb; simpl.
  - apply total_ret.
  - apply total_bind; [apply Hb; left; reflexivity | intros _].
    apply IH. intros y Hy. apply Hb. right. exact Hy.
Qed.

Lemma total_getitem_bind {V B} (d : dict V) (k : string) (v : V) (kont : V -> M St B) :
  dict_get k d = Some v -> total I (kont v) -> total I (bind (getitem d k) kont).
Proof.
  intros Hget Hk st Hst. unfold bind, getitem. rewrite Hget. simpl.
  apply Hk. exact Hst.
Qed.

End Total.

Section InsertDataTotal.
Context {NP : NumPy}.

Lemma total_read_fst_bind {B} (s : Scan) (kont : Scan -> M Env B) :
  total (quiet_env s) (kont s) -> total (quiet_env s) (bind read_fst kont).
Proof.
  intros Hk st Hst. unfold bind, read_fst. rewrite (proj1 Hst).
  apply Hk. exact Hst.
Qed.

Lemma faults_apply_stmt (q : stmt) (c : Conn) : faults (apply_stmt q c) = faults c.
Proof. destruct q; reflexivity. Qed.

Lemma total_execute (s : Scan) (q : stmt) :
  total (quiet_env s) (on_snd (cursor_execute q)).
Proof.
  intros [s0 c] [Hs Hq]. simpl in *.
  unfold on_snd, cursor_execute, bind, modify, db_call. simpl. rewrite Hq.
  split; simpl; [exact Hs | rewrite faults_apply_stmt; exact Hq].
Qed.

Lemma total_select_fetch {B} (s : Scan) (kont : Z -> M Env B) :
  (forall v, total (quiet_env s) (kont v)) ->
  total (quiet_env s)
        (on_snd (cursor_execute SelectLastInsertId) ;;
         v <- on_snd cursor_fetchone_0 ;; kont v).
Proof.
  intros Hk [s0 c] [Hs Hq]. simpl in *.
  unfold on_snd, cursor_execute, cursor_fetchone_0, bind, modify, db_call.
  simpl. rewrite Hq. simpl. rewrite Hq. simpl.
  apply Hk. split; simpl; assumption.
Qed.

Lemma total_select_fetch_last (s : Scan) :
  total (quiet_env s)
        (on_snd (cursor_execute SelectLastInsertId) ;; on_snd cursor_fetchone_0).
Proof.
  intros [s0 c] [Hs Hq]. simpl in *.
  unfold on_snd, cursor_execute, cursor_fetchone_0, bind, modify, db_call.
  simpl. rewrite Hq. simpl. rewrite Hq. simpl.
  split; simpl; assumption.
Qed.

Lemma total_commit (s : Scan) : total (quiet_env s) (on_snd conn_commit).
Proof.
  intros [s0 c] [Hs Hq]. simpl in *.
  unfold on_snd, conn_commit, db_call. simpl. rewrite Hq.
  split; simpl; first [assumption | reflexivity].
Qed.

Lemma total_derived_rows {St} (I : St -> Prop) (wid : Z) (bundle : dict darray)
      (names : list string) :
  (forall n, In n names -> In n (dict_keys bundle)) ->
  total I (map_m (fun arr_name =>
                    a <- getitem bundle arr_name ;; ret (wid, arr_name, JsonArr a))
                 names).
Proof.
  induction names as [|n names IH]; intros Hin; simpl.
  - apply total_ret.
  - apply total_bind.
    + destruct (dict_get_keys n bundle (Hin n (or_introl eq_refl))) as [a Ha].
      eapply total_getitem_bind; [exact Ha | apply total_ret].
    + intros y. apply total_bind; [|intros ys; apply total_ret].
      apply IH. intros m Hm. apply Hin. right. exact Hm.
Qed.

(** With the entries of a pair in place and a faultless connection, the
    three calls for the pair return. *)
Lemma total_insert_one (s : Scan) (sid wid : Z) (cav sg : string) (w : list stmt) :
  waveform_statements s sid wid cav sg = Some w ->
  total (quiet_env s) (insert_one sid cav sg).
Proof.
  unfold waveform_statements, dict_get2.
  destruct (dict_get cav (sampling_rate s)) as [rate|] eqn:Hrate; [|discriminate].
  destruct (dict_get cav (waveform_data s)) as [data|] eqn:Hdata; [|discriminate].
  destruct (dict_get sg data) as [[| |raw|]|] eqn:Hraw; try discriminate.
  destruct (dict_get cav (analysis_array s)) as [arrs|] eqn:Harrs; [|discriminate].
  destruct (dict_get sg arrs) as [arrays|] eqn:Harr; [|discriminate].
  destruct (dict_get cav (analysis_scalar s)) as [scs|] eqn:Hscs; [|discriminate].
  destruct (dict_get sg scs) as [scalars|] eqn:Hsc; [|discriminate].
  intros _. unfold insert_one.
  apply total_bind.
  - unfold _insert_waveform. apply total_read_fst_bind.
    eapply total_getitem_bind; [exact Hrate|].
    apply total_bind; [apply total_execute | intros _].
    apply total_select_fetch_last.
  - intros wid'. apply total_bind.
    + unfold _insert_waveform_adata. apply total_read_fst_bind.
      eapply total_getitem_bind; [exact Hdata|].
      eapply total_getitem_bind; [exact Hraw|].
      simpl tolist. apply total_bind; [apply total_ret | intros raw'].
      eapply total_getitem_bind; [exact Harrs|].
      eapply total_getitem_bind; [exact Harr|].
      apply total_bind; [apply total_derived_rows; auto | intros rows].
      apply total_execute.
    + intros _. unfold _insert_waveform_sdata. apply total_read_fst_bind.
      eapply total_getitem_bind; [exact Hscs|].
      eapply total_getitem_bind; [exact Hsc|].
      apply total_execute.
Qed.

Lemma all_waveform_statements_in s sid (P : list (string * string)) :
  forall wid ws cav sg,
    all_waveform_statements s sid wid P = Some ws ->
    In (cav, sg) P ->
    exists wid' w, waveform_statements s sid wid' cav sg = Some w.
Proof.
  induction P as [|[cav0 sg0] P IH]; intros wid ws cav sg Hws Hin; simpl in *.
  - destruct Hin.
  - destruct (waveform_statements s sid wid cav0 sg0) as [a|] eqn:Ha; [|discriminate].
    destruct (all_waveform_statements s sid (wid + 1) P) as [b|] eqn:Hb; [|discriminate].
    destruct Hin as [Heq|Hin].
    + inversion Heq. subst. eauto.
    + eapply IH; eauto.
Qed.

Lemma waveform_statements_defined s sid wid sid' wid' cav sg w :
  waveform_statements s sid wid cav sg = Some w ->
  exists w', waveform_statements s sid' wid' cav sg = Some w'.
Proof.
  unfold waveform_statements.
  destruct (dict_get cav (sampling_rate s)); [|discriminate].
  destruct (dict_get2 cav sg (waveform_data s)) as [[| |raw|]|]; try discriminate.
  destruct (dict_get2 cav sg (analysis_array s)); [|discriminate].
  destruct (dict_get2 cav sg (analysis_scalar s)); [|discriminate].
  eauto.
Qed.

Lemma total_insert_data_body (s : Scan) (sid wid : Z) (ws : list stmt) :
  all_waveform_statements s sid wid (waveform_pairs s) = Some ws ->
  total (quiet_env s)
        (insert_data_body (get_datetime_as_utc (start s))
                          (get_datetime_as_utc (end_ s))).
Proof.
  intros Hws. unfold insert_data_body.
  apply total_bind; [apply total_execute | intros _].
  apply total_select_fetch. intros sid'.
  apply total_read_fst_bind.
  apply total_bind.
  - apply total_for_each. intros [cav data] Hcav.
    apply total_for_each. intros sg Hsg.
    destruct (String.eqb sg "Time") eqn:Htime; [apply total_ret|].
    destruct (all_waveform_statements_in s sid (waveform_pairs s) wid ws cav sg Hws)
      as [wid' [w Hw]].
    + unfold waveform_pairs, pairs_of. apply in_flat_map.
      exists (cav, data). split; [exact Hcav|].
      apply in_map. apply filter_In. split; [exact Hsg|].
      unfold not_time. rewrite Htime. reflexivity.
    + destruct (waveform_statements_defined s sid wid' sid' wid' cav sg w Hw)
        as [w' Hw'].
      apply (total_insert_one s sid' wid' cav sg w' Hw').
  - intros _. apply total_bind.
    + unfold _insert_scan_fdata. apply total_read_fst_bind.
      destruct (0 <? len _); [apply total_execute | apply total_ret].
    + intros _. apply total_bind; [|intros _; apply total_commit].
      unfold _insert_scan_sdata. apply total_read_fst_bind.
      destruct (0 <? len _); [apply total_execute | apply total_ret].
Qed.

End InsertDataTotal.

Section InsertDataTheorem.
Context {NP : NumPy}.

Lemma conn_cursor_ok (c c' : Conn) (u : unit) :
  conn_cursor c = (Ok u, c') -> exists fs, c' = set_cursor_open true (set_faults fs c).
Proof.
  intros H. apply db_call_ok in H as [fs H]. inversion H. eauto.
Qed.

Lemma conn_commit_ok (c c' : Conn) (u : unit) :
  conn_commit c = (Ok u, c') ->
  statements c' = statements c /\ committed c' = (committed c ++ pending c)%list.
Proof.
  intros H. apply db_call_ok in H as [fs H]. inversion H. simpl. auto.
Qed.

(** C3.  A call of [insert_data] that returns has issued, in this order: the
    insert of the scan row and the read of its id; for every (cavity, signal)
    pair other than Time the insert of the waveform row (scan id, cavity,
    signal, sampling rate), the read of its id, one bulk insert of array rows,
    the first named raw with the stored waveform and then one for each name of
    the derived arrays, and one bulk insert with one row for each scalar; one
    bulk insert of the float metadata if there is any, and one of the string
    metadata if there is any.  The statements of the pairs touch neither the
    scan table nor the scan metadata tables, so the scan row is inserted once
    and an empty metadata map gives no statement.  And the call does return
    when no call on the connection fails and every pair has its sampling
    rate, its waveform as an ndarray and its two bundles. *)
Theorem insert_data_statements (s : Scan) (c : Conn) :
  (forall st',
      insert_data (s, c) = (Ok tt, st') ->
      exists ws,
        all_waveform_statements s (next_sid c) (next_wid c) (waveform_pairs s) = Some ws
        /\ forallb (fun q => negb (scan_level q)) ws = true
        /\ statements (snd st') =
           (statements c
            ++ [InsertScan (get_datetime_as_utc (start s)) (get_datetime_as_utc (end_ s));
                SelectLastInsertId]
            ++ ws
            ++ scan_fdata_statements s (next_sid c)
            ++ scan_sdata_statements s (next_sid c))%list
        /\ (scan_data_float s = [] -> scan_fdata_statements s (next_sid c) = [])
        /\ (scan_data_str s = [] -> scan_sdata_statements s (next_sid c) = []))
  /\ (forall ws,
        faults c = [] ->
        all_waveform_statements s (next_sid c) (next_wid c) (waveform_pairs s) = Some ws ->
        fst (insert_data (s, c)) = Ok tt).
Proof.
  split.
  {
  intros st' H. rewrite insert_data_unfold in H.
  destruct (on_snd conn_cursor (s, c)) as [[u|e] st1] eqn:Hcur;
    [|inversion H].
  apply on_snd_ok in Hcur as (c0 & Hcur & ->).
  apply conn_cursor_ok in Hcur as [fs0 ->].
  set (t := get_datetime_as_utc (start s)) in *.
  set (t' := get_datetime_as_utc (end_ s)) in *.
  destruct (insert_data_body t t' _) as [[[]|e] st2] eqn:Hbody; [|inversion H].
  inversion H. subst st2. clear H.
  unfold insert_data_body in Hbody.
  apply bind_ok in Hbody as (u1 & st1 & H1 & Hbody).
  apply on_snd_ok in H1 as (c1 & H1 & ->).
  apply cursor_execute_ok in H1 as [fs1 ->].
  apply bind_ok in Hbody as (u2 & st2 & H2 & Hbody).
  apply on_snd_ok in H2 as (c2 & H2 & ->).
  apply cursor_execute_ok in H2 as [fs2 ->].
  apply bind_ok in Hbody as (sid & st3 & H3 & Hbody).
  apply on_snd_ok in H3 as (c3 & H3 & ->).
  apply cursor_fetchone_0_ok in H3 as [Hsid [fs3 ->]].
  simpl in Hsid. inversion Hsid. subst sid. clear Hsid.
  apply bind_ok in Hbody as (self & st4 & H4 & Hbody).
  unfold read_fst in H4. simpl in H4. inversion H4. subst self st4. clear H4.
  apply bind_ok in Hbody as ([] & st5 & Hloop & Hbody).
  apply (cavities_loop_ok s c (next_sid c) [InsertScan t t'; SelectLastInsertId])
    in Hloop.
  - destruct Hloop as [ws [Hws [Hlev Htr]]].
    apply bind_ok in Hbody as ([] & st6 & Hf & Hbody).
    apply (insert_scan_fdata_ok _ _ _ _ _ _ _ Htr) in Hf.
    apply bind_ok in Hbody as ([] & st7 & Hs & Hbody).
    apply (insert_scan_sdata_ok _ _ _ _ _ _ _ Hf) in Hs.
    apply on_snd_ok' in Hbody as (c8 & Hcommit & ->).
    apply conn_commit_ok in Hcommit as [Hst _].
    destruct Hs as [_ [HL _]].
    exists ws. split; [exact Hws|]. split; [exact Hlev|]. split.
    + simpl. rewrite Hst, HL, <- !app_assoc. reflexivity.
    + split; intros Hempty.
      * unfold scan_fdata_statements. rewrite Hempty. reflexivity.
      * unfold scan_sdata_statements. rewrite Hempty. reflexivity.
  - exists []. split; [reflexivity|]. split; [reflexivity|].
    unfold tracked. simpl. rewrite <- app_assoc.
    split; [reflexivity|]. split; [reflexivity | unfold len; simpl; lia].
  }
  intros ws Hq Hws. rewrite insert_data_unfold.
  assert (Hcur : on_snd conn_cursor (s, c) = (Ok tt, (s, set_cursor_open true c))).
  { unfold on_snd, conn_cursor, db_call. simpl. rewrite Hq. reflexivity. }
  rewrite Hcur.
  pose proof (total_insert_data_body s _ _ ws Hws (s, set_cursor_open true c)
                (conj eq_refl Hq)) as Hbody.
  destruct (insert_data_body _ _ _) as [[[]|e] st2]; [reflexivity | destruct Hbody].
Qed.

End InsertDataTheorem.

(* ================================================================== *)
(** * Runs of [insert_data] on a Scan of one cavity *)


Lemma insert_data_keeps_id_witness :
  fst (insert_data (sample_scan, empty_conn)) = Ok tt
  /\ id (fst (snd (insert_data (sample_scan, empty_conn)))) = None.
Proof.
  assert (Hrun : fst (insert_data (sample_scan, empty_conn)) = Ok tt)
    by (vm_compute; reflexivity).
  split; [exact Hrun|].
  destruct (insert_data (sample_scan, empty_conn)) as [r st'] eqn:Hcall.
  simpl in Hrun. subst r.
  exact (proj2 (insert_data_keeps_id sample_scan empty_conn st' eq_refl Hcall)).
Defined.

(** The call returns and the Scan still has no id. *)
Lemma insert_data_assigns_no_id : ~ id_assigned_claim sample_scan empty_conn.
Proof.
  intros H. apply H.
  - reflexivity.
  - vm_compute. reflexivity.
  - rewrite insert_data_keeps_self. reflexivity.
Qed.

(** On an empty database the Scan of one cavity is written with seven
    statements after the two of the scan row. *)
Lemma insert_data_statements_witness :
  fst (insert_data (sample_scan, empty_conn)) = Ok tt
  /\ exists ws,
      all_waveform_statements sample_scan 1 1 [("R1", "GMES"); ("R1", "PMES")] = Some ws
      /\ statements (snd (snd (insert_data (sample_scan, empty_conn))))
         = ([InsertScan t0 t1; SelectLastInsertId] ++ ws
            ++ [InsertScanFdata [(1, "R1XXITOT", lit 7)]]
            ++ [InsertScanSdata [(1, "mode", "CW")]])%list.
Proof.
  destruct (insert_data_statements sample_scan empty_conn) as [Hlog Hret].
  assert (Hdef : exists ws,
             all_waveform_statements sample_scan 1 1 [("R1", "GMES"); ("R1", "PMES")]
             = Some ws) by (eexists; reflexivity).
  destruct Hdef as [ws0 Hws0].
  pose proof (Hret ws0 eq_refl Hws0) as Hrun.
  split; [exact Hrun|].
  destruct (insert_data (sample_scan, empty_conn)) as [r st'] eqn:Hcall.
  simpl in Hrun. subst r.
  destruct (Hlog st' eq_refl) as [ws [Hws [_ [Hst _]]]].
  exists ws. split; [exact Hws | exact Hst].
Defined.

(** The call that returns commits one scan row, two waveform rows, two array
    rows and ten scalar rows for each waveform, and the two metadata rows. *)
Example insert_data_commits :
  map (fun t => count_table t
                  (committed (snd (snd (insert_data (sample_scan, empty_conn))))))
      ["scan"; "waveform"; "waveform_adata"; "waveform_sdata"; "scan_fdata"; "scan_sdata"]
  = [1; 2; 4; 20; 1; 1].
Proof. vm_compute. reflexivity. Qed.

(** The call that fails had issued the insert of the second waveform row
    last. *)
Example insert_data_fails_at_second_waveform :
  last (statements (snd (snd (insert_data (sample_scan, failing_conn)))))
       SelectLastInsertId
  = InsertWaveform 1 "R1" "PMES" (lit 5000).
Proof. vm_compute. reflexivity. Qed.

(* ================================================================== *)
(** * Scan.add_cavity_data: the outcome of a call and the state it leaves *)

Section AddCavityDataOutcome.
Context {NP : NumPy}.

Lemma analyse_and_store_refused c data rate x (st : Scan) e :
  refusal data rate x = Some e ->
  analyse_and_store c data rate x st = (Err e, st).
Proof.
  unfold refusal, analyse_and_store.
  destruct (String.eqb x "Time"); [discriminate|].
  unfold bind at 1. unfold getitem at 1.
  destruct (dict_get x data) as [w|]; simpl.
  - unfold bind at 1. unfold lift_result.
    destruct (analyze_signal w rate) as [[sc ar]|e']; [discriminate|].
    intros H. inversion H. reflexivity.
  - intros H. inversion H. reflexivity.
Qed.

Lemma analyse_and_store_stored c data rate x (st : Scan) w sc ar ms ma :
  x <> "Time" ->
  dict_get x data = Some w ->
  analyze_signal w rate = Ok (sc, ar) ->
  dict_get c (analysis_scalar st) = Some ms ->
  dict_get c (analysis_array st) = Some ma ->
  analyse_and_store c data rate x st
  = (Ok tt,
     set_analysis_array
       (dict_set c (dict_set x ar (dict_set x [] ma))
                 (dict_set c (dict_set x [] ma) (analysis_array st)))
       (set_analysis_scalar
          (dict_set c (dict_set x sc ms) (analysis_scalar st)) st)).
Proof.
  intros Hne Hx Han Hms Hma. unfold analyse_and_store.
  apply String.eqb_neq in Hne. rewrite Hne.
  unfold bind at 1. unfold getitem at 1. rewrite Hx. simpl.
  unfold bind at 1. unfold lift_result. rewrite Han.
  destruct (analyze_signal_arrays _ _ _ _ Han) as [pxx ->].
  unfold setitem_analysis_scalar, setitem_analysis_array,
    setitem_analysis_array3, bind, get_state, put_state, getitem.
  simpl. rewrite Hms. simpl. rewrite Hma. simpl.
  unfold bind, ret, raise. simpl. rewrite dict_get_set_eq.
  rewrite dict_get_set_eq. reflexivity.
Qed.

Lemma refusal_none_cases data rate x :
  refusal data rate x = None ->
  x = "Time"
  \/ (x <> "Time" /\ exists w sc ar,
         dict_get x data = Some w /\ analyze_signal w rate = Ok (sc, ar)).
Proof.
  unfold refusal. destruct (String.eqb_spec x "Time") as [->|Hne]; [auto|].
  destruct (dict_get x data) as [w|]; [|discriminate].
  destruct (analyze_signal w rate) as [[sc ar]|e] eqn:Han; [|discriminate].
  intros _. right. split; [exact Hne|]. exists w, sc, ar. auto.
Qed.

(** The loop of [add_cavity_data] from a state in which the cavity has its
    two dictionaries: it stops at the first signal refused, and leaves
    bundles for the signals before it. *)
Lemma signals_loop_run c data rate (s1 : Scan) :
  forall keys done st,
    bundles_within c done st ->
    kept s1 st ->
    let out := for_each keys (analyse_and_store c data rate) st in
    kept s1 (snd out)
    /\ ((first_refusal_in data rate keys = None
         /\ fst out = Ok tt
         /\ bundles_within c (done ++ keys)%list (snd out))
        \/ (exists e pre sg post,
               keys = (pre ++ sg :: post)%list
               /\ first_refusal_in data rate pre = None
               /\ refusal data rate sg = Some e
               /\ first_refusal_in data rate keys = Some e
               /\ fst out = Err e
               /\ bundles_within c (done ++ pre)%list (snd out))).
Proof.
  induction keys as [|x keys IH]; intros done st Hb Hk; simpl.
  - split; [exact Hk|]. left. rewrite app_nil_r. auto.
  - destruct (refusal data rate x) as [e|] eqn:Href.
    + unfold bind. rewrite (analyse_and_store_refused c data rate x st e Href).
      simpl. split; [exact Hk|]. right. exists e, [], x, keys.
      rewrite app_nil_r. simpl. auto 10.
    + assert (Hstep : exists st',
                 analyse_and_store c data rate x st = (Ok tt, st')
                 /\ kept s1 st' /\ bundles_within c (done ++ [x])%list st').
      { destruct (refusal_none_cases _ _ _ Href)
          as [->|[Hne [w [sc [ar [Hx Han]]]]]].
        - exists st. split; [reflexivity|]. split; [exact Hk|].
          destruct Hb as [ms [ma [Hms [Hma Hin]]]].
          exists ms, ma. split; [exact Hms|]. split; [exact Hma|].
          intros sg Hsg. destruct (Hin sg Hsg) as [H1 H2].
          split; [apply in_or_app; left; exact H1 | exact H2].
        - destruct Hb as [ms [ma [Hms [Hma Hin]]]].
          eexists. split;
            [apply (analyse_and_store_stored c data rate x st w sc ar ms ma);
             assumption|].
          split.
          + destruct Hk as [K1 [K2 [K3 [K4 [K5 [K6 K7]]]]]].
            unfold kept. simpl. auto 10.
          + eexists. eexists. simpl.
            split; [apply dict_get_set_eq|]. split; [apply dict_get_set_eq|].
            intros sg Hsg.
            destruct (String.eqb_spec sg x) as [->|Hsx].
            * split; [apply in_or_app; right; left; reflexivity | exact Hne].
            * rewrite !(dict_get_set_neq sg x) in Hsg by exact Hsx.
              destruct (Hin sg Hsg) as [H1 H2].
              split; [apply in_or_app; left; exact H1 | exact H2]. }
      destruct Hstep as [st' [Hrun [Hk' Hb']]].
      unfold bind. rewrite Hrun.
      destruct (IH (done ++ [x])%list st' Hb' Hk') as [Hkept Hcases].
      split; [exact Hkept|].
      destruct Hcases as [[Hnone [Hok Hbw]]|[e [pre [sg [post [E1 [E2 [E3 [E4 [E5 E6]]]]]]]]]].
      * left. rewrite <- app_assoc in Hbw. auto.
      * right. exists e, (x :: pre), sg, post.
        rewrite <- app_assoc in E6. simpl. rewrite Href. subst keys. auto 10.
Qed.

Lemma add_cavity_data_unfold c data rate (s : Scan) :
  add_cavity_data c data rate s
  = for_each (dict_keys data) (analyse_and_store c data rate)
             (cavity_reset c data rate s).
Proof. reflexivity. Qed.

Lemma bundles_within_reset c data rate (s : Scan) :
  bundles_within c [] (cavity_reset c data rate s).
Proof.
  exists [], []. simpl. rewrite !dict_get_set_eq.
  split; [reflexivity|]. split; [reflexivity|].
  intros sg [H|H]; exfalso; apply H; reflexivity.
Qed.

Lemma kept_refl (s : Scan) : kept s s.
Proof. unfold kept. auto 10. Qed.

End AddCavityDataOutcome.

Section AddCavityDataTheorems.
Context {NP : NumPy}.




(** A call for the cavity [c], whether it returns or raises, leaves the id,
    the timestamps and the scan metadata of the Scan as they were, and leaves
    the waveforms, the sampling rate and the bundles of every other cavity as
    they were. *)
Theorem add_cavity_data_frame (c : string) (data : dict pyobj) (rate : scalar)
        (s : Scan) :
  let s' := snd (add_cavity_data c data rate s) in
  id s' = id s /\ start s' = start s /\ end_ s' = end_ s
  /\ scan_data_float s' = scan_data_float s
  /\ scan_data_str s' = scan_data_str s
  /\ forall c', c' <> c ->
       dict_get c' (waveform_data s') = dict_get c' (waveform_data s)
       /\ dict_get c' (sampling_rate s') = dict_get c' (sampling_rate s)
       /\ dict_get c' (analysis_scalar s') = dict_get c' (analysis_scalar s)
       /\ dict_get c' (analysis_array s') = dict_get c' (analysis_array s).
Proof.
  intros s'. subst s'.
  pose proof (add_cavity_data_triple c data rate s s eq_refl) as Hframe.
  assert (Hf : frame c s (snd (add_cavity_data c data rate s))).
  { destruct (add_cavity_data c data rate s) as [[[]|e] s']; simpl;
      [exact (proj1 Hframe) | exact Hframe]. }
  rewrite add_cavity_data_unfold in *.
  destruct (signals_loop_run c data rate (cavity_reset c data rate s)
              (dict_keys data) [] _
              (bundles_within_reset c data rate s) (kept_refl _))
    as [[K1 [K2 [K3 [K4 [K5 [K6 K7]]]]]] _].
  simpl in K1, K2, K3, K6, K7.
  split; [exact K1|]. split; [exact K2|]. split; [exact K3|].
  split; [exact K6|]. split; [exact K7|].
  intros c' Hc'. exact (Hf c' Hc').
Qed.

(** A call that returns has replaced the cavity: the Scan holds [data] and
    the sampling rate for [c], and [c] has a bundle of scalars and a bundle of
    arrays for the signals of [data] other than Time and for no other signal;
    what an earlier call had stored for [c] is gone. *)
Theorem add_cavity_data_replaces (c : string) (data : dict pyobj) (rate : scalar)
        (s : Scan) :
  fst (add_cavity_data c data rate s) = Ok tt ->
  let s' := snd (add_cavity_data c data rate s) in
  dict_get c (waveform_data s') = Some data
  /\ dict_get c (sampling_rate s') = Some rate
  /\ forall sg,
       (dict_get2 c sg (analysis_scalar s') <> None
        <-> In sg (dict_keys data) /\ sg <> "Time")
       /\ (dict_get2 c sg (analysis_array s') <> None
           <-> In sg (dict_keys data) /\ sg <> "Time").
Proof.
  intros Hok s'. subst s'.
  pose proof (add_cavity_data_triple c data rate s s eq_refl) as Hpos.
  rewrite add_cavity_data_unfold in *.
  destruct (signals_loop_run c data rate (cavity_reset c data rate s)
              (dict_keys data) [] _
              (bundles_within_reset c data rate s) (kept_refl _))
    as [[_ [_ [_ [K4 [K5 _]]]]] Hcases].
  destruct (for_each (dict_keys data) (analyse_and_store c data rate)
                     (cavity_reset c data rate s)) as [r s'] eqn:Hrun.
  simpl in *. subst r.
  destruct Hcases as [[_ [_ Hbw]]|[e [pre [sg [post [_ [_ [_ [_ [Herr _]]]]]]]]]];
    [|discriminate].
  destruct Hpos as [_ Hcav].
  assert (Hdata : dict_get c (waveform_data s') = Some data)
    by (rewrite K4; apply dict_get_set_eq).
  split; [exact Hdata|].
  split; [rewrite K5; apply dict_get_set_eq|].
  destruct Hbw as [ms [ma [Hms [Hma Honly]]]].
  intros sg. unfold dict_get2. rewrite Hms, Hma.
  assert (Hthere : In sg (dict_keys data) /\ sg <> "Time" ->
                   dict_get sg ms <> None /\ dict_get sg ma <> None).
  { intros [Hin Hne].
    destruct (dict_get_keys sg data Hin) as [w Hw].
    destruct (Hcav data sg w Hdata Hw Hne) as [r [sc [ar [_ [_ [H1 H2]]]]]].
    unfold dict_get2 in H1, H2. rewrite Hms in H1. rewrite Hma in H2.
    rewrite H1, H2. split; discriminate. }
  split; split.
  - intros H. apply Honly. left. exact H.
  - intros H. exact (proj1 (Hthere H)).
  - intros H. apply Honly. right. exact H.
  - intros H. exact (proj2 (Hthere H)).
Qed.

(** A call that raises has stored [data] and the sampling rate for [c] all
    the same, and has left a signal of [data] without its bundles: the Scan
    no longer satisfies, for [c], that every stored signal is analysed.  The
    bundles that [c] has belong to signals of [data]. *)
Theorem add_cavity_data_raise_state (c : string) (data : dict pyobj)
        (rate : scalar) (s : Scan) (e : exn) :
  fst (add_cavity_data c data rate s) = Err e ->
  let s' := snd (add_cavity_data c data rate s) in
  dict_get c (waveform_data s') = Some data
  /\ dict_get c (sampling_rate s') = Some rate
  /\ (exists sg w,
         dict_get sg data = Some w /\ sg <> "Time"
         /\ analyze_signal w rate = Err e
         /\ dict_get2 c sg (analysis_scalar s') = None
         /\ dict_get2 c sg (analysis_array s') = None)
  /\ ~ cavity_ok s' c
  /\ forall sg, dict_get2 c sg (analysis_scalar s') <> None ->
                In sg (dict_keys data) /\ sg <> "Time".
Proof.
  intros Herr s'. subst s'.
  rewrite add_cavity_data_unfold in *.
  destruct (signals_loop_run c data rate (cavity_reset c data rate s)
              (dict_keys data) [] _
              (bundles_within_reset c data rate s) (kept_refl _))
    as [[_ [_ [_ [K4 [K5 _]]]]] Hcases].
  destruct (for_each (dict_keys data) (analyse_and_store c data rate)
                     (cavity_reset c data rate s)) as [r s'] eqn:Hrun.
  simpl in *. subst r.
  destruct Hcases as [[_ [Hok _]]|[e' [pre [sg [post [Hkeys [Hpre [Href [_ [He Hbw]]]]]]]]]];
    [discriminate|].
  inversion He. subst e'. clear He.
  assert (Hdata : dict_get c (waveform_data s') = Some data)
    by (rewrite K4; apply dict_get_set_eq).
  assert (Hrate : dict_get c (sampling_rate s') = Some rate)
    by (rewrite K5; apply dict_get_set_eq).
  destruct Hbw as [ms [ma [Hms [Hma Honly]]]].
  assert (Hin : In sg (dict_keys data))
    by (rewrite Hkeys; apply in_or_app; right; left; reflexivity).
  destruct (dict_get_keys sg data Hin) as [w Hw].
  assert (Hsg : sg <> "Time" /\ analyze_signal w rate = Err e).
  { unfold refusal in Href.
    destruct (String.eqb_spec sg "Time"); [discriminate|].
    rewrite Hw in Href.
    destruct (analyze_signal w rate) as [r|e']; [discriminate|].
    inversion Href. auto. }
  destruct Hsg as [Hne Han].
  assert (Hnot : ~ In sg pre).
  { intros Hp. clear - Hp Hpre Href.
    induction pre as [|y pre IH]; [destruct Hp|]. simpl in Hpre.
    destruct (refusal data rate y) eqn:Hy; [discriminate|].
    destruct Hp as [->|Hp]; [congruence | auto]. }
  assert (Hnone : dict_get sg ms = None /\ dict_get sg ma = None).
  { split.
    - destruct (dict_get sg ms) eqn:Hg; [|reflexivity].
      exfalso. apply Hnot. apply (Honly sg). left. rewrite Hg. discriminate.
    - destruct (dict_get sg ma) eqn:Hg; [|reflexivity].
      exfalso. apply Hnot. apply (Honly sg). right. rewrite Hg. discriminate. }
  split; [exact Hdata|]. split; [exact Hrate|].
  split.
  { exists sg, w. unfold dict_get2. rewrite Hms, Hma.
    destruct Hnone. auto 10. }
  split.
  - intros Hcav.
    destruct (Hcav data sg w Hdata Hw Hne) as [r [sc [ar [_ [_ [H1 _]]]]]].
    unfold dict_get2 in H1. rewrite Hms, (proj1 Hnone) in H1. discriminate.
  - intros sg' H. unfold dict_get2 in H. rewrite Hms in H.
    destruct (Honly sg' (or_introl H)) as [H1 H2].
    split; [|exact H2]. rewrite Hkeys. apply in_or_app. left. exact H1.
Qed.

End AddCavityDataTheorems.

(* ================================================================== *)
(** * Scan.insert_data: the rows it commits *)

Section Replay.
Context {NP : NumPy}.

Lemma replay_app (a b : list stmt) (c : Conn) :
  replay (a ++ b) c = replay b (replay a c).
Proof. unfold replay. apply fold_left_app. Qed.

Lemma db_of_apply_stmt (q : stmt) (c1 c2 : Conn) :
  db_of c1 = db_of c2 -> db_of (apply_stmt q c1) = db_of (apply_stmt q c2).
Proof.
  unfold db_of. intros H. inversion H.
  destruct q; simpl; congruence.
Qed.

Lemma db_of_replay (L : list stmt) :
  forall c1 c2, db_of c1 = db_of c2 -> db_of (replay L c1) = db_of (replay L c2).
Proof.
  induction L as [|q L IH]; intros c1 c2 H; simpl; [exact H|].
  apply IH. apply db_of_apply_stmt. exact H.
Qed.

Lemma committed_replay (L : list stmt) :
  forall c, committed (replay L c) = committed c.
Proof.
  induction L as [|q L IH]; intros c; simpl; [reflexivity|].
  rewrite IH. destruct q; reflexivity.
Qed.

Section OnReturn.
Context {St : Type} (I : St -> Prop).

Lemma on_return_ret {A} (a : A) : on_return I (ret a).
Proof. apply triple_ret. auto. Qed.

Lemma on_return_raise {A} (e : exn) : on_return I (@raise St A e).
Proof. apply triple_raise. auto. Qed.

Lemma on_return_bind {A B} (m : M St A) (k : A -> M St B) :
  on_return I m -> (forall a, on_return I (k a)) -> on_return I (bind m k).
Proof. intros Hm Hk. eapply triple_bind; [exact Hm | exact Hk]. Qed.

Lemma on_return_for_each {X} (l : list X) (body : X -> M St unit) :
  (forall x, on_return I (body x)) -> on_return I (for_each l body).
Proof.
  intros Hb. induction l as [|x l IH]; simpl.
  - apply on_return_ret.
  - apply on_return_bind; [apply Hb | intros _; exact IH].
Qed.

Lemma on_return_map_m {X Y} (f : X -> M St Y) (l : list X) :
  (forall x, on_return I (f x)) -> on_return I (map_m f l).
Proof.
  intros Hf. induction l as [|x l IH]; simpl.
  - apply on_return_ret.
  - apply on_return_bind; [apply Hf|]. intros y.
    apply on_return_bind; [exact IH|]. intros ys. apply on_return_ret.
Qed.

Lemma on_return_getitem {V} (d : dict V) (k : string) : on_return I (getitem d k).
Proof.
  unfold getitem. destruct (dict_get k d);
    [apply on_return_ret | apply on_return_raise].
Qed.

Lemma on_return_tolist (w : pyobj) : on_return I (tolist w).
Proof. destruct w; simpl; first [apply on_return_ret | apply on_return_raise]. Qed.

End OnReturn.

Lemma on_return_read_fst (I : Env -> Prop) :
  on_return I (@read_fst Scan Conn).
Proof. intros st Hst. exact Hst. Qed.

Lemma logged_execute (c0 : Conn) (q : stmt) :
  on_return (logged c0) (on_snd (cursor_execute q)).
Proof.
  intros [s c] [L [HL Hdb]]. simpl in *.
  destruct (on_snd (cursor_execute q) (s, c)) as [[u|e] st'] eqn:Hrun; [|exact I].
  apply on_snd_ok in Hrun as (c' & Hrun & ->).
  apply cursor_execute_ok in Hrun as [fs ->].
  exists (L ++ [q])%list. simpl. split.
  - replace (statements (apply_stmt q (set_faults fs (log_statement q c))))
      with (statements c ++ [q])%list by (destruct q; reflexivity).
    rewrite HL, app_assoc. reflexivity.
  - rewrite replay_app. simpl.
    apply db_of_apply_stmt. unfold db_of in *. simpl. exact Hdb.
Qed.

Lemma logged_fetchone (c0 : Conn) :
  on_return (logged c0) (on_snd cursor_fetchone_0).
Proof.
  intros [s c] [L [HL Hdb]]. simpl in *.
  destruct (on_snd cursor_fetchone_0 (s, c)) as [[u|e] st'] eqn:Hrun; [|exact I].
  apply on_snd_ok in Hrun as (c' & Hrun & ->).
  apply cursor_fetchone_0_ok in Hrun as [_ [fs ->]].
  exists L. simpl. split; [exact HL | exact Hdb].
Qed.

Lemma logged_commit (c0 : Conn) :
  triple (logged c0) (on_snd conn_commit)
         (fun _ => logged_and_committed c0) (fun _ _ => True).
Proof.
  intros [s c] [L [HL Hdb]]. simpl in *.
  destruct (on_snd conn_commit (s, c)) as [[u|e] st'] eqn:Hrun; [|exact I].
  apply on_snd_ok in Hrun as (c' & Hrun & ->).
  apply db_call_ok in Hrun as [fs Hrun]. inversion Hrun. subst c'.
  unfold db_of in Hdb. inversion Hdb.
  exists L. simpl. repeat split; congruence.
Qed.

End Replay.

Create HintDb logged.

#[export] Hint Resolve on_return_ret on_return_raise on_return_getitem
  on_return_tolist on_return_read_fst logged_execute logged_fetchone : logged.

Ltac on_return_step :=
  first [ apply on_return_bind; [|intros ?]
        | apply on_return_for_each; intros ?
        | apply on_return_map_m; intros ?
        | match goal with
          | |- on_return _ (if ?b then _ else _) => destruct b
          | |- on_return _ (match ?x with (_, _) => _ end) => destruct x
          end
        | solve [auto with logged]
        | solve [unfold cursor_executemany; auto with logged] ].

Section ReplayBody.
Context {NP : NumPy}.

Lemma logged_insert_one c0 sid cav sg :
  on_return (logged c0) (insert_one sid cav sg).
Proof.
  unfold insert_one, _insert_waveform, _insert_waveform_adata,
    _insert_waveform_sdata.
  repeat on_return_step.
Qed.

Lemma logged_insert_data_body c0 t t' :
  triple (logged c0) (insert_data_body t t')
         (fun _ => logged_and_committed c0) (fun _ _ => True).
Proof.
  unfold insert_data_body.
  assert (Hstep : forall A (m : M Env A) (k : A -> M Env unit),
             on_return (logged c0) m ->
             (forall a, triple (logged c0) (k a)
                               (fun _ => logged_and_committed c0) (fun _ _ => True)) ->
             triple (logged c0) (bind m k)
                    (fun _ => logged_and_committed c0) (fun _ _ => True)).
  { intros A m k Hm Hk. eapply triple_bind; [exact Hm | exact Hk]. }
  apply Hstep; [auto with logged | intros _].
  apply Hstep; [auto with logged | intros _].
  apply Hstep; [auto with logged | intros sid].
  apply Hstep; [auto with logged | intros self].
  apply Hstep.
  { apply on_return_for_each. intros [cav data].
    apply on_return_for_each. intros sg.
    destruct (String.eqb sg "Time"); [auto with logged|].
    apply logged_insert_one. }
  intros _.
  apply Hstep; [unfold _insert_scan_fdata; repeat on_return_step | intros _].
  apply Hstep; [unfold _insert_scan_sdata; repeat on_return_step | intros _].
  apply logged_commit.
Qed.

End ReplayBody.

Section InsertDataRows.
Context {NP : NumPy}.

Lemma replay_waveform s sid wid cav sg w (c : Conn) :
  waveform_statements s sid wid cav sg = Some w ->
  next_wid c = wid ->
  exists rows,
    waveform_rows s sid wid cav sg = Some rows
    /\ pending (replay w c) = (pending c ++ rows)%list
    /\ next_wid (replay w c) = wid + 1
    /\ next_sid (replay w c) = next_sid c.
Proof.
  unfold waveform_statements, waveform_rows.
  destruct (dict_get cav (sampling_rate s)) as [rate|]; [|discriminate].
  destruct (dict_get2 cav sg (waveform_data s)) as [[| |raw|]|]; try discriminate.
  destruct (dict_get2 cav sg (analysis_array s)) as [arrays|]; [|discriminate].
  destruct (dict_get2 cav sg (analysis_scalar s)) as [scalars|]; [|discriminate].
  intros H Hw. inversion H. subst w. clear H.
  eexists. split; [reflexivity|].
  unfold replay. simpl. rewrite Hw. split; [|split; reflexivity].
  rewrite map_map, <- !app_assoc. simpl.
  do 4 f_equal. apply map_ext. intros [n v]. reflexivity.
Qed.

Lemma replay_all_waveforms s sid (P : list (string * string)) :
  forall wid ws (c : Conn),
    all_waveform_statements s sid wid P = Some ws ->
    next_wid c = wid ->
    exists rows,
      all_waveform_rows s sid wid P = Some rows
      /\ pending (replay ws c) = (pending c ++ rows)%list
      /\ next_wid (replay ws c) = wid + len P
      /\ next_sid (replay ws c) = next_sid c.
Proof.
  induction P as [|[cav sg] P IH]; intros wid ws c Hws Hw; simpl in *.
  - inversion Hws. subst ws. exists []. simpl. rewrite app_nil_r.
    repeat split; try reflexivity. unfold len. simpl. lia.
  - destruct (waveform_statements s sid wid cav sg) as [a|] eqn:Ha; [|discriminate].
    destruct (all_waveform_statements s sid (wid + 1) P) as [b|] eqn:Hb; [|discriminate].
    inversion Hws. subst ws. clear Hws.
    destruct (replay_waveform s sid wid cav sg a c Ha Hw)
      as [r1 [Hr1 [Hp1 [Hn1 Hs1]]]].
    destruct (IH (wid + 1) b (replay a c) Hb Hn1)
      as [r2 [Hr2 [Hp2 [Hn2 Hs2]]]].
    rewrite Hr1, Hr2. exists (r1 ++ r2)%list.
    rewrite replay_app, Hp2, Hp1, Hn2, Hs2, Hs1, len_cons, app_assoc.
    repeat split; try reflexivity. lia.
Qed.

Lemma replay_fdata s sid (c : Conn) :
  pending (replay (scan_fdata_statements s sid) c)
  = (pending c ++ scan_fdata_rows s sid)%list
  /\ next_sid (replay (scan_fdata_statements s sid) c) = next_sid c
  /\ next_wid (replay (scan_fdata_statements s sid) c) = next_wid c.
Proof.
  unfold scan_fdata_statements, scan_fdata_rows.
  destruct (scan_data_float s) as [|kv d]; simpl.
  - rewrite app_nil_r. auto.
  - split; [|auto]. rewrite map_map. f_equal. destruct kv as [k v]. simpl.
    f_equal. apply map_ext. intros [k' v']. reflexivity.
Qed.

Lemma replay_sdata s sid (c : Conn) :
  pending (replay (scan_sdata_statements s sid) c)
  = (pending c ++ scan_sdata_rows s sid)%list
  /\ next_sid (replay (scan_sdata_statements s sid) c) = next_sid c
  /\ next_wid (replay (scan_sdata_statements s sid) c) = next_wid c.
Proof.
  unfold scan_sdata_statements, scan_sdata_rows.
  destruct (scan_data_str s) as [|kv d]; simpl.
  - rewrite app_nil_r. auto.
  - split; [|auto]. rewrite map_map. f_equal. destruct kv as [k v]. simpl.
    f_equal. apply map_ext. intros [k' v']. reflexivity.
Qed.

(** The statements of a run of the body that returns. *)
Lemma insert_data_body_log (s : Scan) (c : Conn) (t t' : datetime) (st' : Env) :
  insert_data_body t t' (s, c) = (Ok tt, st') ->
  exists ws,
    all_waveform_statements s (next_sid c) (next_wid c) (waveform_pairs s) = Some ws
    /\ statements (snd st') =
       (statements c
        ++ [InsertScan t t'; SelectLastInsertId]
        ++ ws
        ++ scan_fdata_statements s (next_sid c)
        ++ scan_sdata_statements s (next_sid c))%list.
Proof.
  intros Hbody. unfold insert_data_body in Hbody.
  apply bind_ok in Hbody as (u1 & st1 & H1 & Hbody).
  apply on_snd_ok in H1 as (c1 & H1 & ->).
  apply cursor_execute_ok in H1 as [fs1 ->].
  apply bind_ok in Hbody as (u2 & st2 & H2 & Hbody).
  apply on_snd_ok in H2 as (c2 & H2 & ->).
  apply cursor_execute_ok in H2 as [fs2 ->].
  apply bind_ok in Hbody as (sid & st3 & H3 & Hbody).
  apply on_snd_ok in H3 as (c3 & H3 & ->).
  apply cursor_fetchone_0_ok in H3 as [Hsid [fs3 ->]].
  simpl in Hsid. inversion Hsid. subst sid. clear Hsid.
  apply bind_ok in Hbody as (self & st4 & H4 & Hbody).
  unfold read_fst in H4. simpl in H4. inversion H4. subst self st4. clear H4.
  apply bind_ok in Hbody as ([] & st5 & Hloop & Hbody).
  apply (cavities_loop_ok s c (next_sid c) [InsertScan t t'; SelectLastInsertId])
    in Hloop.
  - destruct Hloop as [ws [Hws [Hlev Htr]]].
    apply bind_ok in Hbody as ([] & st6 & Hf & Hbody).
    apply (insert_scan_fdata_ok _ _ _ _ _ _ _ Htr) in Hf.
    apply bind_ok in Hbody as ([] & st7 & Hs & Hbody).
    apply (insert_scan_sdata_ok _ _ _ _ _ _ _ Hf) in Hs.
    apply on_snd_ok' in Hbody as (c8 & Hcommit & ->).
    apply conn_commit_ok in Hcommit as [Hst _].
    destruct Hs as [_ [HL _]].
    exists ws. split; [exact Hws|].
    simpl. rewrite Hst, HL, <- !app_assoc. reflexivity.
  - exists []. split; [reflexivity|]. split; [reflexivity|].
    unfold tracked. simpl. rewrite <- app_assoc.
    split; [reflexivity|]. split; [reflexivity | unfold len; simpl; lia].
Qed.

(** What a run of the body that returns has done to the database. *)
Lemma insert_data_body_rows (s : Scan) (c : Conn) (st' : Env) :
  insert_data_body (get_datetime_as_utc (start s)) (get_datetime_as_utc (end_ s))
                   (s, c) = (Ok tt, st') ->
  exists rows,
    scan_rows s (next_sid c) (next_wid c) = Some rows
    /\ committed (snd st') = (committed c ++ pending c ++ rows)%list
    /\ pending (snd st') = []
    /\ next_sid (snd st') = next_sid c + 1
    /\ next_wid (snd st') = next_wid c + len (waveform_pairs s).
Proof.
  intros Hbody.
  destruct (insert_data_body_log s c _ _ st' Hbody) as [ws [Hws Hlog]].
  pose proof (logged_insert_data_body c (get_datetime_as_utc (start s))
                (get_datetime_as_utc (end_ s)) (s, c)) as Hrep.
  rewrite Hbody in Hrep.
  destruct Hrep as [L [HL [Hcm [Hp [Hns Hnw]]]]].
  { exists []. simpl. rewrite app_nil_r. auto. }
  rewrite Hlog in HL. apply app_inv_head in HL. subst L.
  rewrite committed_replay in Hcm.
  set (t := get_datetime_as_utc (start s)) in *.
  set (t' := get_datetime_as_utc (end_ s)) in *.
  rewrite !replay_app in Hcm, Hns, Hnw.
  set (c2 := replay [InsertScan t t'; SelectLastInsertId] c) in *.
  assert (Hc2 : pending c2 = (pending c ++ [ScanRow (next_sid c) t t'])%list
                /\ next_sid c2 = next_sid c + 1 /\ next_wid c2 = next_wid c)
    by (subst c2; unfold replay; simpl; auto).
  destruct Hc2 as [Hp2 [Hs2 Hw2]].
  destruct (replay_all_waveforms s (next_sid c) (waveform_pairs s)
              (next_wid c) ws c2 Hws Hw2) as [rows [Hrows [Hp3 [Hw3 Hs3]]]].
  destruct (replay_fdata s (next_sid c) (replay ws c2)) as [Hp4 [Hs4 Hw4]].
  destruct (replay_sdata s (next_sid c)
              (replay (scan_fdata_statements s (next_sid c)) (replay ws c2)))
    as [Hp5 [Hs5 Hw5]].
  unfold scan_rows. rewrite Hrows. eexists. split; [reflexivity|].
  split; [|split; [exact Hp|split]].
  - rewrite Hcm, Hp5, Hp4, Hp3, Hp2, <- !app_assoc. reflexivity.
  - rewrite Hns, Hs5, Hs4, Hs3, Hs2. reflexivity.
  - rewrite Hnw, Hw5, Hw4, Hw3. reflexivity.
Qed.

(** The same for [insert_data]. *)
Lemma insert_data_rows (s : Scan) (c : Conn) (st' : Env) :
  insert_data (s, c) = (Ok tt, st') ->
  exists rows,
    scan_rows s (next_sid c) (next_wid c) = Some rows
    /\ committed (snd st') = (committed c ++ pending c ++ rows)%list
    /\ pending (snd st') = []
    /\ next_sid (snd st') = next_sid c + 1
    /\ next_wid (snd st') = next_wid c + len (waveform_pairs s).
Proof.
  intros H. rewrite insert_data_unfold in H.
  destruct (on_snd conn_cursor (s, c)) as [[u|e] st1] eqn:Hcur; [|inversion H].
  apply on_snd_ok in Hcur as (c0 & Hcur & ->).
  apply conn_cursor_ok in Hcur as [fs0 ->].
  destruct (insert_data_body _ _ _) as [[[]|e] st2] eqn:Hbody; [|inversion H].
  inversion H. subst st2. clear H.
  apply insert_data_body_rows in Hbody. exact Hbody.
Qed.

End InsertDataRows.

Section InsertDataRowTheorems.
Context {NP : NumPy}.

(** A call of [insert_data] that returns has committed, after what was
    committed and what the connection had pending before the call, the scan
    row with the generated id, then for each (cavity, signal) pair other than
    Time the waveform row, its raw array row, its derived array rows and its
    scalar rows, then the float metadata rows and the string metadata rows;
    nothing is left pending, one scan id and one waveform id for each pair have
    been used. *)
Theorem insert_data_commits_rows (s : Scan) (c : Conn) (st' : Env) :
  insert_data (s, c) = (Ok tt, st') ->
  exists rows,
    scan_rows s (next_sid c) (next_wid c) = Some rows
    /\ committed (snd st') = (committed c ++ pending c ++ rows)%list
    /\ pending (snd st') = []
    /\ next_sid (snd st') = next_sid c + 1
    /\ next_wid (snd st') = next_wid c + len (waveform_pairs s).
Proof. apply insert_data_rows. Qed.

Lemma waveform_rows_in_scan s sid wid cav sg rows :
  waveform_rows s sid wid cav sg = Some rows ->
  waveform_ids rows = [wid]
  /\ scan_ids rows = []
  /\ forall n, 1 <= n -> Forall (row_in_scan sid wid n) rows.
Proof.
  unfold waveform_rows.
  destruct (dict_get cav (sampling_rate s)) as [rate|]; [|discriminate].
  destruct (dict_get2 cav sg (waveform_data s)) as [[| |raw|]|]; try discriminate.
  destruct (dict_get2 cav sg (analysis_array s)) as [arrays|]; [|discriminate].
  destruct (dict_get2 cav sg (analysis_scalar s)) as [scalars|]; [|discriminate].
  intros H. inversion H. subst rows. clear H.
  assert (Hd : forall names,
             waveform_ids (map (fun '(w, n, d) => WaveformAdataRow w n d)
                               (derived_rows wid arrays names)) = []
             /\ scan_ids (map (fun '(w, n, d) => WaveformAdataRow w n d)
                              (derived_rows wid arrays names)) = []
             /\ forall n, 1 <= n ->
                  Forall (row_in_scan sid wid n)
                         (map (fun '(w, n, d) => WaveformAdataRow w n d)
                              (derived_rows wid arrays names))).
  { induction names as [|x names IH]; simpl.
    - split; [reflexivity|]. split; [reflexivity|]. intros n _. constructor.
    - destruct IH as [I1 [I2 I3]].
      destruct (dict_get x arrays); simpl; [|auto].
      split; [exact I1|]. split; [exact I2|].
      intros n Hn. constructor; [simpl; lia | apply I3; exact Hn]. }
  assert (Hs : forall items : list (string * scalar),
             waveform_ids (map (fun n_v => WaveformSdataRow wid (fst n_v) (snd n_v))
                               items) = []
             /\ scan_ids (map (fun n_v => WaveformSdataRow wid (fst n_v) (snd n_v))
                              items) = []
             /\ forall n, 1 <= n ->
                  Forall (row_in_scan sid wid n)
                         (map (fun n_v => WaveformSdataRow wid (fst n_v) (snd n_v))
                              items)).
  { induction items as [|x items IH]; simpl.
    - split; [reflexivity|]. split; [reflexivity|]. intros n _. constructor.
    - destruct IH as [I1 [I2 I3]].
      split; [exact I1|]. split; [exact I2|].
      intros n Hn. constructor; [simpl; lia | apply I3; exact Hn]. }
  destruct (Hd (dict_keys arrays)) as [D1 [D2 D3]].
  destruct (Hs (dict_items scalars)) as [S1 [S2 S3]].
  unfold waveform_ids, scan_ids in *. simpl.
  rewrite !flat_map_app, D1, S1, D2, S2. simpl.
  split; [reflexivity|]. split; [reflexivity|].
  intros n Hn. constructor; [simpl; split; [reflexivity | lia]|].
  constructor; [simpl; lia|].
  apply Forall_app. split; [apply D3 | apply S3]; exact Hn.
Qed.

Lemma row_in_scan_shift sid wid n wid' n' (r : row) :
  wid' <= wid -> wid + n <= wid' + n' ->
  row_in_scan sid wid n r -> row_in_scan sid wid' n' r.
Proof. intros H1 H2. destruct r; simpl; intros; lia. Qed.

Lemma all_waveform_rows_in_scan s sid (P : list (string * string)) :
  forall wid rows,
    all_waveform_rows s sid wid P = Some rows ->
    waveform_ids rows = map (fun i => wid + i) (range (len P))
    /\ scan_ids rows = []
    /\ Forall (row_in_scan sid wid (len P)) rows.
Proof.
  induction P as [|[cav sg] P IH]; intros wid rows H; simpl in H.
  - inversion H. subst rows. simpl. split; [reflexivity|].
    split; [reflexivity | constructor].
  - destruct (waveform_rows s sid wid cav sg) as [a|] eqn:Ha; [|discriminate].
    destruct (all_waveform_rows s sid (wid + 1) P) as [b|] eqn:Hb; [|discriminate].
    inversion H. subst rows. clear H.
    destruct (waveform_rows_in_scan _ _ _ _ _ _ Ha) as [A1 [A2 A3]].
    destruct (IH _ _ Hb) as [B1 [B2 B3]].
    assert (Hlen : 0 <= len P) by (unfold len; lia).
    unfold waveform_ids, scan_ids in *. rewrite !flat_map_app, A1, A2, B1, B2.
    split; [|split; [reflexivity|]].
    + rewrite len_cons. unfold range.
      replace (Z.to_nat (len P + 1)) with (S (Z.to_nat (len P))) by lia.
      simpl. f_equal; [lia|].
      rewrite <- seq_shift, !map_map. apply map_ext. intros i. lia.
    + rewrite len_cons. apply Forall_app. split.
      * apply A3. lia.
      * eapply Forall_impl; [|exact B3]. intros r.
        apply row_in_scan_shift; lia.
Qed.

(** The rows that a call of [insert_data] commits hang together: there is one
    scan row, with the generated scan id; the waveform rows carry that scan id
    and the consecutive waveform ids generated in the call, each once; every
    array row and every scalar row carries the id of one of these waveform
    rows, and every metadata row carries the scan id. *)
Theorem insert_data_rows_referential (s : Scan) (c : Conn) (st' : Env) :
  insert_data (s, c) = (Ok tt, st') ->
  exists rows,
    committed (snd st') = (committed c ++ pending c ++ rows)%list
    /\ scan_ids rows = [next_sid c]
    /\ waveform_ids rows
       = map (fun i => next_wid c + i) (range (len (waveform_pairs s)))
    /\ Forall (row_in_scan (next_sid c) (next_wid c) (len (waveform_pairs s))) rows.
Proof.
  intros H. destruct (insert_data_rows s c st' H) as [rows [Hrows [Hcm _]]].
  exists rows. split; [exact Hcm|].
  unfold scan_rows in Hrows.
  destruct (all_waveform_rows s (next_sid c) (next_wid c) (waveform_pairs s))
    as [wr|] eqn:Hwr; [|discriminate].
  inversion Hrows. subst rows. clear Hrows.
  destruct (all_waveform_rows_in_scan _ _ _ _ _ Hwr) as [W1 [W2 W3]].
  assert (Hf : waveform_ids (scan_fdata_rows s (next_sid c)) = []
               /\ scan_ids (scan_fdata_rows s (next_sid c)) = []
               /\ Forall (row_in_scan (next_sid c) (next_wid c)
                                      (len (waveform_pairs s)))
                         (scan_fdata_rows s (next_sid c))).
  { unfold scan_fdata_rows. induction (scan_data_float s) as [|x l IH]; simpl.
    - split; [reflexivity|]. split; [reflexivity | constructor].
    - destruct IH as [I1 [I2 I3]]. split; [exact I1|]. split; [exact I2|].
      constructor; [reflexivity | exact I3]. }
  assert (Hs : waveform_ids (scan_sdata_rows s (next_sid c)) = []
               /\ scan_ids (scan_sdata_rows s (next_sid c)) = []
               /\ Forall (row_in_scan (next_sid c) (next_wid c)
                                      (len (waveform_pairs s)))
                         (scan_sdata_rows s (next_sid c))).
  { unfold scan_sdata_rows. induction (scan_data_str s) as [|x l IH]; simpl.
    - split; [reflexivity|]. split; [reflexivity | constructor].
    - destruct IH as [I1 [I2 I3]]. split; [exact I1|]. split; [exact I2|].
      constructor; [reflexivity | exact I3]. }
  destruct Hf as [F1 [F2 F3]]. destruct Hs as [S1 [S2 S3]].
  unfold waveform_ids, scan_ids in *. simpl.
  rewrite !flat_map_app, W1, W2, F1, F2, S1, S2, !app_nil_r. simpl.
  split; [reflexivity|]. split; [reflexivity|].
  constructor; [reflexivity|].
  apply Forall_app. split; [exact W3|].
  apply Forall_app. split; [exact F3 | exact S3].
Qed.

Lemma all_waveform_rows_in s sid (P : list (string * string)) :
  forall wid rows cav sg,
    all_waveform_rows s sid wid P = Some rows ->
    In (cav, sg) P ->
    exists wid' r, waveform_rows s sid wid' cav sg = Some r.
Proof.
  induction P as [|[cav0 sg0] P IH]; intros wid rows cav sg H Hin; simpl in *.
  - destruct Hin.
  - destruct (waveform_rows s sid wid cav0 sg0) as [a|] eqn:Ha; [|discriminate].
    destruct (all_waveform_rows s sid (wid + 1) P) as [b|] eqn:Hb; [|discriminate].
    destruct Hin as [Heq|Hin].
    + inversion Heq. subst. eauto.
    + eapply IH; eauto.
Qed.

Lemma insert_data_ok_lookups (s : Scan) (c : Conn) :
  fst (insert_data (s, c)) = Ok tt ->
  forall cav sg,
    In (cav, sg) (waveform_pairs s) ->
    exists rate raw arrays scalars,
      dict_get cav (sampling_rate s) = Some rate
      /\ dict_get2 cav sg (waveform_data s) = Some (PyNdarray raw)
      /\ dict_get2 cav sg (analysis_array s) = Some arrays
      /\ dict_get2 cav sg (analysis_scalar s) = Some scalars.
Proof.
  intros Hok cav sg Hin.
  destruct (insert_data (s, c)) as [r st'] eqn:Hrun. simpl in Hok. subst r.
  destruct (insert_data_rows s c st' Hrun) as [rows [Hrows _]].
  unfold scan_rows in Hrows.
  destruct (all_waveform_rows s (next_sid c) (next_wid c) (waveform_pairs s))
    as [wr|] eqn:Hwr; [|discriminate].
  destruct (all_waveform_rows_in _ _ _ _ _ cav sg Hwr Hin) as [wid' [r Hr]].
  unfold waveform_rows in Hr.
  destruct (dict_get cav (sampling_rate s)) as [rate|]; [|discriminate].
  destruct (dict_get2 cav sg (waveform_data s)) as [[| |raw|]|]; try discriminate.
  destruct (dict_get2 cav sg (analysis_array s)) as [arrays|]; [|discriminate].
  destruct (dict_get2 cav sg (analysis_scalar s)) as [scalars|]; [|discriminate].
  exists rate, raw, arrays, scalars. auto.
Qed.

(** [insert_data] returns only if every (cavity, signal) pair other than Time
    has a sampling rate for its cavity, a stored waveform that is an ndarray,
    a bundle of arrays and a bundle of scalars, whatever the connection. *)
Theorem insert_data_needs (s : Scan) (c : Conn) :
  fst (insert_data (s, c)) = Ok tt ->
  forall cav sg,
    In (cav, sg) (waveform_pairs s) ->
    exists rate raw arrays scalars,
      dict_get cav (sampling_rate s) = Some rate
      /\ dict_get2 cav sg (waveform_data s) = Some (PyNdarray raw)
      /\ dict_get2 cav sg (analysis_array s) = Some arrays
      /\ dict_get2 cav sg (analysis_scalar s) = Some scalars.
Proof. apply insert_data_ok_lookups. Qed.

End InsertDataRowTheorems.

(* ================================================================== *)
(** * Scan: calls one after the other *)

Section DictMore.
Context {V : Type}.

Lemma dict_mem_set (k k' : string) (v : V) (d : dict V) :
  dict_mem k (dict_set k' v d) = String.eqb k k' || dict_mem k d.
Proof.
  unfold dict_mem. rewrite dict_get_set.
  destruct (String.eqb k k'); reflexivity.
Qed.

Lemma dict_mem_update (k : string) (d other : dict V) :
  dict_mem k (dict_update d other) = dict_mem k d || dict_mem k other.
Proof.
  unfold dict_update, dict_items. revert d.
  induction other as [|[k0 v0] other IH]; intros d; simpl.
  - rewrite orb_false_r. reflexivity.
  - rewrite IH, dict_mem_set. unfold dict_mem at 4. simpl.
    destruct (String.eqb k k0); simpl.
    + rewrite !orb_true_r. reflexivity.
    + destruct (dict_mem k d); reflexivity.
Qed.

Lemma dict_get_in (k : string) (v : V) (d : dict V) :
  dict_get k d = Some v -> In (k, v) d.
Proof.
  induction d as [|[k0 v0] d IH]; simpl; [discriminate|].
  destruct (String.eqb_spec k k0) as [->|Hne].
  - intros H. inversion H. left. reflexivity.
  - intros H. right. apply IH. exact H.
Qed.

Lemma dict_set_in (k : string) (v : V) (d : dict V) : In (k, v) (dict_set k v d).
Proof.
  induction d as [|[k0 v0] d IH]; simpl; [left; reflexivity|].
  destruct (String.eqb_spec k k0) as [->|Hne].
  - left. reflexivity.
  - right. exact IH.
Qed.

Lemma nodup_keys_set (k : string) (v : V) (d : dict V) :
  nodup_keys d = true -> nodup_keys (dict_set k v d) = true.
Proof.
  induction d as [|[k0 v0] d IH]; simpl; [reflexivity|].
  intros H. apply andb_prop in H. destruct H as [Hf Hn].
  destruct (String.eqb_spec k k0) as [->|Hne]; simpl.
  - rewrite Hf, Hn. reflexivity.
  - rewrite dict_mem_set, (IH Hn).
    apply negb_true_iff in Hf. rewrite Hf.
    destruct (String.eqb_spec k0 k); [congruence | reflexivity].
Qed.

Lemma nodup_keys_get (k : string) (v : V) (d : dict V) :
  nodup_keys d = true -> In (k, v) d -> dict_get k d = Some v.
Proof.
  induction d as [|[k0 v0] d IH]; simpl; [intros _ []|].
  intros H Hin. apply andb_prop in H. destruct H as [Hf Hn].
  destruct Hin as [Heq|Hin].
  - inversion Heq. subst. rewrite String.eqb_refl. reflexivity.
  - destruct (String.eqb_spec k k0) as [->|Hne]; [|apply IH; assumption].
    exfalso. apply negb_true_iff in Hf.
    assert (Hm : dict_mem k0 d = true).
    { apply dict_mem_keys. unfold dict_keys.
      change k0 with (fst (k0, v)). apply in_map. exact Hin. }
    congruence.
Qed.

End DictMore.

Section CallsInSequence.
Context {NP : NumPy}.

(** The disjointness of the two metadata maps is checked within a call only.
    After two calls that return, a map holds the names it held and the names
    of the two calls, so a name given as a float in one call and as a string
    in the other is in both maps. *)
Theorem add_scan_data_across_calls
        (fd1 fd2 : dict scalar) (sd1 sd2 : dict string) (s : Scan) :
  fst (add_scan_data fd1 sd1 s) = Ok tt ->
  fst (add_scan_data fd2 sd2 (snd (add_scan_data fd1 sd1 s))) = Ok tt ->
  let s2 := snd (add_scan_data fd2 sd2 (snd (add_scan_data fd1 sd1 s))) in
  (forall k, dict_mem k (scan_data_float s2)
             = dict_mem k (scan_data_float s) || dict_mem k fd1 || dict_mem k fd2)
  /\ (forall k, dict_mem k (scan_data_str s2)
                = dict_mem k (scan_data_str s) || dict_mem k sd1 || dict_mem k sd2)
  /\ (forall k, dict_mem k fd1 = true -> dict_mem k sd2 = true ->
                dict_mem k (scan_data_float s2) = true
                /\ dict_mem k (scan_data_str s2) = true).
Proof.
  rewrite !add_scan_data_unfold.
  destruct (find (fun k => dict_mem k sd1) (dict_keys fd1)); [discriminate|].
  simpl.
  destruct (find (fun k => dict_mem k sd2) (dict_keys fd2)); [discriminate|].
  simpl. intros _ _.
  assert (Hf : forall k, dict_mem k (dict_update (dict_update (scan_data_float s) fd1) fd2)
                         = dict_mem k (scan_data_float s) || dict_mem k fd1 || dict_mem k fd2)
    by (intros k; rewrite !dict_mem_update; reflexivity).
  assert (Hs : forall k, dict_mem k (dict_update (dict_update (scan_data_str s) sd1) sd2)
                         = dict_mem k (scan_data_str s) || dict_mem k sd1 || dict_mem k sd2)
    by (intros k; rewrite !dict_mem_update; reflexivity).
  split; [exact Hf|]. split; [exact Hs|].
  intros k H1 H2. rewrite Hf, Hs, H1, H2, !orb_true_r. auto.
Qed.

Lemma insert_data_returns (s : Scan) (c : Conn) (sid wid : Z) (ws : list stmt) :
  faults c = [] ->
  all_waveform_statements s sid wid (waveform_pairs s) = Some ws ->
  exists st', insert_data (s, c) = (Ok tt, st')
              /\ fst st' = s /\ faults (snd st') = [].
Proof.
  intros Hq Hws. rewrite insert_data_unfold.
  assert (Hcur : on_snd conn_cursor (s, c) = (Ok tt, (s, set_cursor_open true c))).
  { unfold on_snd, conn_cursor, db_call. simpl. rewrite Hq. reflexivity. }
  rewrite Hcur.
  pose proof (total_insert_data_body s _ _ ws Hws (s, set_cursor_open true c)
                (conj eq_refl Hq)) as Hbody.
  destruct (insert_data_body _ _ _) as [[[]|e] st2]; [|destruct Hbody].
  exists st2. split; [reflexivity | exact Hbody].
Qed.

Lemma all_waveform_statements_any s sid (P : list (string * string)) :
  forall wid ws sid' wid',
    all_waveform_statements s sid wid P = Some ws ->
    exists ws', all_waveform_statements s sid' wid' P = Some ws'.
Proof.
  induction P as [|[cav sg] P IH]; intros wid ws sid' wid' H; simpl in *.
  - eauto.
  - destruct (waveform_statements s sid wid cav sg) as [a|] eqn:Ha; [|discriminate].
    destruct (all_waveform_statements s sid (wid + 1) P) as [b|] eqn:Hb; [|discriminate].
    destruct (waveform_statements_defined s sid wid sid' wid' cav sg a Ha) as [a' ->].
    destruct (IH _ _ sid' (wid' + 1) Hb) as [b' ->]. eauto.
Qed.

(** A Scan with no signal other than Time, on a connection that does not
    fail, is written as its scan row followed by its metadata rows: the call
    returns, no waveform row is written and no waveform id is used. *)
Theorem insert_data_without_signals (s : Scan) (c : Conn) :
  waveform_pairs s = [] ->
  faults c = [] ->
  exists st',
    insert_data (s, c) = (Ok tt, st')
    /\ committed (snd st')
       = (committed c ++ pending c
          ++ ScanRow (next_sid c) (get_datetime_as_utc (start s))
                     (get_datetime_as_utc (end_ s))
          :: scan_fdata_rows s (next_sid c) ++ scan_sdata_rows s (next_sid c))%list
    /\ next_wid (snd st') = next_wid c.
Proof.
  intros Hp Hq.
  destruct (insert_data_returns s c 0 0 [] Hq) as [st' [Hrun _]];
    [rewrite Hp; reflexivity|].
  exists st'. split; [exact Hrun|].
  destruct (insert_data_rows s c st' Hrun) as [rows [Hrows [Hcm [_ [_ Hw]]]]].
  unfold scan_rows in Hrows. rewrite Hp in Hrows, Hw. simpl in Hrows.
  inversion Hrows. subst rows.
  split; [exact Hcm|]. rewrite Hw. unfold len. simpl. lia.
Qed.

(** Nothing in a Scan records that it has been written: on a connection that
    does not fail, a Scan that can be written once is written again by a
    second call, as a second scan with the next scan id and the next waveform
    ids. *)
Theorem insert_data_twice (s : Scan) (c : Conn) (ws : list stmt) :
  faults c = [] ->
  all_waveform_statements s (next_sid c) (next_wid c) (waveform_pairs s) = Some ws ->
  exists st1 st2 rows1 rows2,
    insert_data (s, c) = (Ok tt, st1)
    /\ insert_data st1 = (Ok tt, st2)
    /\ scan_rows s (next_sid c) (next_wid c) = Some rows1
    /\ scan_rows s (next_sid c + 1) (next_wid c + len (waveform_pairs s)) = Some rows2
    /\ committed (snd st2) = (committed c ++ pending c ++ rows1 ++ rows2)%list.
Proof.
  intros Hq Hws.
  destruct (insert_data_returns s c _ _ ws Hq Hws) as [[s1 c1] [Hrun1 [Hs1 Hq1]]].
  simpl in Hs1, Hq1. subst s1.
  destruct (insert_data_rows s c _ Hrun1) as [rows1 [Hrows1 [Hcm1 [Hp1 [Hn1 Hw1]]]]].
  simpl in Hcm1, Hp1, Hn1, Hw1.
  destruct (all_waveform_statements_any s _ _ _ _ (next_sid c1) (next_wid c1) Hws)
    as [ws2 Hws2].
  destruct (insert_data_returns s c1 _ _ ws2 Hq1 Hws2) as [st2 [Hrun2 _]].
  destruct (insert_data_rows s c1 _ Hrun2) as [rows2 [Hrows2 [Hcm2 _]]].
  exists (s, c1), st2, rows1, rows2.
  split; [exact Hrun1|]. split; [exact Hrun2|]. split; [exact Hrows1|].
  split; [rewrite <- Hn1, <- Hw1; exact Hrows2|].
  rewrite Hcm2, Hcm1, Hp1, <- !app_assoc. simpl. reflexivity.
Qed.

End CallsInSequence.

(* ================================================================== *)
(** * Scan: from add_cavity_data to insert_data *)

Section FromCallsToRows.
Context {NP : NumPy}.

Lemma add_cavity_data_stores c data rate (s : Scan) :
  waveform_data (snd (add_cavity_data c data rate s))
  = dict_set c data (waveform_data s).
Proof.
  rewrite add_cavity_data_unfold.
  destruct (signals_loop_run c data rate (cavity_reset c data rate s)
              (dict_keys data) [] _
              (bundles_within_reset c data rate s) (kept_refl _)) as [Hk _].
  destruct Hk as [_ [_ [_ [Hw _]]]]. rewrite Hw. reflexivity.
Qed.

Lemma waveform_pairs_in (s : Scan) (cav sg : string) :
  In (cav, sg) (waveform_pairs s) <->
  exists data, In (cav, data) (waveform_data s)
               /\ In sg (dict_keys data) /\ sg <> "Time".
Proof.
  unfold waveform_pairs, pairs_of, dict_items. rewrite in_flat_map. split.
  - intros [[cav0 data] [Hin Hmap]]. apply in_map_iff in Hmap.
    destruct Hmap as [sg0 [Heq Hf]]. inversion Heq. subst cav0 sg0.
    apply filter_In in Hf. destruct Hf as [Hk Hnt].
    exists data. split; [exact Hin|]. split; [exact Hk|].
    unfold not_time in Hnt. apply negb_true_iff in Hnt.
    apply String.eqb_neq. exact Hnt.
  - intros [data [Hin [Hk Hne]]]. exists (cav, data). split; [exact Hin|].
    apply in_map. apply filter_In. split; [exact Hk|].
    unfold not_time. apply negb_true_iff. apply String.eqb_neq. exact Hne.
Qed.

(** [add_cavity_data] takes a list or a tuple of 8192 numbers as a waveform,
    [insert_data] does not: once a call has stored, for a signal other than
    Time, a waveform that is a list or a tuple, [insert_data] does not
    return, whatever the connection, whether that call returned or raised. *)
Theorem insert_data_after_list
        (c : string) (data : dict pyobj) (rate : scalar) (s : Scan)
        (sg : string) (l : list pyelem) (w : pyobj) (conn : Conn) :
  dict_get sg data = Some w ->
  sg <> "Time" ->
  w = PyList l \/ w = PyTuple l ->
  fst (insert_data (snd (add_cavity_data c data rate s), conn)) <> Ok tt.
Proof.
  intros Hsg Hne Hw Hok.
  set (s' := snd (add_cavity_data c data rate s)) in *.
  assert (Hst : waveform_data s' = dict_set c data (waveform_data s))
    by apply add_cavity_data_stores.
  assert (Hin : In (c, sg) (waveform_pairs s')).
  { apply waveform_pairs_in. exists data. rewrite Hst.
    split; [apply dict_set_in|]. split; [|exact Hne].
    apply dict_mem_keys. unfold dict_mem. rewrite Hsg. reflexivity. }
  destruct (insert_data_ok_lookups s' conn Hok c sg Hin)
    as [r [raw [ar [sc [_ [Hraw _]]]]]].
  unfold dict_get2 in Hraw. rewrite Hst, dict_get_set_eq, Hsg in Hraw.
  destruct Hw as [->| ->]; discriminate.
Qed.

Lemma ndarray_signals_get (data : dict pyobj) (sg : string) (w : pyobj) :
  ndarray_signals data = true ->
  dict_get sg data = Some w ->
  sg <> "Time" ->
  exists raw, w = PyNdarray raw.
Proof.
  intros Hall Hget Hne. apply dict_get_in in Hget.
  unfold ndarray_signals in Hall. rewrite forallb_forall in Hall.
  specialize (Hall _ Hget). simpl in Hall.
  destruct w as [l|l|raw|o]; try (apply String.eqb_eq in Hall; contradiction).
  eauto.
Qed.

(** What a Scan built by returning calls on ndarrays satisfies. *)
Lemma run_calls_insertable (cs : list call) :
  forall s : Scan,
    all_returned cs s = true ->
    forallb (fun k : call => ndarray_signals (snd (fst k))) cs = true ->
    nodup_keys (waveform_data s) = true /\ holds_ndarrays s /\ scan_inv s ->
    nodup_keys (waveform_data (run_calls cs s)) = true
    /\ holds_ndarrays (run_calls cs s) /\ scan_inv (run_calls cs s).
Proof.
  induction cs as [|[[c d] r] cs IH]; intros s Hret Hnd Hs; simpl in *.
  - exact Hs.
  - apply andb_prop in Hret. destruct Hret as [Hret1 Hret].
    apply andb_prop in Hnd. destruct Hnd as [Hnd1 Hnd].
    destruct Hs as [Hno [Hh Hinv]].
    apply IH; [exact Hret | exact Hnd |].
    pose proof (add_cavity_data_triple c d r s s eq_refl) as Hcall.
    pose proof (add_cavity_data_stores c d r s) as Hst.
    destruct (add_cavity_data c d r s) as [[[]|e] s'] eqn:Hrun;
      simpl in *; [|discriminate].
    destruct Hcall as [Hframe Hok].
    split; [rewrite Hst; apply nodup_keys_set; exact Hno|]. split.
    + intros cav data sg w Hdata Hsg Hne. rewrite Hst, dict_get_set in Hdata.
      destruct (String.eqb cav c).
      * inversion Hdata. subst data. apply (ndarray_signals_get d sg w); assumption.
      * apply (Hh cav data sg w); assumption.
    + intros cav. destruct (String.eqb_spec cav c) as [->|Hne]; [exact Hok|].
      apply (cavity_ok_same_at cav s s'); [apply Hframe; exact Hne | apply Hinv].
Qed.

Lemma all_waveform_statements_exist (s : Scan) (sid : Z) (P : list (string * string)) :
  (forall cav sg, In (cav, sg) P ->
                  forall wid, exists w, waveform_statements s sid wid cav sg = Some w) ->
  forall wid, exists ws, all_waveform_statements s sid wid P = Some ws.
Proof.
  induction P as [|[cav sg] P IH]; intros H wid; simpl.
  - eauto.
  - destruct (H cav sg (or_introl eq_refl) wid) as [w ->].
    destruct (IH (fun cav' sg' Hin => H cav' sg' (or_intror Hin)) (wid + 1)) as [ws ->].
    eauto.
Qed.

Lemma insertable_statements (s : Scan) (sid wid : Z) :
  nodup_keys (waveform_data s) = true ->
  holds_ndarrays s ->
  scan_inv s ->
  exists ws, all_waveform_statements s sid wid (waveform_pairs s) = Some ws.
Proof.
  intros Hno Hh Hinv. apply all_waveform_statements_exist.
  intros cav sg Hin wid'. apply waveform_pairs_in in Hin.
  destruct Hin as [data [Hin [Hk Hne]]].
  pose proof (nodup_keys_get cav data _ Hno Hin) as Hdata.
  destruct (dict_get_keys sg data Hk) as [w Hw].
  destruct (Hh cav data sg w Hdata Hw Hne) as [raw ->].
  destruct (Hinv cav data sg _ Hdata Hw Hne) as [rate [sc [ar [Hr [_ [Hsc Har]]]]]].
  unfold waveform_statements. rewrite Hr, Har, Hsc.
  unfold dict_get2. rewrite Hdata, Hw. eauto.
Qed.

(** A Scan built from a new Scan by [add_cavity_data] calls that all
    returned, with ndarrays for the signals other than Time, can be written:
    on a connection that does not fail, [insert_data] returns and commits
    the rows of the Scan. *)
Theorem insert_data_after_calls
        (t t' : datetime) (sid : option Z) (cs : list call) (c : Conn) :
  all_returned cs (Scan_init t t' sid) = true ->
  forallb (fun k : call => ndarray_signals (snd (fst k))) cs = true ->
  faults c = [] ->
  let s := run_calls cs (Scan_init t t' sid) in
  exists st' rows,
    insert_data (s, c) = (Ok tt, st')
    /\ scan_rows s (next_sid c) (next_wid c) = Some rows
    /\ committed (snd st') = (committed c ++ pending c ++ rows)%list.
Proof.
  intros Hret Hnd Hq s.
  destruct (run_calls_insertable cs _ Hret Hnd) as [Hno [Hh Hinv]].
  { split; [reflexivity|]. split.
    - intros cav data sg w Hdata. simpl in Hdata. discriminate.
    - intros cav. apply cavity_ok_init. }
  destruct (insertable_statements s (next_sid c) (next_wid c) Hno Hh Hinv) as [ws Hws].
  destruct (insert_data_returns s c _ _ ws Hq Hws) as [st' [Hrun _]].
  destruct (insert_data_rows s c st' Hrun) as [rows [Hrows [Hcm _]]].
  exists st', rows. auto.
Qed.

End FromCallsToRows.

(* ================================================================== *)
(** * Scan.insert_data: the cursor *)

Section CursorLife.
Context {NP : NumPy}.

Lemma cursor_open_execute (q : stmt) :
  on_return cursor_left_open (on_snd (cursor_execute q)).
Proof.
  intros [s c] Hc. unfold cursor_left_open in *. simpl in *.
  destruct (on_snd (cursor_execute q) (s, c)) as [[u|e] st'] eqn:Hrun; [|exact I].
  apply on_snd_ok in Hrun as (c' & Hrun & ->).
  apply cursor_execute_ok in Hrun as [fs ->].
  simpl. destruct q; exact Hc.
Qed.

Lemma cursor_open_fetchone :
  on_return cursor_left_open (on_snd cursor_fetchone_0).
Proof.
  intros [s c] Hc. unfold cursor_left_open in *. simpl in *.
  destruct (on_snd cursor_fetchone_0 (s, c)) as [[u|e] st'] eqn:Hrun; [|exact I].
  apply on_snd_ok in Hrun as (c' & Hrun & ->).
  apply cursor_fetchone_0_ok in Hrun as [_ [fs ->]].
  exact Hc.
Qed.

Lemma cursor_open_commit :
  on_return cursor_left_open (on_snd conn_commit).
Proof.
  intros [s c] Hc. unfold cursor_left_open in *. simpl in *.
  destruct (on_snd conn_commit (s, c)) as [[u|e] st'] eqn:Hrun; [|exact I].
  apply on_snd_ok in Hrun as (c' & Hrun & ->).
  apply db_call_ok in Hrun as [fs Hrun]. inversion Hrun. subst c'.
  exact Hc.
Qed.

#[local] Hint Resolve cursor_open_execute cursor_open_fetchone cursor_open_commit
  : logged.



End CursorLife.

(* ================================================================== *)
(** * Query: stage and run *)

Section QueryRun.
Import Query.
Context {DB : WaveformDB}.

Lemma same_request_refl (q : Query) : same_request q q.
Proof. unfold same_request. auto 10. Qed.

Lemma scan_meta_sids_staged (q : Query) (df : DataFrame) :
  scan_meta q = Some df ->
  existsb (dict_mem "sid") df = true ->
  scan_meta_sids q = (Ok (sids_of df), q).
Proof.
  intros Hdf Hsid. unfold scan_meta_sids, bind, get_state. rewrite Hdf.
  unfold df_column. rewrite Hsid. reflexivity.
Qed.

Lemma scan_meta_sids_no_column (q : Query) (df : DataFrame) :
  scan_meta q = Some df ->
  existsb (dict_mem "sid") df = false ->
  scan_meta_sids q
  = (Err (AttributeError "'DataFrame' object has no attribute 'sid'"), q).
Proof.
  intros Hdf Hsid. unfold scan_meta_sids, bind, get_state. rewrite Hdf.
  unfold df_column. rewrite Hsid. reflexivity.
Qed.

Lemma scan_meta_sids_none (q : Query) :
  scan_meta q = None ->
  scan_meta_sids q
  = (Err (AttributeError "'NoneType' object has no attribute 'sid'"), q).
Proof.
  intros Hdf. unfold scan_meta_sids, bind, get_state. rewrite Hdf. reflexivity.
Qed.

Lemma run_no_sids (q : Query) (e : exn) :
  staged q = true ->
  scan_meta_sids q = (Err e, q) ->
  run q = (Err e, q).
Proof.
  intros Hst H. unfold run. unfold bind at 1. unfold get_state at 1.
  rewrite Hst. cbn [negb]. unfold bind at 1. rewrite H. reflexivity.
Qed.

Lemma run_first_query (q : Query) (df : DataFrame) :
  staged q = true ->
  scan_meta q = Some df ->
  existsb (dict_mem "sid") df = true ->
  run q =
  match query_waveform_data (sids_of df) (signal_names q) (array_names q) (db q) with
  | (Err e, d1) => (Err e, set_db d1 q)
  | (Ok rows1, d1) =>
      let q1 := set_wf_data (Some (pd_DataFrame rows1)) (set_db d1 q) in
      match query_waveform_metadata (sids_of df) (signal_names q)
                                    (wf_metric_names q) d1 with
      | (Err e, d2) => (Err e, set_db d2 q1)
      | (Ok rows2, d2) => (Ok tt, set_wf_meta (Some (pd_DataFrame rows2)) (set_db d2 q1))
      end
  end.
Proof.
  intros Hst Hdf Hsid. unfold run. unfold bind at 1. unfold get_state at 1.
  rewrite Hst. cbn [negb]. unfold bind at 1.
  rewrite (scan_meta_sids_staged q df Hdf Hsid).
  unfold bind at 1. unfold on_db at 1.
  destruct (query_waveform_data _ _ _ _) as [[rows1|e] d1]; [|reflexivity].
  unfold bind at 1. unfold modify at 1. cbn zeta.
  set (q1 := set_wf_data _ _).
  unfold bind at 1.
  rewrite (scan_meta_sids_staged q1 df Hdf Hsid).
  unfold bind at 1. unfold on_db at 1. cbn [db q1 set_wf_data set_db].
  destruct (query_waveform_metadata _ _ _ _) as [[rows2|e] d2]; reflexivity.
Qed.

(** [stage] writes the staging state and nothing else: the request and the
    tables of an earlier [run] stay as they are, so after a second [stage]
    the Query holds the new metadata beside the waveform tables of the old.
    When [stage] raises, it is the query of the scan rows that raised, and
    the Query is staged or not as it was, with the metadata it had. *)
Theorem stage_frame (q : Query) :
  same_request q (snd (stage q))
  /\ wf_data (snd (stage q)) = wf_data q
  /\ wf_meta (snd (stage q)) = wf_meta q
  /\ forall e,
      fst (stage q) = Err e ->
      fst (query_scan_rows (begin_ q) (end_ q) (scan_filter q) (db q)) = Err e
      /\ staged (snd (stage q)) = staged q
      /\ scan_meta (snd (stage q)) = scan_meta q.
Proof.
  unfold stage, bind, get_state, on_db, modify.
  destruct (query_scan_rows _ _ _ _) as [[rows|e] d]; cbn [fst snd].
  - split; [unfold same_request; simpl; auto 10|]. split; [reflexivity|].
    split; [reflexivity|]. intros e He. discriminate.
  - split; [unfold same_request; simpl; auto 10|]. split; [reflexivity|].
    split; [reflexivity|]. intros e' He. inversion He. subst e'.
    split; [reflexivity|]. split; reflexivity.
Qed.

(** [run] never writes the staging state nor the request, whatever it does,
    and it writes [wf_meta] only when it returns; a [run] that returns has
    filled both tables. *)
Theorem run_frame (q : Query) :
  same_request q (snd (run q))
  /\ staged (snd (run q)) = staged q
  /\ scan_meta (snd (run q)) = scan_meta q
  /\ (fst (run q) <> Ok tt -> wf_meta (snd (run q)) = wf_meta q)
  /\ (fst (run q) = Ok tt ->
      staged q = true
      /\ wf_data (snd (run q)) <> None /\ wf_meta (snd (run q)) <> None).
Proof.
  destruct (staged q) eqn:Hst.
  - destruct (scan_meta q) as [df|] eqn:Hdf.
    + destruct (existsb (dict_mem "sid") df) eqn:Hsid.
      * rewrite (run_first_query q df Hst Hdf Hsid).
        destruct (query_waveform_data _ _ _ _) as [[rows1|e] d1]; cbn [fst snd].
        -- cbn zeta.
           destruct (query_waveform_metadata _ _ _ _) as [[rows2|e] d2]; cbn [fst snd].
           ++ split; [unfold same_request; simpl; auto 10|]. simpl.
              repeat split; try assumption; try discriminate.
              intros H. contradiction H. reflexivity.
           ++ split; [unfold same_request; simpl; auto 10|]. simpl.
              repeat split; try assumption; discriminate.
        -- split; [unfold same_request; simpl; auto 10|]. simpl.
           repeat split; try assumption; discriminate.
      * rewrite (run_no_sids q _ Hst (scan_meta_sids_no_column q df Hdf Hsid)).
        simpl. split; [unfold same_request; simpl; auto 10|].
        repeat split; try assumption; discriminate.
    + rewrite (run_no_sids q _ Hst (scan_meta_sids_none q Hdf)).
      simpl. split; [unfold same_request; simpl; auto 10|].
      repeat split; try assumption; discriminate.
  - rewrite (run_unstaged q Hst). simpl.
    split; [unfold same_request; simpl; auto 10|].
    repeat split; try assumption; discriminate.
Qed.

(** [run] is not all or nothing.  When the query of the waveform data
    returns and the query of the waveform metadata raises, [run] raises that
    exception and the Query holds the new [wf_data] beside the [wf_meta] it
    had. *)
Theorem run_raises_between (q : Query) (df : DataFrame)
        (rows1 : list (dict value)) (d1 d2 : db_state) (e : exn) :
  staged q = true ->
  scan_meta q = Some df ->
  existsb (dict_mem "sid") df = true ->
  query_waveform_data (sids_of df) (signal_names q) (array_names q) (db q)
  = (Ok rows1, d1) ->
  query_waveform_metadata (sids_of df) (signal_names q) (wf_metric_names q) d1
  = (Err e, d2) ->
  fst (run q) = Err e
  /\ wf_data (snd (run q)) = Some (pd_DataFrame rows1)
  /\ wf_meta (snd (run q)) = wf_meta q.
Proof.
  intros Hst Hdf Hsid H1 H2.
  rewrite (run_first_query q df Hst Hdf Hsid), H1. cbn zeta. rewrite H2.
  simpl. auto.
Qed.

(** [stage] then [run].  When the staging query returns [rows], [run] asks
    for the waveform data and then for the waveform metadata of exactly the
    scan ids of [rows], in the order of [rows], with the signal names of the
    request; the second query runs on the database as the first left it;
    when both return, [run] returns and the Query holds their tables. *)
Theorem stage_then_run (q : Query) (rows rows1 rows2 : list (dict value))
        (d d1 d2 : db_state) :
  query_scan_rows (begin_ q) (end_ q) (scan_filter q) (db q) = (Ok rows, d) ->
  existsb (dict_mem "sid") rows = true ->
  query_waveform_data (sids_of rows) (signal_names q) (array_names q) d
  = (Ok rows1, d1) ->
  query_waveform_metadata (sids_of rows) (signal_names q) (wf_metric_names q) d1
  = (Ok rows2, d2) ->
  let q2 := snd (run (snd (stage q))) in
  fst (run (snd (stage q))) = Ok tt
  /\ scan_meta q2 = Some (pd_DataFrame rows)
  /\ wf_data q2 = Some (pd_DataFrame rows1)
  /\ wf_meta q2 = Some (pd_DataFrame rows2)
  /\ db q2 = d2.
Proof.
  intros Hrows Hsid H1 H2.
  rewrite (stage_ok q rows d Hrows). cbn [snd].
  set (q1 := set_staged true _).
  rewrite (run_first_query q1 rows eq_refl eq_refl Hsid).
  cbn [q1 db signal_names array_names wf_metric_names set_staged set_scan_meta set_db].
  rewrite H1. cbn zeta.
  cbn [db signal_names array_names wf_metric_names set_staged set_scan_meta set_db].
  rewrite H2. simpl. auto.
Qed.

(** A staging that finds no scan makes [run] raise: the table of no rows has
    no [sid] column, so [run] raises an AttributeError before it asks the
    database for anything, and leaves the Query as [stage] left it, with a
    scan count of zero. *)
Theorem run_after_empty_stage (q : Query) (d : db_state) :
  query_scan_rows (begin_ q) (end_ q) (scan_filter q) (db q) = (Ok [], d) ->
  let q1 := snd (stage q) in
  fst (stage q) = Ok tt
  /\ get_scan_count q1 = (Ok 0, q1)
  /\ run q1 = (Err (AttributeError "'DataFrame' object has no attribute 'sid'"), q1).
Proof.
  intros Hrows. rewrite (stage_ok q [] d Hrows). cbn [fst snd].
  split; [reflexivity|]. split; reflexivity.
Qed.

End QueryRun.

(* ================================================================== *)
(** * Query.get_frequency_range: the axis *)

Section FrequencyAxis.
Import Query.

Lemma range_nonpositive (m : Z) : m <= 0 -> range m = [].
Proof.
  intros Hm. unfold range. replace (Z.to_nat m) with 0%nat by lia. reflexivity.
Qed.





(** With no sample the call raises a ZeroDivisionError, whatever the
    sampling frequency.  A negative sample count is taken without complaint:
    the result is the one bin 0 for -1 and has no bin at all below. *)
Theorem get_frequency_range_no_samples (fs : Q) :
  get_frequency_range fs 0 = Err (ZeroDivisionError "float division by zero")
  /\ (exists x, get_frequency_range fs (-1) = Ok [x] /\ (x == 0)%Q)
  /\ (forall n, n <= -2 -> get_frequency_range fs n = Ok []).
Proof.
  split; [reflexivity|]. split.
  - eexists. split; [reflexivity|].
    unfold Qdiv. rewrite Qmult_0_l, Qmult_0_l. reflexivity.
  - intros n Hn. unfold get_frequency_range.
    rewrite range_nonpositive; [reflexivity|].
    pose proof (Z.quot_le_mono n (-2) 2 ltac:(lia) Hn) as Hq.
    change (Z.quot (-2) 2) with (-1) in Hq. lia.
Qed.


End FrequencyAxis.

(* ================================================================== *)
(** * The further theorems on sample objects *)


Lemma add_cavity_data_frame_witness :
  let s' := snd (add_cavity_data "R2" refused_data (lit 5000) sample_scan) in
  scan_data_str s' = scan_data_str sample_scan
  /\ dict_get "R1" (analysis_scalar s') = dict_get "R1" (analysis_scalar sample_scan).
Proof.
  intros s'.
  destruct (add_cavity_data_frame "R2" refused_data (lit 5000) sample_scan)
    as [_ [_ [_ [_ [Hstr Hfr]]]]].
  split; [exact Hstr|].
  destruct (Hfr "R1") as [_ [_ [Hs _]]]; [discriminate | exact Hs].
Defined.

Lemma add_cavity_data_replaces_witness :
  let s' := snd (add_cavity_data "R1" sample_data (lit 5000) fresh_scan) in
  fst (add_cavity_data "R1" sample_data (lit 5000) fresh_scan) = Ok tt
  /\ dict_get "R1" (sampling_rate s') = Some (lit 5000)
  /\ dict_get2 "R1" "GMES" (analysis_scalar s') <> None.
Proof.
  intros s'.
  assert (Hok : fst (add_cavity_data "R1" sample_data (lit 5000) fresh_scan) = Ok tt)
    by (vm_compute; reflexivity).
  destruct (add_cavity_data_replaces "R1" sample_data (lit 5000) fresh_scan Hok)
    as [_ [Hr Hb]].
  split; [exact Hok|]. split; [exact Hr|].
  apply (proj1 (Hb "GMES")). split; [simpl; auto | discriminate].
Defined.

Lemma add_cavity_data_raise_state_witness :
  (exists e, fst (add_cavity_data "R1" refused_data (lit 5000) fresh_scan) = Err e)
  /\ ~ cavity_ok (snd (add_cavity_data "R1" refused_data (lit 5000) fresh_scan)) "R1".
Proof.
  assert (Hr : exists e,
             fst (add_cavity_data "R1" refused_data (lit 5000) fresh_scan) = Err e)
    by (eexists; vm_compute; reflexivity).
  split; [exact Hr|]. destruct Hr as [e He].
  destruct (add_cavity_data_raise_state "R1" refused_data (lit 5000) fresh_scan e He)
    as [_ [_ [_ [Hn _]]]].
  exact Hn.
Defined.

Lemma insert_data_commits_rows_witness :
  fst (insert_data (sample_scan, empty_conn)) = Ok tt
  /\ exists rows,
      scan_rows sample_scan 1 1 = Some rows
      /\ committed (snd (snd (insert_data (sample_scan, empty_conn)))) = rows.
Proof.
  assert (Hrun : fst (insert_data (sample_scan, empty_conn)) = Ok tt)
    by (vm_compute; reflexivity).
  split; [exact Hrun|].
  destruct (insert_data (sample_scan, empty_conn)) as [r st'] eqn:Hcall.
  simpl in Hrun. subst r.
  destruct (insert_data_commits_rows sample_scan empty_conn st' Hcall)
    as [rows [Hrows [Hcm _]]].
  exists rows. split; [exact Hrows | exact Hcm].
Defined.

Lemma insert_data_rows_referential_witness :
  fst (insert_data (sample_scan, empty_conn)) = Ok tt
  /\ exists rows,
      committed (snd (snd (insert_data (sample_scan, empty_conn)))) = rows
      /\ scan_ids rows = [1]
      /\ waveform_ids rows = [1; 2].
Proof.
  assert (Hrun : fst (insert_data (sample_scan, empty_conn)) = Ok tt)
    by (vm_compute; reflexivity).
  split; [exact Hrun|].
  destruct (insert_data (sample_scan, empty_conn)) as [r st'] eqn:Hcall.
  simpl in Hrun. subst r.
  destruct (insert_data_rows_referential sample_scan empty_conn st' Hcall)
    as [rows [Hcm [Hs [Hw _]]]].
  exists rows. split; [exact Hcm|]. split; [exact Hs|].
  rewrite Hw. vm_compute. reflexivity.
Defined.

Lemma insert_data_needs_witness :
  fst (insert_data (sample_scan, empty_conn)) = Ok tt
  /\ exists rate raw arrays scalars,
      dict_get "R1" (sampling_rate sample_scan) = Some rate
      /\ dict_get2 "R1" "GMES" (waveform_data sample_scan) = Some (PyNdarray raw)
      /\ dict_get2 "R1" "GMES" (analysis_array sample_scan) = Some arrays
      /\ dict_get2 "R1" "GMES" (analysis_scalar sample_scan) = Some scalars.
Proof.
  assert (Hrun : fst (insert_data (sample_scan, empty_conn)) = Ok tt)
    by (vm_compute; reflexivity).
  split; [exact Hrun|].
  apply (insert_data_needs sample_scan empty_conn Hrun "R1" "GMES").
  vm_compute. left. reflexivity.
Defined.

Lemma add_scan_data_across_calls_witness :
  let s2 := snd (add_scan_data [] [("A", "x")]
                   (snd (add_scan_data [("A", lit 1)] [] fresh_scan))) in
  dict_mem "A" (scan_data_float s2) = true /\ dict_mem "A" (scan_data_str s2) = true.
Proof.
  intros s2.
  destruct (add_scan_data_across_calls [("A", lit 1)] [] [] [("A", "x")] fresh_scan
              eq_refl eq_refl) as [_ [_ H]].
  apply (H "A"); reflexivity.
Defined.

Lemma insert_data_without_signals_witness :
  exists st',
    insert_data (time_only_scan, empty_conn) = (Ok tt, st')
    /\ committed (snd st') = [ScanRow 1 (get_datetime_as_utc t0) (get_datetime_as_utc t1)]
    /\ next_wid (snd st') = 1.
Proof.
  destruct (insert_data_without_signals time_only_scan empty_conn eq_refl eq_refl)
    as [st' [Hrun [Hcm Hw]]].
  exists st'. split; [exact Hrun|]. split; [exact Hcm | exact Hw].
Defined.

Lemma insert_data_twice_witness :
  exists st1 st2 rows1 rows2,
    insert_data (sample_scan, empty_conn) = (Ok tt, st1)
    /\ insert_data st1 = (Ok tt, st2)
    /\ scan_rows sample_scan 1 1 = Some rows1
    /\ scan_rows sample_scan 2 3 = Some rows2
    /\ committed (snd st2) = (rows1 ++ rows2)%list.
Proof.
  assert (Hws : exists ws,
             all_waveform_statements sample_scan 1 1 (waveform_pairs sample_scan)
             = Some ws) by (eexists; vm_compute; reflexivity).
  destruct Hws as [ws Hws].
  assert (Hlen : len (waveform_pairs sample_scan) = 2) by (vm_compute; reflexivity).
  destruct (insert_data_twice sample_scan empty_conn ws eq_refl Hws)
    as [st1 [st2 [rows1 [rows2 [H1 [H2 [Hr1 [Hr2 Hcm]]]]]]]].
  rewrite Hlen in Hr2.
  exists st1, st2, rows1, rows2.
  split; [exact H1|]. split; [exact H2|]. split; [exact Hr1|].
  split; [exact Hr2 | exact Hcm].
Defined.

Lemma insert_data_after_list_witness :
  fst (add_cavity_data "R1" [("GMES", list_wave)] (lit 5000) fresh_scan) = Ok tt
  /\ fst (insert_data
            (snd (add_cavity_data "R1" [("GMES", list_wave)] (lit 5000) fresh_scan),
             empty_conn)) <> Ok tt.
Proof.
  split; [vm_compute; reflexivity|].
  apply (insert_data_after_list "R1" [("GMES", list_wave)] (lit 5000) fresh_scan
           "GMES" (repeat (PyNum (lit 0)) (Z.to_nat 8192)) list_wave empty_conn).
  - reflexivity.
  - discriminate.
  - left. reflexivity.
Defined.

Lemma insert_data_after_calls_witness :
  let s := run_calls [("R1", sample_data, lit 5000); ("R2", sample_data, lit 2500)]
                     (Scan_init t0 t1 None) in
  exists st' rows,
    insert_data (s, empty_conn) = (Ok tt, st')
    /\ scan_rows s 1 1 = Some rows
    /\ committed (snd st') = rows.
Proof.
  apply (insert_data_after_calls t0 t1 None
           [("R1", sample_data, lit 5000); ("R2", sample_data, lit 2500)] empty_conn).
  - vm_compute. reflexivity.
  - vm_compute. reflexivity.
  - reflexivity.
Defined.

Lemma stage_frame_witness :
  let q := query_on [Err (DatabaseError 2013 "Lost connection")] in
  fst (Query.stage q) = Err (DatabaseError 2013 "Lost connection")
  /\ Query.staged (snd (Query.stage q)) = false
  /\ Query.scan_meta (snd (Query.stage q)) = None.
Proof.
  intros q.
  destruct (@stage_frame ScriptedDB q) as [_ [_ [_ H]]].
  destruct (H (DatabaseError 2013 "Lost connection") eq_refl) as [_ [Hs Hm]].
  split; [reflexivity|]. split; [exact Hs | exact Hm].
Defined.

Lemma run_frame_witness :
  let q := snd (Query.stage
                  (query_on [Ok [scan_row 1 t0]; Ok [waveform_row 1 "GMES"]; Ok []])) in
  Query.staged q = true
  /\ Query.wf_data (snd (Query.run q)) <> None
  /\ Query.wf_meta (snd (Query.run q)) <> None.
Proof.
  intros q.
  destruct (@run_frame ScriptedDB q) as [_ [_ [_ [_ H]]]].
  apply H. reflexivity.
Defined.

Lemma run_raises_between_witness :
  let q := snd (Query.stage
                  (query_on [Ok [scan_row 1 t0]; Ok [waveform_row 1 "GMES"];
                             Err (DatabaseError 2013 "Lost connection")])) in
  fst (Query.run q) = Err (DatabaseError 2013 "Lost connection")
  /\ Query.wf_data (snd (Query.run q)) = Some [waveform_row 1 "GMES"]
  /\ Query.wf_meta (snd (Query.run q)) = None.
Proof.
  intros q.
  apply (@run_raises_between ScriptedDB q [scan_row 1 t0] [waveform_row 1 "GMES"]
           [Err (DatabaseError 2013 "Lost connection")] []
           (DatabaseError 2013 "Lost connection"));
    reflexivity.
Defined.

Lemma stage_then_run_witness :
  let q := query_on [Ok [scan_row 1 t0; scan_row 2 t1];
                     Ok [waveform_row 1 "GMES"; waveform_row 2 "GMES"];
                     Ok [waveform_row 1 "GMES"]] in
  let q2 := snd (Query.run (snd (Query.stage q))) in
  fst (Query.run (snd (Query.stage q))) = Ok tt
  /\ Query.scan_meta q2 = Some [scan_row 1 t0; scan_row 2 t1]
  /\ Query.wf_data q2 = Some [waveform_row 1 "GMES"; waveform_row 2 "GMES"]
  /\ Query.wf_meta q2 = Some [waveform_row 1 "GMES"]
  /\ Query.db q2 = [].
Proof.
  intros q.
  apply (@stage_then_run ScriptedDB q [scan_row 1 t0; scan_row 2 t1]
           [waveform_row 1 "GMES"; waveform_row 2 "GMES"] [waveform_row 1 "GMES"]
           [Ok [waveform_row 1 "GMES"; waveform_row 2 "GMES"];
            Ok [waveform_row 1 "GMES"]]
           [Ok [waveform_row 1 "GMES"]] []);
    reflexivity.
Defined.

Lemma run_after_empty_stage_witness :
  let q := query_on [Ok []; Ok [waveform_row 1 "GMES"]] in
  fst (Query.stage q) = Ok tt
  /\ Query.get_scan_count (snd (Query.stage q)) = (Ok 0, snd (Query.stage q))
  /\ Query.run (snd (Query.stage q))
     = (Err (AttributeError "'DataFrame' object has no attribute 'sid'"),
        snd (Query.stage q)).
Proof.
  intros q.
  apply (@run_after_empty_stage ScriptedDB q [Ok [waveform_row 1 "GMES"]]).
  reflexivity.
Defined.

Lemma get_frequency_range_no_samples_witness :
  Query.get_frequency_range 5000 (-8192) = Ok [].
Proof.
  destruct (get_frequency_range_no_samples 5000) as [_ [_ H]].
  apply H. lia.
Defined.


(* ================================================================== *)
(** * Scan.insert_data: how many rows *)

Section Census.
Context {NP : NumPy}.

Lemma rows_of_cons (t : string) (r : row) (rows : list row) :
  rows_of t (r :: rows)
  = (if String.eqb (table_name r) t then 1 else 0) + rows_of t rows.
Proof.
  unfold rows_of, len. simpl.
  destruct (String.eqb (table_name r) t); simpl List.length; lia.
Qed.

Lemma rows_of_app (t : string) (a b : list row) :
  rows_of t (a ++ b) = rows_of t a + rows_of t b.
Proof.
  unfold rows_of, len. rewrite filter_app, length_app. lia.
Qed.

Lemma rows_of_map {X} (t t' : string) (f : X -> row) (l : list X) :
  (forall x, table_name (f x) = t') ->
  rows_of t (map f l) = if String.eqb t' t then len l else 0.
Proof.
  intros Hf. induction l as [|x l IH]; simpl.
  - destruct (String.eqb t' t); reflexivity.
  - rewrite rows_of_cons, IH, Hf, len_cons.
    destruct (String.eqb t' t); lia.
Qed.

Lemma len_app {X} (a b : list X) : len (a ++ b) = len a + len b.
Proof. unfold len. rewrite length_app. lia. Qed.

Lemma analyze_signal_shape (w : pyobj) (rate : scalar) sc ar :
  analyze_signal w rate = Ok (sc, ar) ->
  len sc = 10 /\ exists pxx, ar = [("power_spectrum", pxx)].
Proof.
  unfold analyze_signal.
  destruct (negb (is_array_like w)); [discriminate|].
  destruct (numeric_values (np_array w)); [|discriminate].
  destruct (negb (len (np_array w) =? 8192)); [discriminate|].
  destruct (periodogram l rate) as [f pxx]. intros H. inversion H.
  split; [reflexivity | eauto].
Qed.

Lemma waveform_rows_census (s : Scan) (sid wid : Z) (cav sg : string)
      (data : dict pyobj) (raw : list pyelem) :
  cavity_ok s cav ->
  dict_get cav (waveform_data s) = Some data ->
  dict_get sg data = Some (PyNdarray raw) ->
  sg <> "Time" ->
  exists r,
    waveform_rows s sid wid cav sg = Some r
    /\ len r = 13
    /\ forall t, rows_of t r = per_waveform t.
Proof.
  intros Hok Hdata Hsg Hne.
  destruct (Hok data sg _ Hdata Hsg Hne) as [rate [sc [ar [Hr [Han [Hsc Har]]]]]].
  destruct (analyze_signal_shape _ _ _ _ Han) as [Hlen [pxx ->]].
  unfold waveform_rows. rewrite Hr, Har, Hsc.
  unfold dict_get2. rewrite Hdata, Hsg.
  eexists. split; [reflexivity|]. simpl. split.
  - rewrite !len_cons, len_map. unfold dict_items. lia.
  - intros t. rewrite !rows_of_cons.
    rewrite (rows_of_map t "waveform_sdata") by reflexivity.
    unfold dict_items. rewrite Hlen. unfold per_waveform. simpl table_name.
    destruct (String.eqb "waveform" t); destruct (String.eqb "waveform_adata" t);
      destruct (String.eqb "waveform_sdata" t); lia.
Qed.

Lemma all_waveform_rows_census (s : Scan) (sid : Z) (P : list (string * string)) :
  (forall cav sg, In (cav, sg) P ->
     forall wid, exists r, waveform_rows s sid wid cav sg = Some r
                           /\ len r = 13
                           /\ forall t, rows_of t r = per_waveform t) ->
  forall wid, exists rows,
    all_waveform_rows s sid wid P = Some rows
    /\ len rows = 13 * len P
    /\ forall t, rows_of t rows = per_waveform t * len P.
Proof.
  induction P as [|[cav sg] P IH]; intros H wid; cbn [all_waveform_rows].
  - exists []. split; [reflexivity|]. split; [reflexivity|].
    intros t. unfold rows_of, len. simpl. lia.
  - destruct (H cav sg (or_introl eq_refl) wid) as [r [-> [Hl Hr]]].
    destruct (IH (fun cav' sg' Hin => H cav' sg' (or_intror Hin)) (wid + 1))
      as [rows [-> [Hl' Hrows]]].
    eexists. split; [reflexivity|]. split.
    + rewrite len_app, Hl, Hl', len_cons. lia.
    + intros t. rewrite rows_of_app, Hr, Hrows, len_cons. lia.
Qed.

Lemma scan_rows_census (s : Scan) (sid wid : Z) :
  nodup_keys (waveform_data s) = true ->
  holds_ndarrays s ->
  scan_inv s ->
  exists rows,
    scan_rows s sid wid = Some rows
    /\ len rows = 1 + 13 * len (waveform_pairs s)
                  + len (scan_data_float s) + len (scan_data_str s)
    /\ forall t,
        rows_of t rows
        = (if String.eqb "scan" t then 1 else 0)
          + per_waveform t * len (waveform_pairs s)
          + (if String.eqb "scan_fdata" t then len (scan_data_float s) else 0)
          + (if String.eqb "scan_sdata" t then len (scan_data_str s) else 0).
Proof.
  intros Hno Hh Hinv.
  destruct (all_waveform_rows_census s sid (waveform_pairs s)) with (wid := wid)
    as [wr [Hwr [Hl Hc]]].
  { intros cav sg Hin wid'. apply waveform_pairs_in in Hin.
    destruct Hin as [data [Hin [Hk Hne]]].
    pose proof (nodup_keys_get cav data _ Hno Hin) as Hdata.
    destruct (dict_get_keys sg data Hk) as [w Hw].
    destruct (Hh cav data sg w Hdata Hw Hne) as [raw ->].
    apply (waveform_rows_census s sid wid' cav sg data raw (Hinv cav) Hdata Hw Hne). }
  unfold scan_rows. rewrite Hwr. eexists. split; [reflexivity|]. split.
  - rewrite len_cons, !len_app, Hl. unfold scan_fdata_rows, scan_sdata_rows.
    rewrite !len_map. lia.
  - intros t. rewrite rows_of_cons, !rows_of_app, Hc.
    unfold scan_fdata_rows, scan_sdata_rows.
    rewrite (rows_of_map t "scan_fdata") by reflexivity.
    rewrite (rows_of_map t "scan_sdata") by reflexivity.
    simpl table_name. lia.
Qed.

Lemma add_cavity_data_keeps_metadata c data rate (s : Scan) :
  scan_data_float (snd (add_cavity_data c data rate s)) = scan_data_float s
  /\ scan_data_str (snd (add_cavity_data c data rate s)) = scan_data_str s.
Proof.
  rewrite add_cavity_data_unfold.
  destruct (signals_loop_run c data rate (cavity_reset c data rate s)
              (dict_keys data) [] _
              (bundles_within_reset c data rate s) (kept_refl _)) as [Hk _].
  destruct Hk as [_ [_ [_ [_ [_ [Hf Hs]]]]]]. rewrite Hf, Hs. auto.
Qed.

Lemma run_calls_keeps_metadata (cs : list call) :
  forall s : Scan,
    scan_data_float (run_calls cs s) = scan_data_float s
    /\ scan_data_str (run_calls cs s) = scan_data_str s.
Proof.
  induction cs as [|[[c d] r] cs IH]; intros s; simpl; [auto|].
  destruct (IH (snd (add_cavity_data c d r s))) as [Hf Hs].
  destruct (add_cavity_data_keeps_metadata c d r s) as [Hf' Hs'].
  rewrite Hf, Hs, Hf', Hs'. auto.
Qed.

(** What a Scan costs in rows.  Take a Scan that holds no cavity yet, add
    cavities by [add_cavity_data] calls that all return, with ndarrays for
    the signals other than Time, and write it on a connection that does not
    fail.  With [n] signals other than Time in the end, the call commits one
    scan row, [n] waveform rows, two array rows (raw and power_spectrum) and
    ten scalar rows for each of them, and one row for each entry of the scan
    metadata. *)
Theorem insert_data_row_counts (s0 : Scan) (cs : list call) (c : Conn) :
  waveform_data s0 = [] ->
  all_returned cs s0 = true ->
  forallb (fun k : call => ndarray_signals (snd (fst k))) cs = true ->
  faults c = [] ->
  let s := run_calls cs s0 in
  let n := len (waveform_pairs s) in
  exists st' rows,
    insert_data (s, c) = (Ok tt, st')
    /\ committed (snd st') = (committed c ++ pending c ++ rows)%list
    /\ rows_of "scan" rows = 1
    /\ rows_of "waveform" rows = n
    /\ rows_of "waveform_adata" rows = 2 * n
    /\ rows_of "waveform_sdata" rows = 10 * n
    /\ rows_of "scan_fdata" rows = len (scan_data_float s0)
    /\ rows_of "scan_sdata" rows = len (scan_data_str s0)
    /\ len rows = 1 + 13 * n + len (scan_data_float s0) + len (scan_data_str s0).
Proof.
  intros Hw0 Hret Hnd Hq s n.
  destruct (run_calls_insertable cs s0 Hret Hnd) as [Hno [Hh Hinv]].
  { rewrite Hw0. split; [reflexivity|]. split.
    - intros cav data sg w Hdata. rewrite Hw0 in Hdata. discriminate.
    - intros cav data sg w Hdata. rewrite Hw0 in Hdata. discriminate. }
  fold s in Hno, Hh, Hinv.
  destruct (insertable_statements s (next_sid c) (next_wid c) Hno Hh Hinv) as [ws Hws].
  destruct (insert_data_returns s c _ _ ws Hq Hws) as [st' [Hrun _]].
  destruct (insert_data_rows s c st' Hrun) as [rows [Hrows [Hcm _]]].
  destruct (scan_rows_census s (next_sid c) (next_wid c) Hno Hh Hinv)
    as [rows' [Hrows' [Hlen Hc]]].
  rewrite Hrows in Hrows'. inversion Hrows'. subst rows'.
  destruct (run_calls_keeps_metadata cs s0) as [Hf Hs]. fold s in Hf, Hs.
  rewrite Hf, Hs in Hlen.
  exists st', rows. split; [exact Hrun|]. split; [exact Hcm|].
  fold n in Hlen.
  assert (Hcount : forall t a b f d,
             String.eqb "scan" t = a -> String.eqb "waveform" t = b ->
             String.eqb "waveform_adata" t = f -> String.eqb "waveform_sdata" t = d ->
             forall x y, String.eqb "scan_fdata" t = x -> String.eqb "scan_sdata" t = y ->
             rows_of t rows
             = (if a then 1 else 0)
               + ((if b then 1 else 0) + (if f then 2 else 0) + (if d then 10 else 0)) * n
               + (if x then len (scan_data_float s0) else 0)
               + (if y then len (scan_data_str s0) else 0)).
  { intros t a b f d <- <- <- <- x y <- <-. rewrite Hc, Hf, Hs. reflexivity. }
  split; [rewrite (Hcount "scan" true false false false eq_refl eq_refl eq_refl eq_refl
                    false false eq_refl eq_refl); lia|].
  split; [rewrite (Hcount "waveform" false true false false eq_refl eq_refl eq_refl eq_refl
                    false false eq_refl eq_refl); lia|].
  split; [rewrite (Hcount "waveform_adata" false false true false eq_refl eq_refl eq_refl eq_refl
                    false false eq_refl eq_refl); lia|].
  split; [rewrite (Hcount "waveform_sdata" false false false true eq_refl eq_refl eq_refl eq_refl
                    false false eq_refl eq_refl); lia|].
  split; [rewrite (Hcount "scan_fdata" false false false false eq_refl eq_refl eq_refl eq_refl
                    true false eq_refl eq_refl); lia|].
  split; [rewrite (Hcount "scan_sdata" false false false false eq_refl eq_refl eq_refl eq_refl
                    false true eq_refl eq_refl); lia|].
  exact Hlen.
Qed.

End Census.

Lemma insert_data_row_counts_witness :
  let s0 := snd (add_scan_data [("R1XXITOT", lit 7)] [("mode", "CW")] fresh_scan) in
  let s := run_calls [("R1", sample_data, lit 5000); ("R2", sample_data, lit 2500)] s0 in
  exists st' rows,
    insert_data (s, empty_conn) = (Ok tt, st')
    /\ committed (snd st') = rows
    /\ rows_of "waveform" rows = 4
    /\ rows_of "waveform_adata" rows = 8
    /\ rows_of "waveform_sdata" rows = 40
    /\ len rows = 55.
Proof.
  intros s0 s.
  assert (Hn : len (waveform_pairs s) = 4) by (vm_compute; reflexivity).
  destruct (insert_data_row_counts s0
              [("R1", sample_data, lit 5000); ("R2", sample_data, lit 2500)]
              empty_conn)
    as [st' [rows [Hrun [Hcm [_ [Hw [Ha [Hs [_ [_ Hlen]]]]]]]]]].
  - reflexivity.
  - vm_compute. reflexivity.
  - vm_compute. reflexivity.
  - reflexivity.
  - fold s in Hrun, Hw, Ha, Hs, Hlen. rewrite Hn in Hw, Ha, Hs, Hlen.
    exists st', rows. split; [exact Hrun|]. split; [exact Hcm|].
    split; [exact Hw|]. split; [exact Ha|]. split; [exact Hs | exact Hlen].
Defined.

(* ================================================================== *)
(** * Scan: after a call that raised *)

Section AfterARaise.
Context {NP : NumPy}.

Lemma add_cavity_data_refused (c : string) (data : dict pyobj) (rate : scalar)
      (s : Scan) (e : exn) :
  fst (add_cavity_data c data rate s) = Err e ->
  exists sg w,
    dict_get sg data = Some w /\ sg <> "Time"
    /\ dict_get2 c sg (analysis_array (snd (add_cavity_data c data rate s))) = None.
Proof.
  intros Herr.
  rewrite add_cavity_data_unfold in *.
  destruct (signals_loop_run c data rate (cavity_reset c data rate s)
              (dict_keys data) [] _
              (bundles_within_reset c data rate s) (kept_refl _))
    as [_ Hcases].
  destruct (for_each (dict_keys data) (analyse_and_store c data rate)
                     (cavity_reset c data rate s)) as [r s'] eqn:Hrun.
  simpl in *. subst r.
  destruct Hcases as [[_ [Hok _]]|[e' [pre [sg [post [Hkeys [Hpre [Href [_ [He Hbw]]]]]]]]]];
    [discriminate|].
  destruct Hbw as [ms [ma [Hms [Hma Honly]]]].
  assert (Hin : In sg (dict_keys data))
    by (rewrite Hkeys; apply in_or_app; right; left; reflexivity).
  destruct (dict_get_keys sg data Hin) as [w Hw].
  assert (Hne : sg <> "Time").
  { unfold refusal in Href.
    destruct (String.eqb_spec sg "Time"); [discriminate | assumption]. }
  assert (Hnot : ~ In sg pre).
  { intros Hp. clear - Hp Hpre Href.
    induction pre as [|y pre IH]; [destruct Hp|]. simpl in Hpre.
    destruct (refusal data rate y) eqn:Hy; [discriminate|].
    destruct Hp as [->|Hp]; [congruence | auto]. }
  exists sg, w. split; [exact Hw|]. split; [exact Hne|].
  unfold dict_get2. rewrite Hma.
  destruct (dict_get sg ma) eqn:Hg; [|reflexivity].
  exfalso. apply Hnot. apply (Honly sg). right. rewrite Hg. discriminate.
Qed.

(** A Scan on which [add_cavity_data] has just raised cannot be written:
    the signal that was refused is stored without its bundles, and
    [insert_data] does not return, whatever the connection. *)
Theorem insert_data_after_refusal
        (c : string) (data : dict pyobj) (rate : scalar) (s : Scan) (e : exn)
        (conn : Conn) :
  fst (add_cavity_data c data rate s) = Err e ->
  fst (insert_data (snd (add_cavity_data c data rate s), conn)) <> Ok tt.
Proof.
  intros Herr Hok.
  destruct (add_cavity_data_refused c data rate s e Herr) as [sg [w [Hw [Hne Hnone]]]].
  set (s' := snd (add_cavity_data c data rate s)) in *.
  assert (Hst : waveform_data s' = dict_set c data (waveform_data s))
    by apply add_cavity_data_stores.
  assert (Hin : In (c, sg) (waveform_pairs s')).
  { apply waveform_pairs_in. exists data. rewrite Hst.
    split; [apply dict_set_in|]. split; [|exact Hne].
    apply dict_mem_keys. unfold dict_mem. rewrite Hw. reflexivity. }
  destruct (insert_data_ok_lookups s' conn Hok c sg Hin)
    as [r [raw [ar [sc [_ [_ [Har _]]]]]]].
  rewrite Hnone in Har. discriminate.
Qed.



End AfterARaise.

Lemma insert_data_after_refusal_witness :
  (exists e, fst (add_cavity_data "R1" refused_data (lit 5000) fresh_scan) = Err e)
  /\ fst (insert_data (snd (add_cavity_data "R1" refused_data (lit 5000) fresh_scan),
                       empty_conn)) <> Ok tt.
Proof.
  assert (Hr : exists e,
             fst (add_cavity_data "R1" refused_data (lit 5000) fresh_scan) = Err e)
    by (eexists; vm_compute; reflexivity).
  split; [exact Hr|]. destruct Hr as [e He].
  apply (insert_data_after_refusal "R1" refused_data (lit 5000) fresh_scan e
           empty_conn He).
Defined.


(* ================================================================== *)
(** * Query: before a staging that returns *)

Section QueryUnstaged.
Import Query.
Context {DB : WaveformDB}.

Lemma stage_raises (q : Query) (e : exn) (d : db_state) :
  query_scan_rows (begin_ q) (end_ q) (scan_filter q) (db q) = (Err e, d) ->
  stage q = (Err e, set_db d q).
Proof.
  intros Hrows. unfold stage, bind, get_state, on_db. rewrite Hrows. reflexivity.
Qed.

(** Until a [stage] has returned, a Query has no table of scans.  On a new
    Query [get_scan_count] raises a TypeError, the length of None; and when
    the first [stage] raises because its query does, the Query is still
    unstaged: [run] refuses it as not staged and [get_scan_count] raises the
    same TypeError. *)
Theorem new_query_failed_stage
        (d d' : db_state) (sn : list string) (an wm : option (list string))
        (b e : option datetime) (f : option QueryFilter) (err : exn) :
  query_scan_rows b e f d = (Err err, d') ->
  let q := init d sn an b e f wm in
  fst (get_scan_count q) = Err (TypeError "object of type 'NoneType' has no len()")
  /\ fst (stage q) = Err err
  /\ fst (run (snd (stage q))) = Err (RuntimeError "Query not staged.")
  /\ fst (get_scan_count (snd (stage q)))
     = Err (TypeError "object of type 'NoneType' has no len()").
Proof.
  intros Hrows q.
  split; [reflexivity|].
  rewrite (stage_raises q err d' Hrows). cbn [fst snd].
  split; [reflexivity|]. split; [|reflexivity].
  rewrite run_unstaged; reflexivity.
Qed.

End QueryUnstaged.

Lemma new_query_failed_stage_witness :
  let q := query_on [Err (DatabaseError 2013 "Lost connection"); Ok [scan_row 1 t0]] in
  fst (Query.stage q) = Err (DatabaseError 2013 "Lost connection")
  /\ fst (Query.run (snd (Query.stage q))) = Err (RuntimeError "Query not staged.").
Proof.
  intros q.
  destruct (@new_query_failed_stage ScriptedDB
              [Err (DatabaseError 2013 "Lost connection"); Ok [scan_row 1 t0]]
              [Ok [scan_row 1 t0]] ["GMES"] None None None None None
              (DatabaseError 2013 "Lost connection") eq_refl)
    as [_ [Hst [Hrun _]]].
  split; [exact Hst | exact Hrun].
Defined.
